(** * MediTrack: appointment lifecycle, booking policy, prescriptions, feedback

    A shallow embedding of the client-side logic of the MediTrack React
    components (BookAppointment, ManageAppointments, PrescriptionForm,
    PatientFeedback, DoctorFeedback, ViewPrescriptions, DoctorPrescriptions,
    and the route guard of App) and the properties the specification states
    about them, followed by further properties read off the code.

    Conventions of the embedding.
    - A React component is a record of its [useState] cells; an event handler
      is a function from the state (and the external store) to the new state
      (and store).  The result of an awaited Firestore call is an argument of
      the handler: [Some id] / [true] when the call resolves, [None] /
      [false] when it throws and the [catch] branch runs.
    - A Firestore collection is the list of its documents, each carrying its
      document id.  No property below depends on the enumeration order.
    - JavaScript strings are [string]s whose characters are code units below
      256; numbers that the code only uses as integers are [Z]; an optional
      ([undefined]) field is an [option].
    - Instants are milliseconds since the epoch, as [Date.prototype.getTime]
      returns them. *)

From Stdlib Require Import ZArith QArith Qround List Sorted String Ascii Lia Bool DecimalString.
From stdpp Require Import base list strings gmap.
Import ListNotations.

Open Scope string_scope.
Open Scope Z_scope.

(** ** The JavaScript primitives the components call *)

Module JS.

(** [!s] is [true] exactly for the empty string. *)
Definition truthy (s : string) : bool := negb (String.eqb s "").

(** WhiteSpace and LineTerminator code units below 256 (ECMAScript 12.2,
    12.3): TAB, LF, VT, FF, CR, SP, NBSP. *)
Definition isWhiteSpace (c : ascii) : bool :=
  let n := N_of_ascii c in
  ((n =? 9) || (n =? 10) || (n =? 11) || (n =? 12) || (n =? 13)
   || (n =? 32) || (n =? 160))%N.

Fixpoint trimStart (s : string) : string :=
  match s with
  | EmptyString => EmptyString
  | String c s' => if isWhiteSpace c then trimStart s' else s
  end.

Fixpoint trimEnd (s : string) : string :=
  match s with
  | EmptyString => EmptyString
  | String c s' =>
      match trimEnd s' with
      | EmptyString => if isWhiteSpace c then EmptyString else String c EmptyString
      | t => String c t
      end
  end.

(** [String.prototype.trim] *)
Definition trim (s : string) : string := trimEnd (trimStart s).

(** [Number.prototype.toString] on an integer *)
Definition toString (n : Z) : string := NilZero.string_of_int (Z.to_int n).

Fixpoint filler (n : nat) (pad rest : string) : string :=
  match n with
  | O => EmptyString
  | S n' =>
      match rest with
      | String c r => String c (filler n' pad r)
      | EmptyString =>
          match pad with
          | String c r => String c (filler n' pad r)
          | EmptyString => EmptyString
          end
      end
  end.

(** [String.prototype.padStart] *)
Definition padStart (s : string) (targetLength : nat) (padString : string) : string :=
  if (targetLength <=? String.length s)%nat then s
  else filler (targetLength - String.length s) padString padString +:+ s.

(** [Math.round]: the nearest integer, halves towards plus infinity. *)
Definition Math_round (x : Q) : Z := Qfloor (x + (1 # 2)).

(** *** Dates *)

Definition msPerDay : Z := 86400000.

(** Day number (days since 1970-01-01) of a proleptic Gregorian date. *)
Definition days_from_civil (y m d : Z) : Z :=
  let y' := if m <=? 2 then y - 1 else y in
  let era := y' / 400 in
  let yoe := y' - era * 400 in
  let doy := (153 * (if 2 <? m then m - 3 else m + 9) + 2) / 5 + d - 1 in
  let doe := yoe * 365 + yoe / 4 - yoe / 100 + doy in
  era * 146097 + doe - 719468.

Definition civil_from_days (z : Z) : Z * Z * Z :=
  let z' := z + 719468 in
  let era := z' / 146097 in
  let doe := z' - era * 146097 in
  let yoe := (doe - doe / 1460 + doe / 36524 - doe / 146096) / 365 in
  let doy := doe - (365 * yoe + yoe / 4 - yoe / 100) in
  let mp := (5 * doy + 2) / 153 in
  let d := doy - (153 * mp + 2) / 5 + 1 in
  let m := if mp <? 10 then mp + 3 else mp - 9 in
  (yoe + era * 400 + (if m <=? 2 then 1 else 0), m, d).

Definition isLeap (y : Z) : bool :=
  ((y mod 4 =? 0) && negb (y mod 100 =? 0)) || (y mod 400 =? 0).

Definition daysInMonth (y m : Z) : Z :=
  if m =? 2 then (if isLeap y then 29 else 28)
  else if (m =? 4) || (m =? 6) || (m =? 9) || (m =? 11) then 30 else 31.

Definition digit (c : ascii) : option Z :=
  let n := Z.of_N (N_of_ascii c) in
  if (48 <=? n) && (n <=? 57) then Some (n - 48) else None.

Definition digits2 (a b : ascii) : option Z :=
  match digit a, digit b with
  | Some x, Some y => Some (10 * x + y)
  | _, _ => None
  end.

Definition digits4 (a b c d : ascii) : option Z :=
  match digits2 a b, digits2 c d with
  | Some x, Some y => Some (100 * x + y)
  | _, _ => None
  end.

(** The day number denoted by a date-only string [YYYY-MM-DD], the format
    of the value of an [<input type="date">]; [None] for anything else. *)
Definition dateDay (s : string) : option Z :=
  match s with
  | String y1 (String y2 (String y3 (String y4 (String "-"
      (String m1 (String m2 (String "-" (String d1 (String d2 EmptyString))))))))) =>
      match digits4 y1 y2 y3 y4, digits2 m1 m2, digits2 d1 d2 with
      | Some y, Some m, Some d =>
          if (1 <=? m) && (m <=? 12) && (1 <=? d) && (d <=? daysInMonth y m)
          then Some (days_from_civil y m d) else None
      | _, _, _ => None
      end
  | _ => None
  end.

(** [new Date(s).getTime()] for a date-only string: midnight UTC of that
    day; [None] stands for NaN (Invalid Date).  The date field of the form
    is bound to an [<input type="date">], whose value is empty or of this
    format. *)
Definition Date_parse (s : string) : option Z :=
  match dateDay s with
  | Some d => Some (d * msPerDay)
  | None => None
  end.

(** [a < b] on two time values, false when the left one is NaN. *)
Definition Date_lt (a : option Z) (b : Z) : bool :=
  match a with
  | Some t => t <? b
  | None => false
  end.

Definition pad (width : nat) (n : Z) : string := padStart (toString n) width "0".

(** [new Date(t).toISOString().split('T')[0]] *)
Definition toISODate (t : Z) : string :=
  let '(y, m, d) := civil_from_days (t / msPerDay) in
  let year :=
    if (0 <=? y) && (y <=? 9999) then pad 4 y
    else (if y <? 0 then "-" else "+") +:+ pad 6 (Z.abs y) in
  year +:+ "-" +:+ pad 2 m +:+ "-" +:+ pad 2 d.

(** The clock of the browser: the current instant and the offset of local
    time from UTC in milliseconds (positive east of Greenwich), taken as
    constant around the instant. *)
Record Env := { now : Z; tzOffset : Z }.

(** The local calendar day of [now]. *)
Definition localDay (env : Env) : Z := (now env + tzOffset env) / msPerDay.

(** [d = new Date(); d.setHours(0, 0, 0, 0); d.getTime()] *)
Definition localMidnight (env : Env) : Z := localDay env * msPerDay - tzOffset env.


(** *** parseInt *)

(** The value of a digit in the radix, if it is one *)
Definition digitValue (radix : Z) (c : ascii) : option Z :=
  let n := Z.of_N (N_of_ascii c) in
  let v := if (48 <=? n) && (n <=? 57) then n - 48
           else if (97 <=? n) && (n <=? 122) then n - 87
           else if (65 <=? n) && (n <=? 90) then n - 55
           else 36 in
  if v <? radix then Some v else None.

(** The longest prefix of digits, read in the radix; [acc] is the value of
    the digits read so far, [None] when there is none yet. *)
Fixpoint parseDigits (radix : Z) (acc : option Z) (s : string) : option Z :=
  match s with
  | EmptyString => acc
  | String c s' =>
      match digitValue radix c with
      | Some v =>
          parseDigits radix
            (Some (match acc with Some a => a * radix + v | None => v end)) s'
      | None => acc
      end
  end.

(** [parseInt(s)] without a radix: leading white space, a sign, a [0x]
    prefix for radix 16, then the longest prefix of digits; [None] stands
    for NaN.  The value is the exact integer (a double is exact up to
    2^53). *)
Definition parseInt (s : string) : option Z :=
  let s1 := trimStart s in
  let '(negative, s2) :=
    match s1 with
    | String "-" r => (true, r)
    | String "+" r => (false, r)
    | _ => (false, s1)
    end in
  let '(radix, s3) :=
    match s2 with
    | String "0" (String "x" r) => (16, r)
    | String "0" (String "X" r) => (16, r)
    | _ => (10, s2)
    end in
  match parseDigits radix None s3 with
  | Some v => Some (if negative then - v else v)
  | None => None
  end.

(** *** Case and search *)

(** The lower-case code unit; below 256 the letters with one are A to Z
    and the accented capitals C0 to DE other than the multiplication sign. *)
Definition lowerChar (c : ascii) : ascii :=
  let n := N_of_ascii c in
  if (((65 <=? n) && (n <=? 90)) || ((192 <=? n) && (n <=? 222) && negb (n =? 215)))%N
  then ascii_of_N (n + 32) else c.

(** [String.prototype.toLowerCase] *)
Fixpoint toLowerCase (s : string) : string :=
  match s with
  | EmptyString => EmptyString
  | String c s' => String (lowerChar c) (toLowerCase s')
  end.

(** [s.includes(search)] *)
Fixpoint includes (s search : string) : bool :=
  String.prefix search s
  || match s with
     | EmptyString => false
     | String _ s' => includes s' search
     end.
End JS.

(** ** Documents of the external store *)

(** [userData] of the auth context *)
Module UserData.
Record t := { uid : string; name : string }.
End UserData.

(** An [appointments] document together with its id, as every component
    builds it with [{ id: doc.id, ...doc.data() }].  [patientId],
    [patientName] and [doctorName] are written from optional chains
    ([userData?.uid], [selectedDoctor?.name]). *)
Module Appointment.
Record t := {
  id : string;
  patientId : option string;
  patientName : option string;
  doctorId : string;
  doctorName : option string;
  date : string;
  time : string;
  note : string;
  status : string;
  createdAt : option Z
}.

(** [{ ...apt, status: s }] *)
Definition with_status (apt : t) (s : string) : t :=
  {| id := id apt; patientId := patientId apt; patientName := patientName apt;
     doctorId := doctorId apt; doctorName := doctorName apt; date := date apt;
     time := time apt; note := note apt; status := s; createdAt := createdAt apt |}.
End Appointment.

Module Medication.
Record t := {
  name : string;
  dosage : string;
  frequency : string;
  duration : string;
  instructions : string
}.
End Medication.

Module Prescription.
Record t := {
  id : string;
  appointmentId : string;
  patientId : string;
  patientName : string;
  diagnosis : string;
  medications : list Medication.t;
  notes : string;
  createdAt : option Z
}.
End Prescription.

Module Feedback.
Record t := {
  id : string;
  appointmentId : string;
  patientId : option string;
  patientName : option string;
  doctorId : string;
  doctorName : option string;
  rating : Z;
  comment : string;
  createdAt : option Z
}.
End Feedback.

(** The three collections the components read and write. *)
Module Firestore.
Record t := {
  appointments : list Appointment.t;
  prescriptions : list Prescription.t;
  feedback : list Feedback.t
}.

Definition empty : t := {| appointments := []; prescriptions := []; feedback := [] |}.

Definition eq_opt (o : option string) (s : string) : bool :=
  match o with
  | Some x => String.eqb x s
  | None => false
  end.

(** [orderBy('createdAt', 'desc')]: the documents that have the field, the
    latest first; documents with the same instant come by document id, in
    the same direction.  [createdAt] and [docId] read the two off a
    document. *)
Section OrderBy.
Context {A : Type} (createdAt : A -> option Z) (docId : A -> string).

Definition hasCreatedAt (a : A) : bool :=
  match createdAt a with
  | Some _ => true
  | None => false
  end.

Definition before (a b : A) : bool :=
  match createdAt a, createdAt b with
  | Some ta, Some tb =>
      (tb <? ta) || ((ta =? tb) && negb (String.ltb (docId a) (docId b)))
  | _, _ => true
  end.

Fixpoint insertDoc (x : A) (l : list A) : list A :=
  match l with
  | [] => [x]
  | y :: l' => if before x y then x :: l else y :: insertDoc x l'
  end.

Definition orderByCreatedAtDesc (l : list A) : list A :=
  List.fold_right insertDoc [] (List.filter hasCreatedAt l).
End OrderBy.
End Firestore.

(** ** BookAppointment *)

Module BookAppointment.

Record Doctor := { id : string; name : string; email : string }.

Record FormData := { doctorId : string; date : string; time : string; note : string }.

Record State := {
  doctors : list Doctor;
  formData : FormData;
  loading : bool;
  success : bool;
  error : string;
  todayBookings : Z
}.

Definition emptyForm : FormData := {| doctorId := ""; date := ""; time := ""; note := "" |}.

(** The [useState] initial values *)
Definition init : State :=
  {| doctors := []; formData := emptyForm; loading := false; success := false;
     error := ""; todayBookings := 0 |}.

Definition setError (st : State) (e : string) : State :=
  {| doctors := doctors st; formData := formData st; loading := loading st;
     success := success st; error := e; todayBookings := todayBookings st |}.

Definition setLoading (st : State) (b : bool) : State :=
  {| doctors := doctors st; formData := formData st; loading := b;
     success := success st; error := error st; todayBookings := todayBookings st |}.

Definition setSuccess (st : State) (b : bool) : State :=
  {| doctors := doctors st; formData := formData st; loading := loading st;
     success := b; error := error st; todayBookings := todayBookings st |}.

Definition setFormData (st : State) (f : FormData) : State :=
  {| doctors := doctors st; formData := f; loading := loading st;
     success := success st; error := error st; todayBookings := todayBookings st |}.

Definition setTodayBookings (st : State) (n : Z) : State :=
  {| doctors := doctors st; formData := formData st; loading := loading st;
     success := success st; error := error st; todayBookings := n |}.

Definition errMaxPerDay : string := "You can only book a maximum of 2 appointments per day".
Definition errRequired : string := "Please fill in all required fields".
Definition errPastDate : string := "Cannot book appointments for past dates".
Definition errFailed : string := "Failed to book appointment. Please try again.".

(** The query of [checkTodayBookings]: the documents of the patient whose
    [date] is the ISO date of the current instant. *)
Definition todayQuery (env : JS.Env) (u : UserData.t) (db : Firestore.t) : list Appointment.t :=
  let today := JS.toISODate (JS.now env) in
  List.filter
    (fun a => Firestore.eq_opt (Appointment.patientId a) (UserData.uid u)
              && String.eqb (Appointment.date a) today)
    (Firestore.appointments db).

(** [queryOk] is whether [getDocs] resolves. *)
Definition checkTodayBookings (env : JS.Env) (userData : option UserData.t)
    (db : Firestore.t) (queryOk : bool) (st : State) : State :=
  match userData with
  | None => st
  | Some u =>
      if queryOk
      then setTodayBookings st (Z.of_nat (length (todayQuery env u db)))
      else st
  end.

(** [handleChange]: the four named inputs of the form *)
Definition handleChange (name value : string) (st : State) : State :=
  let f := formData st in
  setFormData st
    {| doctorId := if String.eqb name "doctorId" then value else doctorId f;
       date := if String.eqb name "date" then value else date f;
       time := if String.eqb name "time" then value else time f;
       note := if String.eqb name "note" then value else note f |}.

(** The document [handleSubmit] passes to [addDoc], with the id the store
    gives it. *)
Definition newAppointment (env : JS.Env) (userData : option UserData.t)
    (st : State) (newId : string) : Appointment.t :=
  let f := formData st in
  let selectedDoctor := List.find (fun doc => String.eqb (id doc) (doctorId f)) (doctors st) in
  {| Appointment.id := newId;
     Appointment.patientId := option_map UserData.uid userData;
     Appointment.patientName := option_map UserData.name userData;
     Appointment.doctorId := doctorId f;
     Appointment.doctorName := option_map name selectedDoctor;
     Appointment.date := date f;
     Appointment.time := time f;
     Appointment.note := note f;
     Appointment.status := "pending";
     Appointment.createdAt := Some (JS.now env) |}.

Definition addAppointment (db : Firestore.t) (a : Appointment.t) : Firestore.t :=
  {| Firestore.appointments := Firestore.appointments db ++ [a];
     Firestore.prescriptions := Firestore.prescriptions db;
     Firestore.feedback := Firestore.feedback db |}.

(** [handleSubmit].  [addDocRes] is the outcome of [addDoc] ([Some] of the
    new document id, or [None] when it throws); [queryOk] that of the
    [getDocs] of the refresh that follows a successful write. *)
Definition handleSubmit (env : JS.Env) (userData : option UserData.t)
    (addDocRes : option string) (queryOk : bool)
    (st : State) (db : Firestore.t) : State * Firestore.t :=
  if 2 <=? todayBookings st then (setError st errMaxPerDay, db)
  else
    let f := formData st in
    if negb (JS.truthy (doctorId f)) || negb (JS.truthy (date f)) || negb (JS.truthy (time f))
    then (setError st errRequired, db)
    else
      let selectedDate := JS.Date_parse (date f) in
      let today := JS.localMidnight env in
      if JS.Date_lt selectedDate today then (setError st errPastDate, db)
      else
        let st1 := setError (setLoading st true) "" in
        match addDocRes with
        | Some newId =>
            let db' := addAppointment db (newAppointment env userData st1 newId) in
            let st2 := setFormData (setSuccess st1 true) emptyForm in
            let st3 := checkTodayBookings env userData db' queryOk st2 in
            (setLoading st3 false, db')
        | None =>
            (setLoading (setError st1 errFailed) false, db)
        end.

(** The two loops of [generateTimeSlots]; [fuel] bounds the number of
    iterations still allowed. *)
Fixpoint minuteLoop (fuel : nat) (hour minute : Z) (slots : list string) : list string :=
  match fuel with
  | O => slots
  | S fuel' =>
      if minute <? 60 then
        let time := JS.padStart (JS.toString hour) 2 "0" +:+ ":"
                    +:+ JS.padStart (JS.toString minute) 2 "0" in
        minuteLoop fuel' hour (minute + 30) (slots ++ [time])
      else slots
  end.

Fixpoint hourLoop (fuel : nat) (hour : Z) (slots : list string) : list string :=
  match fuel with
  | O => slots
  | S fuel' =>
      if hour <=? 17 then hourLoop fuel' (hour + 1) (minuteLoop fuel hour 0 slots)
      else slots
  end.

Definition generateTimeSlotsFuel (fuel : nat) : list string := hourLoop fuel 9 [].

Definition generateTimeSlots : list string := generateTimeSlotsFuel 10.

(** The values of the options of the time [<select>] *)
Definition timeOptions : list string := "" :: generateTimeSlots.

Definition getMinDate (env : JS.Env) : string := JS.toISODate (JS.now env).


(** What a patient does on the page during one UTC day [today], one step
    after the other: the effect that counts today's bookings, typing into
    the form, leaving the confirmation screen, and submitting, the refresh
    of the counter completing before the next step. *)
Inductive booking (today : string) (u : UserData.t)
    : State * Firestore.t -> State * Firestore.t -> Prop :=
| booking_mount env st db :
    JS.toISODate (JS.now env) = today ->
    booking today u (st, db) (checkTodayBookings env (Some u) db true st, db)
| booking_change name value st db :
    booking today u (st, db) (handleChange name value st, db)
| booking_another st db :
    booking today u (st, db) (setSuccess st false, db)
| booking_submit env addDocRes st db :
    JS.toISODate (JS.now env) = today ->
    booking today u (st, db) (handleSubmit env (Some u) addDocRes true st db).

Definition bookings (today : string) (u : UserData.t)
    : State * Firestore.t -> State * Firestore.t -> Prop :=
  Relation_Operators.clos_refl_trans_n1 (State * Firestore.t) (booking today u).
End BookAppointment.

(** ** ManageAppointments *)

Module ManageAppointments.

(** The union type of [Appointment.status] *)
Inductive Status := pending | confirmed | in_progress | completed | cancelled.

Definition statusString (s : Status) : string :=
  match s with
  | pending => "pending"
  | confirmed => "confirmed"
  | in_progress => "in_progress"
  | completed => "completed"
  | cancelled => "cancelled"
  end.

Record Action := { action : string; label : string; color : string }.

Record State := {
  appointments : list Appointment.t;
  loading : bool;
  updating : option string;
  filter : string;
  showPrescriptionForm : bool;
  selectedAppointment : option Appointment.t
}.

Definition init : State :=
  {| appointments := []; loading := true; updating := None; filter := "all";
     showPrescriptionForm := false; selectedAppointment := None |}.

Definition setAppointments (st : State) (l : list Appointment.t) : State :=
  {| appointments := l; loading := loading st; updating := updating st;
     filter := filter st; showPrescriptionForm := showPrescriptionForm st;
     selectedAppointment := selectedAppointment st |}.

Definition setUpdating (st : State) (u : option string) : State :=
  {| appointments := appointments st; loading := loading st; updating := u;
     filter := filter st; showPrescriptionForm := showPrescriptionForm st;
     selectedAppointment := selectedAppointment st |}.

Definition getAvailableActions (status : string) : list Action :=
  if String.eqb status "pending" then
    [ {| action := "confirmed"; label := "Confirm"; color := "bg-blue-600 hover:bg-blue-700" |};
      {| action := "cancelled"; label := "Cancel"; color := "bg-red-600 hover:bg-red-700" |} ]
  else if String.eqb status "confirmed" then
    [ {| action := "in_progress"; label := "Start"; color := "bg-purple-600 hover:bg-purple-700" |};
      {| action := "cancelled"; label := "Cancel"; color := "bg-red-600 hover:bg-red-700" |} ]
  else if String.eqb status "in_progress" then
    [ {| action := "completed"; label := "Complete"; color := "bg-green-600 hover:bg-green-700" |} ]
  else [].

(** The updater passed to [setAppointments]:
    [prev.map(apt => apt.id === appointmentId ? { ...apt, status: newStatus } : apt)] *)
Definition patchStatus (appointmentId newStatus : string)
    (prev : list Appointment.t) : list Appointment.t :=
  List.map
    (fun apt =>
       if String.eqb (Appointment.id apt) appointmentId
       then Appointment.with_status apt newStatus
       else apt)
    prev.

(** [updateDoc(doc(db, 'appointments', appointmentId), { status: newStatus })] *)
Definition updateDoc (appointmentId newStatus : string) (db : Firestore.t) : Firestore.t :=
  {| Firestore.appointments := patchStatus appointmentId newStatus (Firestore.appointments db);
     Firestore.prescriptions := Firestore.prescriptions db;
     Firestore.feedback := Firestore.feedback db |}.

(** [updateAppointmentStatus]; [updateOk] is whether [updateDoc] resolves. *)
Definition updateAppointmentStatus (appointmentId newStatus : string) (updateOk : bool)
    (st : State) (db : Firestore.t) : State * Firestore.t :=
  let st1 := setUpdating st (Some appointmentId) in
  if updateOk then
    let st2 := setAppointments st1 (patchStatus appointmentId newStatus (appointments st1)) in
    (setUpdating st2 None, updateDoc appointmentId newStatus db)
  else (setUpdating st1 None, db).

(** One click on a button of the action column: the buttons of a row are
    [getAvailableActions(appointment.status)], and a click calls
    [updateAppointmentStatus(appointment.id, action.action)]. *)
Inductive click : State * Firestore.t -> State * Firestore.t -> Prop :=
| click_action st db apt act updateOk :
    In apt (appointments st) ->
    In act (getAvailableActions (Appointment.status apt)) ->
    click (st, db) (updateAppointmentStatus (Appointment.id apt) (action act) updateOk st db).

(** Any number of clicks, one after the other *)
Inductive clicks : State * Firestore.t -> State * Firestore.t -> Prop :=
| clicks_none s : clicks s s
| clicks_more s s' s'' : clicks s s' -> click s' s'' -> clicks s s''.

(** The targets the component offers from a status *)
Definition offered (s : string) : list string := List.map action (getAvailableActions s).

(** A sequence of statuses in which every status is followed by one that
    is offered from it. *)
Fixpoint follows (path : list string) : Prop :=
  match path with
  | s :: ((t :: _) as rest) => In t (offered s) /\ follows rest
  | _ => True
  end.

(** [prefix p q]: [p] is an initial segment of [q]. *)
Definition is_prefix (p q : list string) : Prop := exists r, q = (p ++ r)%list.


Definition setLoading (st : State) (b : bool) : State :=
  {| appointments := appointments st; loading := b; updating := updating st;
     filter := filter st; showPrescriptionForm := showPrescriptionForm st;
     selectedAppointment := selectedAppointment st |}.

Definition setFilter (st : State) (f : string) : State :=
  {| appointments := appointments st; loading := loading st; updating := updating st;
     filter := f; showPrescriptionForm := showPrescriptionForm st;
     selectedAppointment := selectedAppointment st |}.

Definition setShowPrescriptionForm (st : State) (b : bool) : State :=
  {| appointments := appointments st; loading := loading st; updating := updating st;
     filter := filter st; showPrescriptionForm := b;
     selectedAppointment := selectedAppointment st |}.

Definition setSelectedAppointment (st : State) (a : option Appointment.t) : State :=
  {| appointments := appointments st; loading := loading st; updating := updating st;
     filter := filter st; showPrescriptionForm := showPrescriptionForm st;
     selectedAppointment := a |}.

(** The query of [fetchAppointments] *)
Definition doctorQuery (u : UserData.t) (db : Firestore.t) : list Appointment.t :=
  Firestore.orderByCreatedAtDesc Appointment.createdAt Appointment.id
    (List.filter (fun a => String.eqb (Appointment.doctorId a) (UserData.uid u))
       (Firestore.appointments db)).

(** [fetchAppointments]; [queryOk] is whether [getDocs] resolves. *)
Definition fetchAppointments (userData : option UserData.t) (db : Firestore.t)
    (queryOk : bool) (st : State) : State :=
  match userData with
  | None => st
  | Some u =>
      if queryOk then setLoading (setAppointments st (doctorQuery u db)) false
      else setLoading st false
  end.

Definition handleCreatePrescription (appointment : Appointment.t) (st : State) : State :=
  setShowPrescriptionForm (setSelectedAppointment st (Some appointment)) true.

(** The [onClose] passed to the prescription form *)
Definition closePrescriptionForm (st : State) : State :=
  setSelectedAppointment (setShowPrescriptionForm st false) None.

Definition filteredAppointments (st : State) : list Appointment.t :=
  List.filter
    (fun apt => if String.eqb (filter st) "all" then true
                else String.eqb (Appointment.status apt) (filter st))
    (appointments st).

Record FilterOption := { value : string; optionLabel : string }.

Definition filterOptions : list FilterOption :=
  [ {| value := "all"; optionLabel := "All Appointments" |};
    {| value := "pending"; optionLabel := "Pending" |};
    {| value := "confirmed"; optionLabel := "Confirmed" |};
    {| value := "in_progress"; optionLabel := "In Progress" |};
    {| value := "completed"; optionLabel := "Completed" |};
    {| value := "cancelled"; optionLabel := "Cancelled" |} ].

(** What can happen on the page: the effect and the handlers of the
    rendered rows.  A row is an element of [filteredAppointments]; its
    action buttons are those of [getAvailableActions], and the Prescription
    button is there when its status is completed.  The store is the one of
    the moment and may have been changed by other clients in between. *)
Inductive step : State -> State -> Prop :=
| step_fetch st userData db queryOk :
    step st (fetchAppointments userData db queryOk st)
| step_filter st opt :
    In opt filterOptions ->
    step st (setFilter st (value opt))
| step_action st db apt act updateOk :
    In apt (filteredAppointments st) ->
    In act (getAvailableActions (Appointment.status apt)) ->
    step st (updateAppointmentStatus (Appointment.id apt) (action act) updateOk st db).1
| step_prescription st apt :
    In apt (filteredAppointments st) ->
    Appointment.status apt = "completed" ->
    step st (handleCreatePrescription apt st)
| step_close st :
    step st (closePrescriptionForm st).

Inductive reachable : State -> Prop :=
| reachable_init : reachable init
| reachable_step st st' : reachable st -> step st st' -> reachable st'.
End ManageAppointments.

(** ** PrescriptionForm *)

Module PrescriptionForm.

Record Props := { appointmentId : string; patientId : string; patientName : string }.

Record State := {
  medications : list Medication.t;
  diagnosis : string;
  notes : string;
  loading : bool
}.

Definition emptyMedication : Medication.t :=
  {| Medication.name := ""; Medication.dosage := ""; Medication.frequency := "";
     Medication.duration := ""; Medication.instructions := "" |}.

Definition init : State :=
  {| medications := [emptyMedication]; diagnosis := ""; notes := ""; loading := false |}.

Definition setLoading (st : State) (b : bool) : State :=
  {| medications := medications st; diagnosis := diagnosis st; notes := notes st;
     loading := b |}.

Definition msgDiagnosis : string := "Please enter a diagnosis".
Definition msgMedication : string := "Please add at least one medication".
Definition msgFailed : string := "Failed to create prescription. Please try again.".

(** [medications.filter(med => med.name.trim())] *)
Definition validMedications (st : State) : list Medication.t :=
  List.filter (fun med => JS.truthy (JS.trim (Medication.name med))) (medications st).

(** What one run of [handleSubmit] leaves behind: the state, the store, the
    [alert] shown if any, and whether [onSuccess(); onClose()] ran. *)
Record Result := {
  state : State;
  store : Firestore.t;
  alert : option string;
  closed : bool
}.

Definition newPrescription (env : JS.Env) (p : Props) (st : State) (newId : string)
    : Prescription.t :=
  {| Prescription.id := newId;
     Prescription.appointmentId := appointmentId p;
     Prescription.patientId := patientId p;
     Prescription.patientName := patientName p;
     Prescription.diagnosis := diagnosis st;
     Prescription.medications := validMedications st;
     Prescription.notes := notes st;
     Prescription.createdAt := Some (JS.now env) |}.

Definition addPrescription (db : Firestore.t) (p : Prescription.t) : Firestore.t :=
  {| Firestore.appointments := Firestore.appointments db;
     Firestore.prescriptions := Firestore.prescriptions db ++ [p];
     Firestore.feedback := Firestore.feedback db |}.

Definition handleSubmit (env : JS.Env) (p : Props) (addDocRes : option string)
    (st : State) (db : Firestore.t) : Result :=
  if negb (JS.truthy (JS.trim (diagnosis st))) then
    {| state := st; store := db; alert := Some msgDiagnosis; closed := false |}
  else if (length (validMedications st) =? 0)%nat then
    {| state := st; store := db; alert := Some msgMedication; closed := false |}
  else
    match addDocRes with
    | Some newId =>
        {| state := setLoading st false;
           store := addPrescription db (newPrescription env p st newId);
           alert := None; closed := true |}
    | None =>
        {| state := setLoading st false; store := db;
           alert := Some msgFailed; closed := false |}
    end.


Definition setMedications (st : State) (l : list Medication.t) : State :=
  {| medications := l; diagnosis := diagnosis st; notes := notes st; loading := loading st |}.

Definition setDiagnosis (st : State) (d : string) : State :=
  {| medications := medications st; diagnosis := d; notes := notes st; loading := loading st |}.

Definition setNotes (st : State) (n : string) : State :=
  {| medications := medications st; diagnosis := diagnosis st; notes := n; loading := loading st |}.

Definition addMedication (st : State) : State :=
  setMedications st (medications st ++ [emptyMedication]).

(** [l.filter((_, i) => keep(i))], the first element of [l] being at
    position [i] *)
Fixpoint filterIndex {A : Type} (keep : nat -> bool) (i : nat) (l : list A) : list A :=
  match l with
  | [] => []
  | x :: l' => if keep i then x :: filterIndex keep (S i) l' else filterIndex keep (S i) l'
  end.

Definition removeMedication (index : nat) (st : State) : State :=
  if (1 <? length (medications st))%nat
  then setMedications st (filterIndex (fun i => negb (i =? index)%nat) 0 (medications st))
  else st.

(** [keyof Medication] *)
Inductive Field := name | dosage | frequency | duration | instructions.

(** [{ ...med, [field]: value }] *)
Definition setField (med : Medication.t) (field : Field) (value : string) : Medication.t :=
  {| Medication.name := match field with name => value | _ => Medication.name med end;
     Medication.dosage := match field with dosage => value | _ => Medication.dosage med end;
     Medication.frequency :=
       match field with frequency => value | _ => Medication.frequency med end;
     Medication.duration := match field with duration => value | _ => Medication.duration med end;
     Medication.instructions :=
       match field with instructions => value | _ => Medication.instructions med end |}.

(** [l.map((x, i) => f(x, i))], the first element of [l] being at position
    [i] *)
Fixpoint mapIndex {A B : Type} (f : A -> nat -> B) (i : nat) (l : list A) : list B :=
  match l with
  | [] => []
  | x :: l' => f x i :: mapIndex f (S i) l'
  end.

Definition updateMedication (index : nat) (field : Field) (value : string) (st : State)
    : State :=
  setMedications st
    (mapIndex (fun med i => if (i =? index)%nat then setField med field value else med)
       0 (medications st)).

(** The edits of the form before it is submitted *)
Inductive edit : State -> State -> Prop :=
| edit_add st : edit st (addMedication st)
| edit_remove st index : edit st (removeMedication index st)
| edit_update st index field value : edit st (updateMedication index field value st)
| edit_diagnosis st d : edit st (setDiagnosis st d)
| edit_notes st n : edit st (setNotes st n).

Inductive edited : State -> Prop :=
| edited_init : edited init
| edited_step st st' : edited st -> edit st st' -> edited st'.
End PrescriptionForm.

(** ** PatientFeedback *)

Module PatientFeedback.

Record State := {
  completedAppointments : list Appointment.t;
  existingFeedback : list Feedback.t;
  loading : bool;
  selectedAppointment : option Appointment.t;
  rating : Z;
  hoverRating : Z;
  comment : string;
  submitting : bool;
  showSuccess : bool
}.

Definition init : State :=
  {| completedAppointments := []; existingFeedback := []; loading := true;
     selectedAppointment := None; rating := 0; hoverRating := 0; comment := "";
     submitting := false; showSuccess := false |}.

Definition setCompletedAppointments (st : State) (l : list Appointment.t) : State :=
  {| completedAppointments := l; existingFeedback := existingFeedback st;
     loading := loading st; selectedAppointment := selectedAppointment st;
     rating := rating st; hoverRating := hoverRating st; comment := comment st;
     submitting := submitting st; showSuccess := showSuccess st |}.

Definition setExistingFeedback (st : State) (l : list Feedback.t) : State :=
  {| completedAppointments := completedAppointments st; existingFeedback := l;
     loading := loading st; selectedAppointment := selectedAppointment st;
     rating := rating st; hoverRating := hoverRating st; comment := comment st;
     submitting := submitting st; showSuccess := showSuccess st |}.

Definition setLoading (st : State) (b : bool) : State :=
  {| completedAppointments := completedAppointments st;
     existingFeedback := existingFeedback st;
     loading := b; selectedAppointment := selectedAppointment st;
     rating := rating st; hoverRating := hoverRating st; comment := comment st;
     submitting := submitting st; showSuccess := showSuccess st |}.

Definition setSelectedAppointment (st : State) (a : option Appointment.t) : State :=
  {| completedAppointments := completedAppointments st;
     existingFeedback := existingFeedback st;
     loading := loading st; selectedAppointment := a;
     rating := rating st; hoverRating := hoverRating st; comment := comment st;
     submitting := submitting st; showSuccess := showSuccess st |}.

Definition setRating (st : State) (r : Z) : State :=
  {| completedAppointments := completedAppointments st;
     existingFeedback := existingFeedback st;
     loading := loading st; selectedAppointment := selectedAppointment st;
     rating := r; hoverRating := hoverRating st; comment := comment st;
     submitting := submitting st; showSuccess := showSuccess st |}.

Definition setHoverRating (st : State) (r : Z) : State :=
  {| completedAppointments := completedAppointments st;
     existingFeedback := existingFeedback st;
     loading := loading st; selectedAppointment := selectedAppointment st;
     rating := rating st; hoverRating := r; comment := comment st;
     submitting := submitting st; showSuccess := showSuccess st |}.

Definition setComment (st : State) (c : string) : State :=
  {| completedAppointments := completedAppointments st;
     existingFeedback := existingFeedback st;
     loading := loading st; selectedAppointment := selectedAppointment st;
     rating := rating st; hoverRating := hoverRating st; comment := c;
     submitting := submitting st; showSuccess := showSuccess st |}.

Definition setSubmitting (st : State) (b : bool) : State :=
  {| completedAppointments := completedAppointments st;
     existingFeedback := existingFeedback st;
     loading := loading st; selectedAppointment := selectedAppointment st;
     rating := rating st; hoverRating := hoverRating st; comment := comment st;
     submitting := b; showSuccess := showSuccess st |}.

Definition setShowSuccess (st : State) (b : bool) : State :=
  {| completedAppointments := completedAppointments st;
     existingFeedback := existingFeedback st;
     loading := loading st; selectedAppointment := selectedAppointment st;
     rating := rating st; hoverRating := hoverRating st; comment := comment st;
     submitting := submitting st; showSuccess := b |}.

(** [x.createdAt?.toDate?.() || new Date(0)], then [getTime()] *)
Definition timeOf (createdAt : option Z) : Z :=
  match createdAt with
  | Some t => t
  | None => 0
  end.

(** [Array.prototype.sort] with the comparator
    [(a, b) => bTime.getTime() - aTime.getTime()]: a stable sort, here by
    insertion.  [key] reads the time of an element. *)
Section Sort.
Context {A : Type} (key : A -> Z).

Definition compareFn (a b : A) : Z := key b - key a.

Fixpoint insertSorted (x : A) (l : list A) : list A :=
  match l with
  | [] => [x]
  | y :: l' => if compareFn x y <=? 0 then x :: l else y :: insertSorted x l'
  end.

Definition sortDesc (l : list A) : list A := List.fold_right insertSorted [] l.
End Sort.

(** The two queries of [fetchData] *)
Definition completedQuery (u : UserData.t) (db : Firestore.t) : list Appointment.t :=
  List.filter
    (fun a => Firestore.eq_opt (Appointment.patientId a) (UserData.uid u)
              && String.eqb (Appointment.status a) "completed")
    (Firestore.appointments db).

Definition feedbackQuery (u : UserData.t) (db : Firestore.t) : list Feedback.t :=
  List.filter
    (fun f => Firestore.eq_opt (Feedback.patientId f) (UserData.uid u))
    (Firestore.feedback db).

(** [fetchData]; [apptOk] and [fbOk] are whether the first and the second
    [getDocs] resolve. *)
Definition fetchData (userData : option UserData.t) (db : Firestore.t)
    (apptOk fbOk : bool) (st : State) : State :=
  match userData with
  | None => st
  | Some u =>
      if apptOk then
        let appointmentsList :=
          sortDesc (fun a => timeOf (Appointment.createdAt a)) (completedQuery u db) in
        let st1 := setCompletedAppointments st appointmentsList in
        if fbOk then setLoading (setExistingFeedback st1 (feedbackQuery u db)) false
        else setLoading st1 false
      else setLoading st false
  end.

Definition hasFeedback (st : State) (appointmentId : string) : bool :=
  List.existsb (fun feedback => String.eqb (Feedback.appointmentId feedback) appointmentId)
    (existingFeedback st).

Definition getFeedbackForAppointment (st : State) (appointmentId : string)
    : option Feedback.t :=
  List.find (fun feedback => String.eqb (Feedback.appointmentId feedback) appointmentId)
    (existingFeedback st).

Definition getAppointmentsWithoutFeedback (st : State) : list Appointment.t :=
  List.filter (fun apt => negb (hasFeedback st (Appointment.id apt)))
    (completedAppointments st).

Definition msgSelectRating : string := "Please select a rating".
Definition msgFailed : string := "Failed to submit feedback. Please try again.".

(** The document passed to [addDoc], with the id the store gives it *)
Definition feedbackDoc (env : JS.Env) (userData : option UserData.t) (st : State)
    (apt : Appointment.t) (newId : string) : Feedback.t :=
  {| Feedback.id := newId;
     Feedback.appointmentId := Appointment.id apt;
     Feedback.patientId := option_map UserData.uid userData;
     Feedback.patientName := option_map UserData.name userData;
     Feedback.doctorId := Appointment.doctorId apt;
     Feedback.doctorName := Appointment.doctorName apt;
     Feedback.rating := rating st;
     Feedback.comment := JS.trim (comment st);
     Feedback.createdAt := Some (JS.now env) |}.

(** [newFeedback], the local copy with the temporary id *)
Definition newFeedback (env : JS.Env) (st : State) (apt : Appointment.t) : Feedback.t :=
  {| Feedback.id := JS.toString (JS.now env);
     Feedback.appointmentId := Appointment.id apt;
     Feedback.patientId := None;
     Feedback.patientName := None;
     Feedback.doctorId := Appointment.doctorId apt;
     Feedback.doctorName := Appointment.doctorName apt;
     Feedback.rating := rating st;
     Feedback.comment := JS.trim (comment st);
     Feedback.createdAt := Some (JS.now env) |}.

Definition addFeedback (db : Firestore.t) (f : Feedback.t) : Firestore.t :=
  {| Firestore.appointments := Firestore.appointments db;
     Firestore.prescriptions := Firestore.prescriptions db;
     Firestore.feedback := Firestore.feedback db ++ [f] |}.

Record Result := {
  state : State;
  store : Firestore.t;
  alert : option string
}.

(** [handleSubmitFeedback]; [addDocRes] is the outcome of [addDoc]. *)
Definition handleSubmitFeedback (env : JS.Env) (userData : option UserData.t)
    (addDocRes : option string) (st : State) (db : Firestore.t) : Result :=
  match selectedAppointment st with
  | None => {| state := st; store := db; alert := Some msgSelectRating |}
  | Some apt =>
      if rating st =? 0 then {| state := st; store := db; alert := Some msgSelectRating |}
      else
        let st1 := setSubmitting st true in
        match addDocRes with
        | Some newId =>
            let st2 :=
              setExistingFeedback st1 (existingFeedback st1 ++ [newFeedback env st1 apt]) in
            let st3 := setShowSuccess (setComment (setRating
                         (setSelectedAppointment st2 None) 0) "") true in
            {| state := setSubmitting st3 false;
               store := addFeedback db (feedbackDoc env userData st1 apt newId);
               alert := None |}
        | None =>
            {| state := setSubmitting st1 false; store := db; alert := Some msgFailed |}
        end
  end.

(** The render sorts [existingFeedback] in place when it is not empty. *)
Definition render (st : State) : State :=
  setExistingFeedback st (sortDesc (fun f => timeOf (Feedback.createdAt f)) (existingFeedback st)).

(** What can happen to the component: the effect and the handlers the
    rendered page wires up.  The store is read at the moment of the event
    and may have been changed by other clients in between. *)
Inductive step : State -> State -> Prop :=
| step_fetch st userData db apptOk fbOk :
    step st (fetchData userData db apptOk fbOk st)
| step_render st :
    step st (render st)
| step_select st apt :
    In apt (getAppointmentsWithoutFeedback st) ->
    step st (setSelectedAppointment st (Some apt))
| step_star st i :
    0 <= i < 5 ->
    step st (setRating st (i + 1))
| step_hover st r :
    step st (setHoverRating st r)
| step_comment st c :
    step st (setComment st c)
| step_submit st env userData addDocRes db :
    step st (state (handleSubmitFeedback env userData addDocRes st db))
| step_timeout st :
    step st (setShowSuccess st false).

Inductive reachable : State -> Prop :=
| reachable_init : reachable init
| reachable_step st st' : reachable st -> step st st' -> reachable st'.

End PatientFeedback.

(** ** DoctorFeedback *)

Module DoctorFeedback.

(** Ratings are integers (the stars store 1 to 5).  [averageRating] is
    computed in exact rational arithmetic; binary64 gives the same values
    wherever the sum, the mean and ten times the mean are exactly
    representable, and the final division by ten is then the double that
    the decimal literal of the quotient denotes.

    The values of [ratingDistribution] are counters; [None] stands for the
    NaN that [undefined++] stores under a key that was absent. *)
Record Stats := {
  totalReviews : Z;
  averageRating : Q;
  ratingDistribution : gmap Z (option Z);
  withComments : Z
}.

Definition emptyDistribution : gmap Z (option Z) :=
  <[1 := Some 0]> (<[2 := Some 0]> (<[3 := Some 0]> (<[4 := Some 0]> (<[5 := Some 0]> ∅)))).

(** [ratingDistribution[k]++] *)
Definition increment (d : gmap Z (option Z)) (k : Z) : gmap Z (option Z) :=
  match d !! k with
  | Some (Some n) => <[k := Some (n + 1)]> d
  | _ => <[k := None]> d
  end.

Definition calculateStats (feedbackList : list Feedback.t) : Stats :=
  let totalReviews := Z.of_nat (length feedbackList) in
  let total := List.fold_left (fun sum fb => sum + Feedback.rating fb) feedbackList 0 in
  let averageRating :=
    if 0 <? totalReviews then (inject_Z total / inject_Z totalReviews)%Q else 0%Q in
  let ratingDistribution :=
    List.fold_left (fun d fb => increment d (Feedback.rating fb)) feedbackList
      emptyDistribution in
  let withComments :=
    Z.of_nat (length (List.filter
      (fun fb => JS.truthy (Feedback.comment fb) && JS.truthy (JS.trim (Feedback.comment fb)))
      feedbackList)) in
  {| totalReviews := totalReviews;
     averageRating := (inject_Z (JS.Math_round (averageRating * inject_Z 10)) / inject_Z 10)%Q;
     ratingDistribution := ratingDistribution;
     withComments := withComments |}.


Record State := {
  feedback : list Feedback.t;
  loading : bool;
  ratingFilter : string;
  dateFilter : string;
  stats : Stats
}.

Definition init : State :=
  {| feedback := []; loading := true; ratingFilter := "all"; dateFilter := "all";
     stats := {| totalReviews := 0; averageRating := 0;
                 ratingDistribution := emptyDistribution; withComments := 0 |} |}.

Definition setRatingFilter (st : State) (f : string) : State :=
  {| feedback := feedback st; loading := loading st; ratingFilter := f;
     dateFilter := dateFilter st; stats := stats st |}.

Definition setDateFilter (st : State) (f : string) : State :=
  {| feedback := feedback st; loading := loading st; ratingFilter := ratingFilter st;
     dateFilter := f; stats := stats st |}.

(** The query of [fetchFeedback] *)
Definition doctorFeedbackQuery (u : UserData.t) (db : Firestore.t) : list Feedback.t :=
  Firestore.orderByCreatedAtDesc Feedback.createdAt Feedback.id
    (List.filter (fun f => String.eqb (Feedback.doctorId f) (UserData.uid u))
       (Firestore.feedback db)).

(** [fetchFeedback]; [queryOk] is whether [getDocs] resolves. *)
Definition fetchFeedback (userData : option UserData.t) (db : Firestore.t)
    (queryOk : bool) (st : State) : State :=
  match userData with
  | None => st
  | Some u =>
      if queryOk then
        let feedbackList := doctorFeedbackQuery u db in
        {| feedback := feedbackList; loading := false; ratingFilter := ratingFilter st;
           dateFilter := dateFilter st; stats := calculateStats feedbackList |}
      else
        {| feedback := feedback st; loading := false; ratingFilter := ratingFilter st;
           dateFilter := dateFilter st; stats := stats st |}
  end.

(** [fb.rating !== parseInt(ratingFilter)] *)
Definition ratingDiffers (rating : Z) (parsed : option Z) : bool :=
  match parsed with
  | Some v => negb (rating =? v)
  | None => true
  end.

(** The callback of [filteredFeedback] on one record: whether it is kept,
    or [None] when [fb.createdAt.toDate()] throws because the record has no
    creation instant. *)
Definition keeps (env : JS.Env) (st : State) (fb : Feedback.t) : option bool :=
  if negb (String.eqb (ratingFilter st) "all")
     && ratingDiffers (Feedback.rating fb) (JS.parseInt (ratingFilter st))
  then Some false
  else if negb (String.eqb (dateFilter st) "all") then
    match Feedback.createdAt fb with
    | None => None
    | Some feedbackDate =>
        if String.eqb (dateFilter st) "today" then
          Some (((feedbackDate + JS.tzOffset env) / JS.msPerDay)
                =? (JS.now env + JS.tzOffset env) / JS.msPerDay)
        else if String.eqb (dateFilter st) "week" then
          Some (negb (feedbackDate <? JS.now env - 7 * 24 * 60 * 60 * 1000))
        else if String.eqb (dateFilter st) "month" then
          Some (negb (feedbackDate <? JS.now env - 30 * 24 * 60 * 60 * 1000))
        else Some true
    end
  else Some true.

(** [l.filter(f)] for a callback that may throw: the first throw ends the
    filter. *)
Fixpoint filterThrowing {A : Type} (f : A -> option bool) (l : list A) : option (list A) :=
  match l with
  | [] => Some []
  | x :: l' =>
      match f x with
      | None => None
      | Some b =>
          match filterThrowing f l' with
          | None => None
          | Some r => Some (if b then x :: r else r)
          end
      end
  end.

Definition filteredFeedback (env : JS.Env) (st : State) : option (list Feedback.t) :=
  filterThrowing (keeps env st) (feedback st).

Definition getRatingLabel (rating : Z) : string :=
  if rating =? 1 then "Poor"
  else if rating =? 2 then "Fair"
  else if rating =? 3 then "Good"
  else if rating =? 4 then "Very Good"
  else if rating =? 5 then "Excellent"
  else "".
End DoctorFeedback.

(** ** ViewPrescriptions *)

Module ViewPrescriptions.

Record State := {
  prescriptions : list Prescription.t;
  loading : bool;
  selectedPrescription : option Prescription.t
}.

Definition init : State :=
  {| prescriptions := []; loading := true; selectedPrescription := None |}.

(** The query of [fetchPrescriptions] *)
Definition patientQuery (u : UserData.t) (db : Firestore.t) : list Prescription.t :=
  Firestore.orderByCreatedAtDesc Prescription.createdAt Prescription.id
    (List.filter (fun rx => String.eqb (Prescription.patientId rx) (UserData.uid u))
       (Firestore.prescriptions db)).

(** [fetchPrescriptions]; [queryOk] is whether [getDocs] resolves. *)
Definition fetchPrescriptions (userData : option UserData.t) (db : Firestore.t)
    (queryOk : bool) (st : State) : State :=
  match userData with
  | None => st
  | Some u =>
      if queryOk then
        {| prescriptions := patientQuery u db; loading := false;
           selectedPrescription := selectedPrescription st |}
      else
        {| prescriptions := prescriptions st; loading := false;
           selectedPrescription := selectedPrescription st |}
  end.

End ViewPrescriptions.

(** ** DoctorPrescriptions *)

Module DoctorPrescriptions.

Record State := {
  prescriptions : list Prescription.t;
  loading : bool;
  searchTerm : string;
  selectedPrescription : option Prescription.t;
  dateFilter : string
}.

Definition init : State :=
  {| prescriptions := []; loading := true; searchTerm := "";
     selectedPrescription := None; dateFilter := "all" |}.

Definition setPrescriptions (st : State) (l : list Prescription.t) : State :=
  {| prescriptions := l; loading := loading st; searchTerm := searchTerm st;
     selectedPrescription := selectedPrescription st; dateFilter := dateFilter st |}.

Definition setLoading (st : State) (b : bool) : State :=
  {| prescriptions := prescriptions st; loading := b; searchTerm := searchTerm st;
     selectedPrescription := selectedPrescription st; dateFilter := dateFilter st |}.

Definition setSearchTerm (st : State) (s : string) : State :=
  {| prescriptions := prescriptions st; loading := loading st; searchTerm := s;
     selectedPrescription := selectedPrescription st; dateFilter := dateFilter st |}.

Definition setDateFilter (st : State) (f : string) : State :=
  {| prescriptions := prescriptions st; loading := loading st; searchTerm := searchTerm st;
     selectedPrescription := selectedPrescription st; dateFilter := f |}.

(** The ids of the doctor's completed appointments, the first query of
    [fetchPrescriptions] *)
Definition appointmentIds (u : UserData.t) (db : Firestore.t) : list string :=
  List.map Appointment.id
    (List.filter
       (fun a => String.eqb (Appointment.doctorId a) (UserData.uid u)
                 && String.eqb (Appointment.status a) "completed")
       (Firestore.appointments db)).

(** [ids.includes(id)] *)
Definition includesId (ids : list string) (id : string) : bool :=
  List.existsb (fun x => String.eqb x id) ids.

(** [fetchPrescriptions]; [apptOk] and [rxOk] are whether the first and the
    second [getDocs] resolve. *)
Definition fetchPrescriptions (userData : option UserData.t) (db : Firestore.t)
    (apptOk rxOk : bool) (st : State) : State :=
  match userData with
  | None => st
  | Some u =>
      if apptOk then
        let ids := appointmentIds u db in
        if (length ids =? 0)%nat then setLoading st false
        else if rxOk then
          let prescriptionsList :=
            List.filter (fun rx => includesId ids (Prescription.appointmentId rx))
              (Firestore.orderByCreatedAtDesc Prescription.createdAt Prescription.id
                 (Firestore.prescriptions db)) in
          setLoading (setPrescriptions st prescriptionsList) false
        else setLoading st false
      else setLoading st false
  end.

(** [matchesSearch] *)
Definition matchesSearch (st : State) (prescription : Prescription.t) : bool :=
  JS.includes (JS.toLowerCase (Prescription.patientName prescription))
    (JS.toLowerCase (searchTerm st))
  || JS.includes (JS.toLowerCase (Prescription.diagnosis prescription))
       (JS.toLowerCase (searchTerm st)).

(** The callback of [filteredPrescriptions] on one prescription: whether it
    is kept, or [None] when [prescription.createdAt.toDate()] throws. *)
Definition keeps (env : JS.Env) (st : State) (prescription : Prescription.t) : option bool :=
  if negb (matchesSearch st prescription) then Some false
  else if String.eqb (dateFilter st) "all" then Some true
  else
    match Prescription.createdAt prescription with
    | None => None
    | Some prescriptionDate =>
        if String.eqb (dateFilter st) "today" then
          Some (((prescriptionDate + JS.tzOffset env) / JS.msPerDay)
                =? (JS.now env + JS.tzOffset env) / JS.msPerDay)
        else if String.eqb (dateFilter st) "week" then
          Some (JS.now env - 7 * 24 * 60 * 60 * 1000 <=? prescriptionDate)
        else if String.eqb (dateFilter st) "month" then
          Some (JS.now env - 30 * 24 * 60 * 60 * 1000 <=? prescriptionDate)
        else Some true
    end.

Definition filteredPrescriptions (env : JS.Env) (st : State) : option (list Prescription.t) :=
  DoctorFeedback.filterThrowing (keeps env st) (prescriptions st).

End DoctorPrescriptions.

(** ** ProtectedRoute and the routes of App *)

Module App.

(** What [useAuth] gives the route guard: whether there is a current user,
    and [userData?.role]. *)
Record Auth := { currentUser : bool; role : option string }.

Inductive Page :=
| LoginPage | RegisterPage
| PatientDashboardPage | BookAppointmentPage | ViewPrescriptionsPage | PatientFeedbackPage
| DoctorDashboardPage | ManageAppointmentsPage | DoctorPrescriptionsPage | DoctorFeedbackPage.

(** A route element renders a page or is a [<Navigate to=... replace />]. *)
Inductive Element := Render (page : Page) | Navigate (to : string).

(** [`${userData?.role}`] *)
Definition roleText (a : Auth) : string :=
  match role a with
  | Some r => r
  | None => "undefined"
  end.

Definition ProtectedRoute (a : Auth) (requiredRole : option string) (children : Page)
    : Element :=
  if negb (currentUser a) then Navigate "/login"
  else
    match requiredRole with
    | Some r =>
        if JS.truthy r && negb (Firestore.eq_opt (role a) r)
        then Navigate ("/" +:+ roleText a +:+ "/dashboard")
        else Render children
    | None => Render children
    end.

(** The [<Route>]s of [AppContent], in their order, and the two that send
    to the login page *)
Inductive Route :=
| login | register
| patientDashboard | patientAppointments | patientPrescriptions | patientFeedback
| doctorDashboard | doctorAppointments | doctorPrescriptions | doctorFeedback
| root | catchAll.

Definition routePath (r : Route) : string :=
  match r with
  | login => "/login"
  | register => "/register"
  | patientDashboard => "/patient/dashboard"
  | patientAppointments => "/patient/appointments"
  | patientPrescriptions => "/patient/prescriptions"
  | patientFeedback => "/patient/feedback"
  | doctorDashboard => "/doctor/dashboard"
  | doctorAppointments => "/doctor/appointments"
  | doctorPrescriptions => "/doctor/prescriptions"
  | doctorFeedback => "/doctor/feedback"
  | root => "/"
  | catchAll => "*"
  end.

Definition element (r : Route) (a : Auth) : Element :=
  match r with
  | login => Render LoginPage
  | register => Render RegisterPage
  | patientDashboard => ProtectedRoute a (Some "patient") PatientDashboardPage
  | patientAppointments => ProtectedRoute a (Some "patient") BookAppointmentPage
  | patientPrescriptions => ProtectedRoute a (Some "patient") ViewPrescriptionsPage
  | patientFeedback => ProtectedRoute a (Some "patient") PatientFeedbackPage
  | doctorDashboard => ProtectedRoute a (Some "doctor") DoctorDashboardPage
  | doctorAppointments => ProtectedRoute a (Some "doctor") ManageAppointmentsPage
  | doctorPrescriptions => ProtectedRoute a (Some "doctor") DoctorPrescriptionsPage
  | doctorFeedback => ProtectedRoute a (Some "doctor") DoctorFeedbackPage
  | root => Navigate "/login"
  | catchAll => Navigate "/login"
  end.

(** The role a page is reserved for *)
Definition pageRole (p : Page) : option string :=
  match p with
  | LoginPage | RegisterPage => None
  | PatientDashboardPage | BookAppointmentPage | ViewPrescriptionsPage
  | PatientFeedbackPage => Some "patient"
  | DoctorDashboardPage | ManageAppointmentsPage | DoctorPrescriptionsPage
  | DoctorFeedbackPage => Some "doctor"
  end.

End App.

(** ** Auxiliary definitions of the statements *)

(** Every character of the string is white space. *)
Definition blank (s : string) : Prop :=
  forall c, In c (list_ascii_of_string s) -> JS.isWhiteSpace c = true.

Definition nov1 : JS.Env := {| JS.now := 1793527200000; JS.tzOffset := 0 |}.

Definition patient1 : UserData.t := {| UserData.uid := "p1"; UserData.name := "Pat" |}.

Definition drWho : BookAppointment.Doctor :=
  {| BookAppointment.id := "d1"; BookAppointment.name := "Who";
     BookAppointment.email := "who@meditrack.local" |}.

(** The form filled in for doctor d1 on the given date at 09:30 *)
Definition filled (date : string) (todayBookings : Z) : BookAppointment.State :=
  {| BookAppointment.doctors := [drWho];
     BookAppointment.formData :=
       {| BookAppointment.doctorId := "d1"; BookAppointment.date := date;
          BookAppointment.time := "09:30"; BookAppointment.note := "" |};
     BookAppointment.loading := false; BookAppointment.success := false;
     BookAppointment.error := ""; BookAppointment.todayBookings := todayBookings |}.

(** The transition table of the lifecycle *)
Definition targets (s : ManageAppointments.Status) : list ManageAppointments.Status :=
  match s with
  | ManageAppointments.pending => [ManageAppointments.confirmed; ManageAppointments.cancelled]
  | ManageAppointments.confirmed => [ManageAppointments.in_progress; ManageAppointments.cancelled]
  | ManageAppointments.in_progress => [ManageAppointments.completed]
  | ManageAppointments.completed => []
  | ManageAppointments.cancelled => []
  end.

(** Two appointments of a doctor's list *)
Definition apt1 : Appointment.t :=
  {| Appointment.id := "a1"; Appointment.patientId := Some "p1";
     Appointment.patientName := Some "Pat"; Appointment.doctorId := "d1";
     Appointment.doctorName := Some "Who"; Appointment.date := "2026-11-02";
     Appointment.time := "09:30"; Appointment.note := "cough";
     Appointment.status := "pending"; Appointment.createdAt := Some 1793527200000 |}.

Definition apt2 : Appointment.t :=
  {| Appointment.id := "a2"; Appointment.patientId := Some "p2";
     Appointment.patientName := Some "Sam"; Appointment.doctorId := "d1";
     Appointment.doctorName := Some "Who"; Appointment.date := "2026-11-03";
     Appointment.time := "10:00"; Appointment.note := "";
     Appointment.status := "confirmed"; Appointment.createdAt := Some 1793527300000 |}.

Definition twoAppointments : ManageAppointments.State :=
  ManageAppointments.setAppointments ManageAppointments.init [apt1; apt2].

(** All fields of an appointment but [status] agree. *)
Definition same_but_status (a b : Appointment.t) : Prop :=
  Appointment.id a = Appointment.id b
  /\ Appointment.patientId a = Appointment.patientId b
  /\ Appointment.patientName a = Appointment.patientName b
  /\ Appointment.doctorId a = Appointment.doctorId b
  /\ Appointment.doctorName a = Appointment.doctorName b
  /\ Appointment.date a = Appointment.date b
  /\ Appointment.time a = Appointment.time b
  /\ Appointment.note a = Appointment.note b
  /\ Appointment.createdAt a = Appointment.createdAt b.

(** A feedback record of doctor d1 with the given rating and comment *)
Definition review (n : Z) (rating : Z) (comment : string) : Feedback.t :=
  {| Feedback.id := "f" +:+ JS.toString n;
     Feedback.appointmentId := "a" +:+ JS.toString n;
     Feedback.patientId := Some "p1"; Feedback.patientName := Some "Pat";
     Feedback.doctorId := "d1"; Feedback.doctorName := Some "Who";
     Feedback.rating := rating; Feedback.comment := comment;
     Feedback.createdAt := Some (1793527200000 + n) |}.

Definition fourReviews : list Feedback.t :=
  [review 1 5 "great"; review 2 4 ""; review 3 5 "  "; review 4 3 "late"].

(** The histogram [{1: a, 2: b, 3: c, 4: d, 5: e}] *)
Definition histogram (a b c d e : Z) : gmap Z (option Z) :=
  <[1 := Some a]> (<[2 := Some b]> (<[3 := Some c]> (<[4 := Some d]> (<[5 := Some e]> ∅)))).

(** Prescription forms for appointment a1 *)
Definition rxProps : PrescriptionForm.Props :=
  {| PrescriptionForm.appointmentId := "a1"; PrescriptionForm.patientId := "p1";
     PrescriptionForm.patientName := "Pat" |}.

Definition med (name : string) : Medication.t :=
  {| Medication.name := name; Medication.dosage := "500mg";
     Medication.frequency := "twice daily"; Medication.duration := "5 days";
     Medication.instructions := "" |}.

Definition rxForm (diagnosis : string) (meds : list Medication.t) : PrescriptionForm.State :=
  {| PrescriptionForm.medications := meds; PrescriptionForm.diagnosis := diagnosis;
     PrescriptionForm.notes := ""; PrescriptionForm.loading := false |}.

(** The submission did not stop at one of the two validation alerts. *)
Definition accepted (res : PrescriptionForm.Result) : Prop :=
  PrescriptionForm.alert res <> Some PrescriptionForm.msgDiagnosis
  /\ PrescriptionForm.alert res <> Some PrescriptionForm.msgMedication.

(** The submission stopped at a validation alert and left everything as it
    was. *)
Definition rejected (res : PrescriptionForm.Result) (st : PrescriptionForm.State)
    (db : Firestore.t) : Prop :=
  (PrescriptionForm.alert res = Some PrescriptionForm.msgDiagnosis
   \/ PrescriptionForm.alert res = Some PrescriptionForm.msgMedication)
  /\ PrescriptionForm.store res = db
  /\ PrescriptionForm.state res = st
  /\ PrescriptionForm.closed res = false.

(** One of the three required fields of the booking form is empty. *)
Definition missing (f : BookAppointment.FormData) : Prop :=
  BookAppointment.doctorId f = "" \/ BookAppointment.date f = "" \/ BookAppointment.time f = "".

(** The two messages about the input itself, as opposed to the daily cap
    and to a failure of the store. *)
Definition validationError (e : string) : Prop :=
  e = BookAppointment.errRequired \/ e = BookAppointment.errPastDate.

(** The appointments of a patient on a date *)
Definition sameDay (u : UserData.t) (date : string) (db : Firestore.t) : list Appointment.t :=
  List.filter
    (fun a => Firestore.eq_opt (Appointment.patientId a) (UserData.uid u)
              && String.eqb (Appointment.date a) date)
    (Firestore.appointments db).

(** A patient books one appointment after the other: the page is mounted
    (the effect counts today's bookings), and for each booking the patient
    leaves the confirmation screen, fills in the form and submits; the write
    and the refresh of the counter complete before the next booking. *)
Definition mounted (env : JS.Env) (u : UserData.t) (db : Firestore.t) : BookAppointment.State :=
  BookAppointment.checkTodayBookings env (Some u) db true
    {| BookAppointment.doctors := [drWho];
       BookAppointment.formData := BookAppointment.emptyForm;
       BookAppointment.loading := false; BookAppointment.success := false;
       BookAppointment.error := ""; BookAppointment.todayBookings := 0 |}.

Definition bookAnother (st : BookAppointment.State) : BookAppointment.State :=
  BookAppointment.setSuccess st false.

Definition fillForm (doctorId date time note : string) (st : BookAppointment.State)
    : BookAppointment.State :=
  BookAppointment.handleChange "note" note
    (BookAppointment.handleChange "time" time
       (BookAppointment.handleChange "date" date
          (BookAppointment.handleChange "doctorId" doctorId st))).

Definition book (env : JS.Env) (u : UserData.t) (date time newId : string)
    (s : BookAppointment.State * Firestore.t) : BookAppointment.State * Firestore.t :=
  BookAppointment.handleSubmit env (Some u) (Some newId) true
    (fillForm "d1" date time "" (bookAnother s.1)) s.2.

Definition threeBookings : BookAppointment.State * Firestore.t :=
  book nov1 patient1 "2026-11-02" "10:00" "a3"
    (book nov1 patient1 "2026-11-02" "09:30" "a2"
       (book nov1 patient1 "2026-11-02" "09:00" "a1"
          (mounted nov1 patient1 Firestore.empty, Firestore.empty))).

(** A store with three appointments of patient p1, two of them completed,
    and one feedback, for the first completed one *)
Definition aptDone1 : Appointment.t := Appointment.with_status apt1 "completed".

Definition aptDone2 : Appointment.t :=
  {| Appointment.id := "a5"; Appointment.patientId := Some "p1";
     Appointment.patientName := Some "Pat"; Appointment.doctorId := "d1";
     Appointment.doctorName := Some "Who"; Appointment.date := "2026-10-20";
     Appointment.time := "11:00"; Appointment.note := "";
     Appointment.status := "completed"; Appointment.createdAt := Some 1792000000000 |}.

Definition aptOpen : Appointment.t :=
  {| Appointment.id := "a6"; Appointment.patientId := Some "p1";
     Appointment.patientName := Some "Pat"; Appointment.doctorId := "d1";
     Appointment.doctorName := Some "Who"; Appointment.date := "2026-11-05";
     Appointment.time := "12:00"; Appointment.note := "";
     Appointment.status := "confirmed"; Appointment.createdAt := Some 1793000000000 |}.

Definition clinicDb : Firestore.t :=
  {| Firestore.appointments := [aptDone1; aptDone2; aptOpen];
     Firestore.prescriptions := [];
     Firestore.feedback := [review 1 5 "great"] |}.

Definition fetched : PatientFeedback.State :=
  PatientFeedback.fetchData (Some patient1) clinicDb true true PatientFeedback.init.

(** The patient has picked appointment a5 and the given rating and comment. *)
Definition rated (rating : Z) (comment : string) : PatientFeedback.State :=
  PatientFeedback.setComment
    (PatientFeedback.setRating
       (PatientFeedback.setSelectedAppointment fetched (Some aptDone2)) rating) comment.

(** The list of completed appointments only ever holds what [fetchData] read
    with status completed, and the rating is 0 or a number of stars. *)
Definition inv (st : PatientFeedback.State) : Prop :=
  (forall apt, In apt (PatientFeedback.completedAppointments st) ->
               Appointment.status apt = "completed")
  /\ 0 <= PatientFeedback.rating st <= 5.

(** ** Auxiliary definitions of the further properties *)

(** All fields of a medication but the given one agree. *)
Definition same_but_field (field : PrescriptionForm.Field) (a b : Medication.t) : Prop :=
  (field <> PrescriptionForm.name -> Medication.name a = Medication.name b)
  /\ (field <> PrescriptionForm.dosage -> Medication.dosage a = Medication.dosage b)
  /\ (field <> PrescriptionForm.frequency -> Medication.frequency a = Medication.frequency b)
  /\ (field <> PrescriptionForm.duration -> Medication.duration a = Medication.duration b)
  /\ (field <> PrescriptionForm.instructions ->
      Medication.instructions a = Medication.instructions b).

(** The value of a field of a medication *)
Definition getField (med : Medication.t) (field : PrescriptionForm.Field) : string :=
  match field with
  | PrescriptionForm.name => Medication.name med
  | PrescriptionForm.dosage => Medication.dosage med
  | PrescriptionForm.frequency => Medication.frequency med
  | PrescriptionForm.duration => Medication.duration med
  | PrescriptionForm.instructions => Medication.instructions med
  end.

(** A form with three rows *)
Definition threeRows : PrescriptionForm.State :=
  rxForm "flu" [med "Amoxicillin"; med ""; med "Ibuprofen"].

(** The instants of a list never increase: the latest comes first. *)
Definition latestFirst {A : Type} (createdAt : A -> option Z) (l : list A) : Prop :=
  StronglySorted
    (fun a b => PatientFeedback.timeOf (createdAt b) <= PatientFeedback.timeOf (createdAt a)) l.

(** The prescriptions of the store written for an appointment *)
Definition prescriptionsFor (appointmentId : string) (db : Firestore.t) : list Prescription.t :=
  List.filter (fun rx => String.eqb (Prescription.appointmentId rx) appointmentId)
    (Firestore.prescriptions db).

(** A store in which appointment a1 already has a prescription *)
Definition rxOld : Prescription.t :=
  {| Prescription.id := "rx0"; Prescription.appointmentId := "a1";
     Prescription.patientId := "p1"; Prescription.patientName := "Pat";
     Prescription.diagnosis := "cold"; Prescription.medications := [med "Zinc"];
     Prescription.notes := ""; Prescription.createdAt := Some 1793000000000 |}.

Definition rxDb : Firestore.t :=
  {| Firestore.appointments := [aptDone1; aptDone2; aptOpen];
     Firestore.prescriptions := [rxOld];
     Firestore.feedback := [] |}.

(** The number of rows the appointment page shows under a filter *)
Definition shown (st : ManageAppointments.State) (f : string) : nat :=
  length (ManageAppointments.filteredAppointments (ManageAppointments.setFilter st f)).

(** The status is one of the five of the lifecycle. *)
Definition knownStatus (s : string) : Prop :=
  exists st : ManageAppointments.Status, s = ManageAppointments.statusString st.

(** A doctor and a store with two appointments of theirs and one of a
    colleague *)
Definition doctor1 : UserData.t := {| UserData.uid := "d1"; UserData.name := "Who" |}.

Definition aptOther : Appointment.t :=
  {| Appointment.id := "a7"; Appointment.patientId := Some "p1";
     Appointment.patientName := Some "Pat"; Appointment.doctorId := "d2";
     Appointment.doctorName := Some "Strange"; Appointment.date := "2026-11-04";
     Appointment.time := "15:00"; Appointment.note := "";
     Appointment.status := "pending"; Appointment.createdAt := Some 1793527400000 |}.

Definition wardDb : Firestore.t :=
  {| Firestore.appointments := [apt1; aptOther; apt2];
     Firestore.prescriptions := []; Firestore.feedback := [] |}.

Definition ward : ManageAppointments.State :=
  ManageAppointments.fetchAppointments (Some doctor1) wardDb true ManageAppointments.init.

(** The page of doctor d1 over the clinic store, after the Prescription
    button of the completed appointment a1 *)
Definition clinicPage : ManageAppointments.State :=
  ManageAppointments.handleCreatePrescription aptDone1
    (ManageAppointments.fetchAppointments (Some doctor1) clinicDb true ManageAppointments.init).

(** The reading of a day of a 400-year era: year of the era, month and day
    of the month, as [JS.civil_from_days] computes them from the day of the
    era *)
Definition civil_doe (doe : Z) : Z * Z * Z :=
  let yoe := (doe - doe / 1460 + doe / 36524 - doe / 146096) / 365 in
  let doy := doe - (365 * yoe + yoe / 4 - yoe / 100) in
  let mp := (5 * doy + 2) / 153 in
  let d := doy - (153 * mp + 2) / 5 + 1 in
  let m := if mp <? 10 then mp + 3 else mp - 9 in
  (yoe, m, d).

(** The day of the era of a date, as [JS.days_from_civil] computes it *)
Definition doe_of (yoe m d : Z) : Z :=
  yoe * 365 + yoe / 4 - yoe / 100
  + ((153 * (if 2 <? m then m - 3 else m + 9) + 2) / 5 + d - 1).

(** The check of one day of the era: a valid date that reads back, in the
    last year of the era exactly for its final days (January and February
    of the year that starts the next one) *)
Definition doe_ok (doe : Z) : bool :=
  let '(yoe, m, d) := civil_doe doe in
  let c := if m <=? 2 then 1 else 0 in
  (0 <=? yoe) && (yoe <=? 399) && (1 <=? m) && (m <=? 12) && (1 <=? d)
  && (d <=? JS.daysInMonth (yoe + c) m) && (doe_of yoe m d =? doe)
  && (if doe <=? 146036 then yoe + c <=? 399 else yoe + c =? 400).

(** The zero-padded decimal of [n] has the given number of digits and reads
    back as [n]. *)
Definition pad4_ok (n : Z) : bool :=
  match JS.pad 4 n with
  | String a (String b (String c (String d EmptyString))) =>
      match JS.digits4 a b c d with
      | Some v => (v =? n) && negb (Ascii.eqb a "-")
      | None => false
      end
  | _ => false
  end.

Definition pad2_ok (n : Z) : bool :=
  match JS.pad 2 n with
  | String a (String b EmptyString) =>
      match JS.digits2 a b with
      | Some v => v =? n
      | None => false
      end
  | _ => false
  end.

(** The instants of the years 0000 to 9999, which [toISOString] writes with
    four digits *)
Definition fourDigitYear (t : Z) : Prop :=
  -62167219200000 <= t < 253402300800000.

(** [f] holds of the [n] integers from [start] on. *)
Fixpoint allFrom (f : Z -> bool) (n : nat) (start : Z) : bool :=
  match n with
  | O => true
  | S n' => f start && allFrom f n' (start + 1)
  end.

(** The counter of the booking page is up to date for the day [today]: it
    is the number of appointments of the patient dated [today] in the
    store. *)
Definition counted (today : string) (u : UserData.t)
    (s : BookAppointment.State * Firestore.t) : Prop :=
  BookAppointment.todayBookings s.1 = Z.of_nat (length (sameDay u today s.2)).

(** New York in the afternoon of 2026-11-01 *)
Definition newYork : JS.Env := {| JS.now := 1793559600000; JS.tzOffset := -18000000 |}.

(** Text of the ASCII range, in which toLowerCase maps the letters A to Z
    one by one and leaves every other code unit. *)
Fixpoint isASCII (s : string) : bool :=
  match s with
  | EmptyString => true
  | String c s' => (N_of_ascii c <? 128)%N && isASCII s'
  end.


(** The number of feedback records with a rating *)
Definition countRating (k : Z) (l : list Feedback.t) : Z :=
  Z.of_nat (length (List.filter (fun fb => Feedback.rating fb =? k) l)).

(** What [ratingDistribution[k]++] does to the entry of key [k] *)
Definition bump (o : option (option Z)) : option (option Z) :=
  match o with
  | Some (Some n) => Some (Some (n + 1))
  | _ => Some None
  end.

(** The feedback page of a doctor with the four reviews, under the given
    filters *)
Definition reviewsPage (ratingFilter dateFilter : string) : DoctorFeedback.State :=
  DoctorFeedback.setDateFilter
    (DoctorFeedback.setRatingFilter
       {| DoctorFeedback.feedback := fourReviews; DoctorFeedback.loading := false;
          DoctorFeedback.ratingFilter := "all"; DoctorFeedback.dateFilter := "all";
          DoctorFeedback.stats := DoctorFeedback.calculateStats fourReviews |}
       ratingFilter) dateFilter.

(** The prescription page of a doctor with the given search term *)
Definition rxPage (searchTerm : string) : DoctorPrescriptions.State :=
  DoctorPrescriptions.setSearchTerm
    (DoctorPrescriptions.setPrescriptions DoctorPrescriptions.init [rxOld]) searchTerm.

(** A signed-in patient and a signed-in doctor at the route guard *)
Definition asPatient : App.Auth := {| App.currentUser := true; App.role := Some "patient" |}.

Definition asDoctor : App.Auth := {| App.currentUser := true; App.role := Some "doctor" |}.

(** The dashboard route of a role *)
Definition dashboardOf (r : string) : option App.Route :=
  if String.eqb r "patient" then Some App.patientDashboard
  else if String.eqb r "doctor" then Some App.doctorDashboard
  else None.

(** * Properties *)

(** ** Strings *)

Lemma truthy_true (s : string) : JS.truthy s = true <-> s <> "".
Proof.
  unfold JS.truthy. destruct (String.eqb_spec s ""); simpl; split; congruence.
Qed.

Lemma truthy_false (s : string) : JS.truthy s = false <-> s = "".
Proof.
  unfold JS.truthy. destruct (String.eqb_spec s ""); simpl; split; congruence.
Qed.


Lemma trimStart_blank (s : string) : blank s -> JS.trimStart s = "".
Proof.
  induction s as [|c s IH]; intros Hb; simpl; [reflexivity|].
  rewrite (Hb c) by (simpl; auto).
  apply IH. intros c' Hc'. apply Hb. simpl; auto.
Qed.

Lemma trimEnd_empty (s : string) : JS.trimEnd s = "" -> blank s.
Proof.
  induction s as [|c s IH]; simpl; intros H.
  - intros c' [].
  - destruct (JS.trimEnd s) eqn:E; [|discriminate].
    destruct (JS.isWhiteSpace c) eqn:Hc; [|discriminate].
    intros c' [<-|Hin]; [assumption|]. apply IH; auto.
Qed.

Lemma trimStart_blank_inv (s : string) : blank (JS.trimStart s) -> blank s.
Proof.
  induction s as [|c s IH]; simpl; intros H; [assumption|].
  destruct (JS.isWhiteSpace c) eqn:Hc; [|assumption].
  intros c' [<-|Hin]; [assumption|]. apply IH; auto.
Qed.

Lemma trim_empty_iff (s : string) : JS.trim s = "" <-> blank s.
Proof.
  unfold JS.trim; split; intros H.
  - apply trimStart_blank_inv, trimEnd_empty, H.
  - rewrite trimStart_blank by assumption. reflexivity.
Qed.

Lemma trim_truthy_nonempty (s : string) : JS.truthy (JS.trim s) = true -> s <> "".
Proof.
  intros H ->. discriminate H.
Qed.

(** ** BookAppointment: the time slots *)

Lemma generateTimeSlots_fuel (fuel : nat) :
  (10 <= fuel)%nat ->
  BookAppointment.generateTimeSlotsFuel fuel = BookAppointment.generateTimeSlots.
Proof.
  intros H. do 10 (destruct fuel as [|fuel]; [lia|]).
  destruct fuel; reflexivity.
Qed.

Lemma handleSubmit_adds_form_time env userData addDocRes queryOk st db a :
  In a (Firestore.appointments (BookAppointment.handleSubmit env userData addDocRes queryOk st db).2) ->
  In a (Firestore.appointments db) \/
  (Appointment.time a = BookAppointment.time (BookAppointment.formData st)
   /\ Appointment.date a = BookAppointment.date (BookAppointment.formData st)
   /\ Appointment.status a = "pending"
   /\ Appointment.time a <> "").
Proof.
  unfold BookAppointment.handleSubmit.
  destruct (2 <=? _); [simpl; auto|].
  destruct (negb (JS.truthy (BookAppointment.doctorId _)) || _ || _) eqn:Hreq; [simpl; auto|].
  destruct (JS.Date_lt _ _); [simpl; auto|].
  destruct addDocRes as [newId|]; [|simpl; auto].
  simpl. rewrite in_app_iff. intros [Hin|[<-|[]]]; [auto|right].
  simpl. repeat split.
  apply orb_false_elim in Hreq as [_ Ht].
  apply negb_false_iff, truthy_true in Ht. exact Ht.
Qed.

(** C10. generateTimeSlots returns exactly the 18 half-hour strings from
    "09:00" through "17:30", whatever iteration budget of at least 10 the
    loops are given; they are strictly ascending; and every appointment a
    submission of the form creates, the time having been picked among the
    options of the time select, has its time in this list. *)
Theorem generateTimeSlots_half_hours :
  BookAppointment.generateTimeSlots =
    ["09:00"; "09:30"; "10:00"; "10:30"; "11:00"; "11:30"; "12:00"; "12:30"; "13:00";
     "13:30"; "14:00"; "14:30"; "15:00"; "15:30"; "16:00"; "16:30"; "17:00"; "17:30"]
  /\ (forall fuel, (10 <= fuel)%nat ->
        BookAppointment.generateTimeSlotsFuel fuel = BookAppointment.generateTimeSlots)
  /\ length BookAppointment.generateTimeSlots = 18%nat
  /\ Sorted.StronglySorted (fun a b => String.ltb a b = true) BookAppointment.generateTimeSlots
  /\ (forall env userData addDocRes queryOk st db a,
        In (BookAppointment.time (BookAppointment.formData st)) BookAppointment.timeOptions ->
        In a (Firestore.appointments
                (BookAppointment.handleSubmit env userData addDocRes queryOk st db).2) ->
        In a (Firestore.appointments db) \/
        In (Appointment.time a) BookAppointment.generateTimeSlots).
Proof.
  split; [reflexivity|].
  split; [exact generateTimeSlots_fuel|].
  split; [reflexivity|].
  split.
  - change BookAppointment.generateTimeSlots with
      ["09:00"; "09:30"; "10:00"; "10:30"; "11:00"; "11:30"; "12:00"; "12:30"; "13:00";
       "13:30"; "14:00"; "14:30"; "15:00"; "15:30"; "16:00"; "16:30"; "17:00"; "17:30"].
    repeat (constructor; [|repeat (constructor; [reflexivity|]); constructor]).
    constructor.
  - intros env userData addDocRes queryOk st db a Hopt Hin.
    apply handleSubmit_adds_form_time in Hin as [Hin|(Ht & _ & _ & Hne)]; [auto|right].
    rewrite Ht in *. destruct Hopt as [Hempty|Hslot]; [congruence|exact Hslot].
Qed.


Lemma generateTimeSlots_half_hours_witness :
  BookAppointment.generateTimeSlotsFuel 12 = BookAppointment.generateTimeSlots
  /\ forall a,
       In a (Firestore.appointments
               (BookAppointment.handleSubmit nov1 (Some patient1) (Some "a1") true
                  (filled "2026-11-02" 0) Firestore.empty).2) ->
       In a (Firestore.appointments Firestore.empty) \/
       In (Appointment.time a) BookAppointment.generateTimeSlots.
Proof.
  destruct generateTimeSlots_half_hours as (_ & Hfuel & _ & _ & Hbook).
  split.
  - apply Hfuel. lia.
  - intros a. apply Hbook. vm_compute. tauto.
Defined.

(** ** ManageAppointments: the lifecycle *)


Lemma offered_pending t : In t (ManageAppointments.offered "pending") -> t = "confirmed" \/ t = "cancelled".
Proof. simpl. intuition. Qed.

Lemma offered_confirmed t : In t (ManageAppointments.offered "confirmed") -> t = "in_progress" \/ t = "cancelled".
Proof. simpl. intuition. Qed.

Lemma offered_in_progress t : In t (ManageAppointments.offered "in_progress") -> t = "completed".
Proof. simpl. intuition. Qed.

Lemma follows_terminal s rest :
  ManageAppointments.offered s = [] -> ManageAppointments.follows (s :: rest) -> rest = [].
Proof.
  intros Hs. destruct rest as [|t rest]; [reflexivity|].
  simpl. rewrite Hs. intros [[] _].
Qed.

(** C1. From each of the five statuses getAvailableActions offers exactly
    the targets of the table: pending to confirmed or cancelled, confirmed to
    in_progress or cancelled, in_progress to completed, nothing from
    completed and cancelled.  Hence a status sequence that starts at pending
    and moves only by ManageAppointments.offered actions is an initial segment of one of
    pending-confirmed-in_progress-completed, pending-confirmed-cancelled and
    pending-cancelled: no state is skipped. *)
Theorem getAvailableActions_table :
  (forall s : ManageAppointments.Status, ManageAppointments.offered (ManageAppointments.statusString s) = List.map ManageAppointments.statusString (targets s))
  /\ (forall path, ManageAppointments.follows ("pending" :: path) ->
        ManageAppointments.is_prefix ("pending" :: path) ["pending"; "confirmed"; "in_progress"; "completed"]
        \/ ManageAppointments.is_prefix ("pending" :: path) ["pending"; "confirmed"; "cancelled"]
        \/ ManageAppointments.is_prefix ("pending" :: path) ["pending"; "cancelled"]).
Proof.
  split.
  - intros []; reflexivity.
  - intros path H.
    destruct path as [|s1 path].
    { left. eexists. reflexivity. }
    destruct H as [H1 H]. apply offered_pending in H1 as [-> | ->].
    2:{ apply follows_terminal in H as ->; [|reflexivity].
        right; right. exists []. reflexivity. }
    destruct path as [|s2 path].
    { left. eexists. reflexivity. }
    destruct H as [H2 H]. apply offered_confirmed in H2 as [-> | ->].
    2:{ apply follows_terminal in H as ->; [|reflexivity].
        right; left. exists []. reflexivity. }
    destruct path as [|s3 path].
    { left. eexists. reflexivity. }
    destruct H as [H3 H]. apply offered_in_progress in H3 as ->.
    apply follows_terminal in H as ->; [|reflexivity].
    left. exists []. reflexivity.
Qed.

Lemma getAvailableActions_table_witness :
  ManageAppointments.is_prefix ["pending"; "confirmed"; "in_progress"]
            ["pending"; "confirmed"; "in_progress"; "completed"]
  \/ ManageAppointments.is_prefix ["pending"; "confirmed"; "in_progress"] ["pending"; "confirmed"; "cancelled"]
  \/ ManageAppointments.is_prefix ["pending"; "confirmed"; "in_progress"] ["pending"; "cancelled"].
Proof.
  apply (proj2 getAvailableActions_table ["confirmed"; "in_progress"]).
  simpl. tauto.
Defined.

(** ** ManageAppointments: the local update *)

Lemma patchStatus_length appointmentId newStatus prev :
  length (ManageAppointments.patchStatus appointmentId newStatus prev) = length prev.
Proof. unfold ManageAppointments.patchStatus. apply length_map. Qed.

Lemma patchStatus_nth appointmentId newStatus prev (i : nat) :
  nth_error (ManageAppointments.patchStatus appointmentId newStatus prev) i =
  option_map
    (fun apt => if String.eqb (Appointment.id apt) appointmentId
                then Appointment.with_status apt newStatus else apt)
    (nth_error prev i).
Proof. unfold ManageAppointments.patchStatus. apply nth_error_map. Qed.

Lemma same_but_status_refl a : same_but_status a a.
Proof. repeat split. Qed.

Lemma with_status_same a s : same_but_status (Appointment.with_status a s) a.
Proof. repeat split. Qed.

Lemma updateAppointmentStatus_nth appointmentId newStatus updateOk st db (i : nat) apt :
  nth_error (ManageAppointments.appointments st) i = Some apt ->
  exists apt',
    nth_error (ManageAppointments.appointments
      (ManageAppointments.updateAppointmentStatus appointmentId newStatus updateOk st db).1) i
    = Some apt'
    /\ same_but_status apt' apt
    /\ (Appointment.id apt <> appointmentId -> apt' = apt)
    /\ (Appointment.status apt' <> Appointment.status apt ->
        Appointment.id apt = appointmentId /\ Appointment.status apt' = newStatus).
Proof.
  intros Hi. unfold ManageAppointments.updateAppointmentStatus.
  destruct updateOk; simpl.
  - rewrite patchStatus_nth, Hi. simpl.
    destruct (String.eqb_spec (Appointment.id apt) appointmentId) as [Heq|Hne].
    + eexists; split; [reflexivity|].
      split; [apply with_status_same|]. split; [congruence|]. intros _. auto.
    + exists apt. split; [reflexivity|].
      split; [apply same_but_status_refl|]. split; [reflexivity|]. congruence.
  - exists apt. split; [assumption|].
    split; [apply same_but_status_refl|]. split; [reflexivity|]. congruence.
Qed.

Lemma updateAppointmentStatus_ids appointmentId newStatus updateOk st db :
  List.map Appointment.id (ManageAppointments.appointments
    (ManageAppointments.updateAppointmentStatus appointmentId newStatus updateOk st db).1)
  = List.map Appointment.id (ManageAppointments.appointments st).
Proof.
  unfold ManageAppointments.updateAppointmentStatus.
  destruct updateOk; simpl; [|reflexivity].
  unfold ManageAppointments.patchStatus. rewrite List.map_map.
  apply List.map_ext. intros a. destruct (String.eqb _ _); reflexivity.
Qed.

(** C9. updateAppointmentStatus keeps the length and the order of the local
    list; at every position the appointment keeps all its fields except
    possibly status; an appointment whose id differs from appointmentId is
    unchanged; and a status that did change belongs to an appointment with
    that id and is now newStatus. *)
Theorem updateAppointmentStatus_frame appointmentId newStatus updateOk st db :
  let st' := (ManageAppointments.updateAppointmentStatus appointmentId newStatus updateOk st db).1 in
  length (ManageAppointments.appointments st') = length (ManageAppointments.appointments st)
  /\ forall (i : nat) apt,
       nth_error (ManageAppointments.appointments st) i = Some apt ->
       exists apt',
         nth_error (ManageAppointments.appointments st') i = Some apt'
         /\ same_but_status apt' apt
         /\ (Appointment.id apt <> appointmentId -> apt' = apt)
         /\ (Appointment.status apt' <> Appointment.status apt ->
             Appointment.id apt = appointmentId /\ Appointment.status apt' = newStatus).
Proof.
  split.
  - unfold ManageAppointments.updateAppointmentStatus.
    destruct updateOk; simpl; [apply patchStatus_length|reflexivity].
  - intros i apt Hi. apply updateAppointmentStatus_nth, Hi.
Qed.

Lemma updateAppointmentStatus_frame_witness :
  exists apt',
    nth_error (ManageAppointments.appointments
      (ManageAppointments.updateAppointmentStatus "a1" "confirmed" true
         twoAppointments Firestore.empty).1) 1 = Some apt'
    /\ same_but_status apt' apt2
    /\ (Appointment.id apt2 <> "a1" -> apt' = apt2)
    /\ (Appointment.status apt' <> Appointment.status apt2 ->
        Appointment.id apt2 = "a1" /\ Appointment.status apt' = "confirmed").
Proof.
  apply (proj2 (updateAppointmentStatus_frame "a1" "confirmed" true
                  twoAppointments Firestore.empty) 1%nat apt2).
  reflexivity.
Defined.

(** The store sees the same update as the local list. *)
Lemma updateAppointmentStatus_store appointmentId newStatus st db :
  Firestore.appointments
    (ManageAppointments.updateAppointmentStatus appointmentId newStatus true st db).2 =
  ManageAppointments.patchStatus appointmentId newStatus (Firestore.appointments db).
Proof. reflexivity. Qed.

(** A click moves the status of every appointment of the list, whose ids
    are distinct, either nowhere or to a status offered from its current
    one. *)
Lemma click_offered st db st' db' (i : nat) apt :
  ManageAppointments.click (st, db) (st', db') ->
  List.NoDup (List.map Appointment.id (ManageAppointments.appointments st)) ->
  nth_error (ManageAppointments.appointments st) i = Some apt ->
  exists apt',
    nth_error (ManageAppointments.appointments st') i = Some apt'
    /\ Appointment.id apt' = Appointment.id apt
    /\ (Appointment.status apt' = Appointment.status apt
        \/ In (Appointment.status apt')
              (ManageAppointments.offered (Appointment.status apt))).
Proof.
  intros Hc Hnd Hi. inversion Hc as [st0 db0 a act ok Ha Hact Heq1 Heq2]; subst st0 db0.
  destruct (updateAppointmentStatus_nth (Appointment.id a) (ManageAppointments.action act)
              ok st db i apt Hi) as (apt' & Hi' & Hsame & Hother & Hchanged).
  rewrite Heq2 in Hi'. simpl in Hi'.
  exists apt'. split; [assumption|]. split; [apply Hsame|].
  destruct (String.eqb_spec (Appointment.status apt') (Appointment.status apt)) as [|Hne];
    [left; assumption|right].
  destruct (Hchanged Hne) as [Hid ->].
  assert (apt = a) as ->.
  { apply In_nth_error in Ha as [j Hj].
    assert (i = j) as ->.
    { apply (proj1 (NoDup_nth_error _) Hnd).
      - apply nth_error_Some. rewrite nth_error_map, Hi. discriminate.
      - rewrite !nth_error_map, Hi, Hj. simpl. congruence. }
    congruence. }
  unfold ManageAppointments.offered. apply in_map. assumption.
Qed.

Lemma follows_snoc p s t :
  ManageAppointments.follows (p ++ [s]) ->
  In t (ManageAppointments.offered s) ->
  ManageAppointments.follows (p ++ [s; t]).
Proof.
  induction p as [|x p IH]; intros Hf Ht.
  - simpl. auto.
  - destruct p as [|y p].
    + simpl in *. tauto.
    + simpl in Hf. destruct Hf as [Hxy Hf]. simpl. split; [assumption|].
      apply IH; assumption.
Qed.

(** After any number of clicks an appointment of a list with distinct ids
    is still at its position, and its status is the old one or the end of a
    sequence of offered moves that starts at the old one. *)
Lemma clicks_follow s s' (i : nat) apt :
  ManageAppointments.clicks s s' ->
  List.NoDup (List.map Appointment.id (ManageAppointments.appointments s.1)) ->
  nth_error (ManageAppointments.appointments s.1) i = Some apt ->
  exists apt',
    nth_error (ManageAppointments.appointments s'.1) i = Some apt'
    /\ Appointment.id apt' = Appointment.id apt
    /\ (Appointment.status apt' = Appointment.status apt
        \/ exists mid,
             ManageAppointments.follows
               (Appointment.status apt :: mid ++ [Appointment.status apt'])).
Proof.
  intros Hc Hnd Hi. induction Hc as [s|s s1 s2 Hc IH Hk].
  - exists apt. auto.
  - destruct IH as (apt1 & Hi1 & Hid1 & Hpath); [assumption..|].
    assert (Hids : List.map Appointment.id (ManageAppointments.appointments s1.1)
                   = List.map Appointment.id (ManageAppointments.appointments s.1)).
    { clear -Hc. induction Hc as [|s s1 s2 _ IH Hk]; [reflexivity|].
      rewrite <- IH. inversion Hk; subst. apply updateAppointmentStatus_ids. }
    destruct s1 as [st1 db1], s2 as [st2 db2].
    destruct (click_offered st1 db1 st2 db2 i apt1 Hk) as (apt2 & Hi2 & Hid2 & Hmove).
    { simpl in Hids. rewrite Hids. exact Hnd. }
    { exact Hi1. }
    exists apt2. split; [exact Hi2|]. split; [congruence|].
    destruct Hmove as [Hsame|Hoff].
    + rewrite Hsame. exact Hpath.
    + right. destruct Hpath as [Heq|[mid Hmid]].
      * exists []. simpl. rewrite <- Heq. auto.
      * exists (mid ++ [Appointment.status apt1])%list. rewrite <- app_assoc.
        apply (follows_snoc (Appointment.status apt :: mid)%list); assumption.
Qed.

(** ** DoctorFeedback: the statistics *)

Lemma fold_left_ratings {B : Type} (f : B -> Z -> B) (l : list Feedback.t) (b : B) :
  List.fold_left (fun acc fb => f acc (Feedback.rating fb)) l b =
  List.fold_left f (List.map Feedback.rating l) b.
Proof.
  revert b. induction l as [|x l IH]; intros b; simpl; [reflexivity|apply IH].
Qed.

Lemma calculateStats_ratings (l : list Feedback.t) :
  let ratings := List.map Feedback.rating l in
  let n := Z.of_nat (length ratings) in
  DoctorFeedback.totalReviews (DoctorFeedback.calculateStats l) = n
  /\ DoctorFeedback.averageRating (DoctorFeedback.calculateStats l) =
     (inject_Z (JS.Math_round
        ((if (0 <? n)%Z then inject_Z (List.fold_left Z.add ratings 0%Z) / inject_Z n else 0)
         * inject_Z 10)) / inject_Z 10)%Q
  /\ DoctorFeedback.ratingDistribution (DoctorFeedback.calculateStats l) =
     List.fold_left DoctorFeedback.increment ratings DoctorFeedback.emptyDistribution.
Proof.
  unfold DoctorFeedback.calculateStats; simpl.
  rewrite length_map.
  rewrite (fold_left_ratings Z.add), (fold_left_ratings DoctorFeedback.increment).
  auto.
Qed.

(** C7. For feedback records rated 5, 4, 5, 3 calculateStats gives
    totalReviews 4, averageRating 4.3 (the mean 4.25 times ten is 42.5, which
    Math.round takes up to 43) and the distribution
    1:0, 2:0, 3:1, 4:1, 5:2. *)
Theorem calculateStats_5453 (feedbackList : list Feedback.t) :
  List.map Feedback.rating feedbackList = [5; 4; 5; 3] ->
  DoctorFeedback.totalReviews (DoctorFeedback.calculateStats feedbackList) = 4
  /\ (DoctorFeedback.averageRating (DoctorFeedback.calculateStats feedbackList) == 43 # 10)%Q
  /\ DoctorFeedback.ratingDistribution (DoctorFeedback.calculateStats feedbackList) =
     histogram 0 0 1 1 2.
Proof.
  intros H.
  destruct (calculateStats_ratings feedbackList) as (Ht & Ha & Hd).
  rewrite Ht, Ha, Hd, H. clear.
  split; [reflexivity|]. split; [reflexivity|].
  vm_compute. reflexivity.
Qed.

Lemma calculateStats_5453_witness :
  DoctorFeedback.totalReviews (DoctorFeedback.calculateStats fourReviews) = 4
  /\ (DoctorFeedback.averageRating (DoctorFeedback.calculateStats fourReviews) == 43 # 10)%Q
  /\ DoctorFeedback.ratingDistribution (DoctorFeedback.calculateStats fourReviews) =
     histogram 0 0 1 1 2.
Proof.
  apply (calculateStats_5453 fourReviews). reflexivity.
Defined.

(** The comment counter leaves out the empty and the blank comment. *)
Lemma calculateStats_fourReviews_withComments :
  DoctorFeedback.withComments (DoctorFeedback.calculateStats fourReviews) = 2.
Proof. reflexivity. Qed.

(** ** PrescriptionForm *)

Lemma validMedications_In st med :
  In med (PrescriptionForm.validMedications st) ->
  In med (PrescriptionForm.medications st) /\ Medication.name med <> "".
Proof.
  unfold PrescriptionForm.validMedications. rewrite filter_In.
  intros [Hin Ht]. split; [assumption|]. eapply trim_truthy_nonempty, Ht.
Qed.

Lemma validMedications_named st :
  List.filter (fun med => JS.truthy (Medication.name med)) (PrescriptionForm.medications st) = [] ->
  PrescriptionForm.validMedications st = [].
Proof.
  intros H. destruct (PrescriptionForm.validMedications st) as [|m l] eqn:E; [reflexivity|].
  assert (Hm : In m (PrescriptionForm.validMedications st)) by (rewrite E; left; reflexivity).
  apply validMedications_In in Hm as [Hin Hne].
  assert (Hf : In m (List.filter (fun med => JS.truthy (Medication.name med))
                       (PrescriptionForm.medications st))).
  { apply filter_In. split; [assumption|]. apply truthy_true, Hne. }
  rewrite H in Hf. destruct Hf.
Qed.

(** C3. handleSubmit of the prescription form stops with an alert, writes
    nothing and leaves the form open when the diagnosis is empty or blank,
    and when no medication has a non-empty name.  When it gets past the two
    checks, the entries that survive the filter are not empty, each is an
    entry of the form with a non-empty name, and the prescription written,
    if the store takes it, carries exactly these entries. *)
Theorem createPrescription_validation env p addDocRes st db :
  let res := PrescriptionForm.handleSubmit env p addDocRes st db in
  (blank (PrescriptionForm.diagnosis st) ->
     PrescriptionForm.alert res = Some PrescriptionForm.msgDiagnosis /\ rejected res st db)
  /\ (List.filter (fun med => JS.truthy (Medication.name med))
        (PrescriptionForm.medications st) = [] ->
      rejected res st db)
  /\ (accepted res ->
      PrescriptionForm.validMedications st <> []
      /\ (forall med, In med (PrescriptionForm.validMedications st) ->
            In med (PrescriptionForm.medications st) /\ Medication.name med <> "")
      /\ match addDocRes with
         | Some newId =>
             exists rx,
               PrescriptionForm.store res = PrescriptionForm.addPrescription db rx
               /\ Prescription.id rx = newId
               /\ Prescription.diagnosis rx = PrescriptionForm.diagnosis st
               /\ Prescription.medications rx = PrescriptionForm.validMedications st
         | None => PrescriptionForm.store res = db
         end).
Proof.
  unfold PrescriptionForm.handleSubmit, rejected, accepted.
  destruct (JS.truthy (JS.trim (PrescriptionForm.diagnosis st))) eqn:Hd; simpl.
  - apply truthy_true in Hd.
    destruct (PrescriptionForm.validMedications st) as [|m l] eqn:Hv; simpl.
    + split; [intros Hb; apply trim_empty_iff in Hb; contradiction|].
      split; [tauto|]. intros [_ Hacc]. contradiction.
    + split; [intros Hb; apply trim_empty_iff in Hb; contradiction|].
      split; [intros Hf; apply validMedications_named in Hf; congruence|].
      intros _. split; [discriminate|].
      split; [intros med0 Hin; apply validMedications_In; rewrite Hv; assumption|].
      destruct addDocRes as [newId|]; simpl; [|reflexivity].
      eexists. split; [reflexivity|]. simpl. rewrite Hv. auto.
  - split; [tauto|]. split; [tauto|]. intros [Hacc _]. contradiction.
Qed.

Lemma createPrescription_validation_witness :
  (PrescriptionForm.alert
     (PrescriptionForm.handleSubmit nov1 rxProps (Some "rx1")
        (rxForm "   " [med "Amoxicillin"]) Firestore.empty)
   = Some PrescriptionForm.msgDiagnosis)
  /\ rejected
       (PrescriptionForm.handleSubmit nov1 rxProps (Some "rx1")
          (rxForm "flu" [med ""; med ""]) Firestore.empty)
       (rxForm "flu" [med ""; med ""]) Firestore.empty
  /\ PrescriptionForm.validMedications (rxForm "flu" [med ""; med "Amoxicillin"; med "  "]) <> [].
Proof.
  split; [|split].
  - apply (proj1 (createPrescription_validation nov1 rxProps (Some "rx1")
                    (rxForm "   " [med "Amoxicillin"]) Firestore.empty)).
    intros c Hc. simpl in Hc. intuition (subst; reflexivity).
  - apply (proj1 (proj2 (createPrescription_validation nov1 rxProps (Some "rx1")
                           (rxForm "flu" [med ""; med ""]) Firestore.empty))).
    reflexivity.
  - apply (proj2 (proj2 (createPrescription_validation nov1 rxProps (Some "rx1")
                           (rxForm "flu" [med ""; med "Amoxicillin"; med "  "])
                           Firestore.empty))).
    split; discriminate.
Defined.

(** ** BookAppointment: the checks of handleSubmit *)

Lemma missing_spec (f : BookAppointment.FormData) :
  negb (JS.truthy (BookAppointment.doctorId f)) || negb (JS.truthy (BookAppointment.date f))
  || negb (JS.truthy (BookAppointment.time f)) = true <-> missing f.
Proof.
  unfold missing. rewrite !orb_true_iff, !negb_true_iff, !truthy_false. tauto.
Qed.

Lemma handleSubmit_cap env userData addDocRes queryOk st db :
  2 <= BookAppointment.todayBookings st ->
  BookAppointment.handleSubmit env userData addDocRes queryOk st db =
  (BookAppointment.setError st BookAppointment.errMaxPerDay, db).
Proof.
  intros H. unfold BookAppointment.handleSubmit.
  destruct (Z.leb_spec 2 (BookAppointment.todayBookings st)); [reflexivity|lia].
Qed.

Lemma handleSubmit_required env userData addDocRes queryOk st db :
  BookAppointment.todayBookings st < 2 ->
  missing (BookAppointment.formData st) ->
  BookAppointment.handleSubmit env userData addDocRes queryOk st db =
  (BookAppointment.setError st BookAppointment.errRequired, db).
Proof.
  intros H Hm. unfold BookAppointment.handleSubmit.
  destruct (Z.leb_spec 2 (BookAppointment.todayBookings st)); [lia|].
  apply missing_spec in Hm. rewrite Hm. reflexivity.
Qed.

Lemma handleSubmit_past env userData addDocRes queryOk st db :
  BookAppointment.todayBookings st < 2 ->
  ~ missing (BookAppointment.formData st) ->
  JS.Date_lt (JS.Date_parse (BookAppointment.date (BookAppointment.formData st)))
    (JS.localMidnight env) = true ->
  BookAppointment.handleSubmit env userData addDocRes queryOk st db =
  (BookAppointment.setError st BookAppointment.errPastDate, db).
Proof.
  intros H Hm Hlt. unfold BookAppointment.handleSubmit.
  destruct (Z.leb_spec 2 (BookAppointment.todayBookings st)); [lia|].
  destruct (negb _ || _ || _) eqn:E; [apply missing_spec in E; contradiction|].
  rewrite Hlt. reflexivity.
Qed.

Lemma handleSubmit_accepted env userData newId queryOk st db :
  BookAppointment.todayBookings st < 2 ->
  ~ missing (BookAppointment.formData st) ->
  JS.Date_lt (JS.Date_parse (BookAppointment.date (BookAppointment.formData st)))
    (JS.localMidnight env) = false ->
  (BookAppointment.handleSubmit env userData (Some newId) queryOk st db).2 =
  BookAppointment.addAppointment db (BookAppointment.newAppointment env userData st newId).
Proof.
  intros H Hm Hlt. unfold BookAppointment.handleSubmit.
  destruct (Z.leb_spec 2 (BookAppointment.todayBookings st)); [lia|].
  destruct (negb _ || _ || _) eqn:E; [apply missing_spec in E; contradiction|].
  rewrite Hlt. reflexivity.
Qed.

(** Whether a submission is turned down, and with which message, is decided
    by the form, the counter and the clock alone: the store is not read. *)
Lemma handleSubmit_error_ignores_store env userData addDocRes queryOk st db1 db2 :
  BookAppointment.error (BookAppointment.handleSubmit env userData addDocRes queryOk st db1).1 =
  BookAppointment.error (BookAppointment.handleSubmit env userData addDocRes queryOk st db2).1.
Proof.
  unfold BookAppointment.handleSubmit.
  destruct (2 <=? _); [reflexivity|].
  destruct (negb _ || _ || _); [reflexivity|].
  destruct (JS.Date_lt _ _); [reflexivity|].
  destruct addDocRes; [|reflexivity].
  simpl. destruct userData; [|reflexivity]. destruct queryOk; reflexivity.
Qed.

(** A date before the local day of the clock parses to an instant before
    local midnight, as long as local time is less than a day ahead of UTC. *)
Lemma past_date_lt env s d :
  JS.dateDay s = Some d ->
  d < JS.localDay env ->
  JS.tzOffset env < JS.msPerDay ->
  JS.Date_lt (JS.Date_parse s) (JS.localMidnight env) = true.
Proof.
  intros Hd Hlt Htz. unfold JS.Date_parse. rewrite Hd. simpl.
  apply Z.ltb_lt. unfold JS.localMidnight, JS.msPerDay in *. lia.
Qed.

(** The same for a date before the UTC day of the clock, the day
    [getMinDate] and [checkTodayBookings] use, whatever the offset is. *)
Lemma past_utc_date_lt env s d :
  JS.dateDay s = Some d ->
  d < JS.now env / JS.msPerDay ->
  JS.Date_lt (JS.Date_parse s) (JS.localMidnight env) = true.
Proof.
  intros Hd Hlt. unfold JS.Date_parse. rewrite Hd. simpl.
  apply Z.ltb_lt. unfold JS.localMidnight, JS.localDay, JS.msPerDay in *.
  pose proof (Z.mul_div_le (JS.now env) 86400000 ltac:(lia)).
  pose proof (Z.mod_pos_bound (JS.now env + JS.tzOffset env) 86400000 ltac:(lia)).
  pose proof (Z.div_mod (JS.now env + JS.tzOffset env) 86400000 ltac:(lia)).
  lia.
Qed.

(** C8, as the specification states it, fails: with two bookings counted for
    today the cap message comes first, also when a required field is
    missing. *)
Lemma missing_fields_error_counterexample :
  ~ (forall env userData addDocRes queryOk st db,
       missing (BookAppointment.formData st) ->
       BookAppointment.error
         (BookAppointment.handleSubmit env userData addDocRes queryOk st db).1
       = BookAppointment.errRequired).
Proof.
  intros H.
  specialize (H nov1 (Some patient1) (Some "a9") true (filled "" 2) Firestore.empty).
  discriminate H. right; left; reflexivity.
Qed.

(** C8, amended. When doctorId, date or time is missing, handleSubmit
    creates no appointment and only sets the error message: the
    missing-required-fields message when fewer than two bookings are counted
    for today, the max-2-per-day message otherwise. *)
Theorem missing_fields_rejected env userData addDocRes queryOk st db :
  missing (BookAppointment.formData st) ->
  let r := BookAppointment.handleSubmit env userData addDocRes queryOk st db in
  r.2 = db
  /\ (BookAppointment.todayBookings st < 2 ->
      r.1 = BookAppointment.setError st BookAppointment.errRequired)
  /\ (2 <= BookAppointment.todayBookings st ->
      r.1 = BookAppointment.setError st BookAppointment.errMaxPerDay).
Proof.
  intros Hm r. subst r.
  destruct (Z.lt_ge_cases (BookAppointment.todayBookings st) 2) as [Hlt|Hge].
  - rewrite handleSubmit_required by assumption. simpl. split; [reflexivity|].
    split; [reflexivity|lia].
  - rewrite handleSubmit_cap by assumption. simpl. split; [reflexivity|].
    split; [lia|reflexivity].
Qed.

Lemma missing_fields_rejected_witness :
  let r := BookAppointment.handleSubmit nov1 (Some patient1) (Some "a9") true
             (filled "" 1) Firestore.empty in
  r.2 = Firestore.empty
  /\ (BookAppointment.todayBookings (filled "" 1) < 2 ->
      r.1 = BookAppointment.setError (filled "" 1) BookAppointment.errRequired)
  /\ (2 <= BookAppointment.todayBookings (filled "" 1) ->
      r.1 = BookAppointment.setError (filled "" 1) BookAppointment.errMaxPerDay).
Proof.
  apply (missing_fields_rejected nov1 (Some patient1) (Some "a9") true
           (filled "" 1) Firestore.empty).
  right; left; reflexivity.
Defined.

(** C4, as the specification states it, fails: with two bookings counted for
    today, a booking for yesterday is turned down with the cap message, which
    is not a validation error. *)
Lemma past_date_validation_counterexample :
  ~ (forall env userData addDocRes queryOk st db d,
       JS.dateDay (BookAppointment.date (BookAppointment.formData st)) = Some d ->
       d < JS.localDay env ->
       JS.tzOffset env < JS.msPerDay ->
       validationError
         (BookAppointment.error
            (BookAppointment.handleSubmit env userData addDocRes queryOk st db).1)).
Proof.
  intros H.
  specialize (H nov1 (Some patient1) (Some "a9") true (filled "2026-10-31" 2)
                Firestore.empty 20757 eq_refl eq_refl eq_refl).
  destruct H as [H|H]; discriminate H.
Qed.

(** C4, amended. A booking whose date is a day before the local day of the
    clock (local time being less than a day ahead of UTC, as in every time
    zone) is always turned down and creates no appointment.  When fewer than
    two bookings are counted for today the message is a validation error
    (the past-date message if the three required fields are filled in);
    otherwise it is the max-2-per-day message. *)
Theorem past_date_rejected env userData addDocRes queryOk st db d :
  JS.dateDay (BookAppointment.date (BookAppointment.formData st)) = Some d ->
  d < JS.localDay env ->
  JS.tzOffset env < JS.msPerDay ->
  let r := BookAppointment.handleSubmit env userData addDocRes queryOk st db in
  r.2 = db
  /\ BookAppointment.success r.1 = BookAppointment.success st
  /\ BookAppointment.error r.1 <> ""
  /\ (BookAppointment.todayBookings st < 2 -> validationError (BookAppointment.error r.1))
  /\ (BookAppointment.todayBookings st < 2 -> ~ missing (BookAppointment.formData st) ->
      r.1 = BookAppointment.setError st BookAppointment.errPastDate)
  /\ (2 <= BookAppointment.todayBookings st ->
      r.1 = BookAppointment.setError st BookAppointment.errMaxPerDay).
Proof.
  intros Hd Hlt Htz r. subst r.
  pose proof (past_date_lt env _ d Hd Hlt Htz) as Hpast.
  destruct (Z.lt_ge_cases (BookAppointment.todayBookings st) 2) as [Hc|Hc].
  - destruct (missing_spec (BookAppointment.formData st)) as [Hm1 Hm2].
    destruct (negb (JS.truthy (BookAppointment.doctorId (BookAppointment.formData st)))
              || negb (JS.truthy (BookAppointment.date (BookAppointment.formData st)))
              || negb (JS.truthy (BookAppointment.time (BookAppointment.formData st))))
      eqn:E.
    + rewrite handleSubmit_required by auto. simpl.
      repeat split; try discriminate; try lia.
      * intros _. left. reflexivity.
      * intros _ Hn. exfalso. auto.
    + assert (Hn : ~ missing (BookAppointment.formData st)).
      { intros Hm. apply Hm2 in Hm. discriminate Hm. }
      rewrite handleSubmit_past by auto. simpl.
      repeat split; try discriminate; try lia.
      intros _. right. reflexivity.
  - rewrite handleSubmit_cap by assumption. simpl.
    repeat split; try discriminate; try lia.
Qed.

Lemma past_date_rejected_witness :
  let r := BookAppointment.handleSubmit nov1 (Some patient1) (Some "a9") true
             (filled "2026-10-31" 0) Firestore.empty in
  r.2 = Firestore.empty
  /\ BookAppointment.error r.1 = BookAppointment.errPastDate.
Proof.
  destruct (past_date_rejected nov1 (Some patient1) (Some "a9") true
              (filled "2026-10-31" 0) Firestore.empty 20757 eq_refl eq_refl eq_refl)
    as (Hdb & _ & _ & _ & Hpast & _).
  split; [exact Hdb|].
  rewrite Hpast; [reflexivity|reflexivity|].
  intros [H|[H|H]]; discriminate H.
Defined.

(** ** BookAppointment: the daily cap *)

Lemma filter_snoc_length {A : Type} (f : A -> bool) (l : list A) (x : A) :
  (length (List.filter f (l ++ [x])) <= S (length (List.filter f l)))%nat.
Proof.
  rewrite List.filter_app, length_app. simpl. destruct (f x); simpl; lia.
Qed.

(** What the counter does enforce: when it is fresh (it equals the number of
    the patient's appointments dated today in the store) and there are at
    most two of them, a submission leaves at most two. *)
Lemma handleSubmit_today_cap env u addDocRes queryOk st db :
  BookAppointment.todayBookings st = Z.of_nat (length (BookAppointment.todayQuery env u db)) ->
  (length (BookAppointment.todayQuery env u db) <= 2)%nat ->
  (length (BookAppointment.todayQuery env u
     (BookAppointment.handleSubmit env (Some u) addDocRes queryOk st db).2) <= 2)%nat.
Proof.
  intros Hfresh Hle. unfold BookAppointment.handleSubmit.
  destruct (Z.leb_spec 2 (BookAppointment.todayBookings st)) as [|Hlt]; [assumption|].
  destruct (negb _ || _ || _); [assumption|].
  destruct (JS.Date_lt _ _); [assumption|].
  destruct addDocRes as [newId|]; [|assumption].
  simpl. unfold BookAppointment.todayQuery in *. simpl.
  etransitivity; [apply filter_snoc_length|]. lia.
Qed.

(** The appointments of the same date as the one requested play no part: a
    complete form for a date that is not past is accepted whenever fewer than
    two bookings are counted for today, whatever the store holds. *)
Lemma handleSubmit_same_day_unchecked env u newId queryOk st db :
  BookAppointment.todayBookings st < 2 ->
  ~ missing (BookAppointment.formData st) ->
  JS.Date_lt (JS.Date_parse (BookAppointment.date (BookAppointment.formData st)))
    (JS.localMidnight env) = false ->
  length (sameDay u (BookAppointment.date (BookAppointment.formData st))
            (BookAppointment.handleSubmit env (Some u) (Some newId) queryOk st db).2)
  = S (length (sameDay u (BookAppointment.date (BookAppointment.formData st)) db)).
Proof.
  intros Hc Hm Hd. rewrite handleSubmit_accepted by assumption.
  unfold sameDay. simpl. rewrite List.filter_app, length_app. simpl.
  unfold Firestore.eq_opt. rewrite !String.eqb_refl. simpl. lia.
Qed.

(** C2 on the code. On 2026-11-01 a patient without appointments books
    three appointments for 2026-11-02, one after the other, each write and
    each refresh of the counter completing before the next submission.  All
    three are accepted: the counter still reads 0, no error is shown, and the
    store holds three appointments of the patient with the same date. *)
Theorem three_bookings_same_day :
  let '(st, db) := threeBookings in
  List.map Appointment.id (sameDay patient1 "2026-11-02" db) = ["a1"; "a2"; "a3"]
  /\ List.map Appointment.date (Firestore.appointments db)
     = ["2026-11-02"; "2026-11-02"; "2026-11-02"]
  /\ BookAppointment.todayBookings st = 0
  /\ BookAppointment.error st = ""
  /\ BookAppointment.success st = true.
Proof. vm_compute. repeat split. Qed.

(** ** PatientFeedback *)

Section SortFacts.
Context {A : Type} (key : A -> Z).

Lemma In_insertSorted x y (l : list A) :
  In x (PatientFeedback.insertSorted key y l) <-> x = y \/ In x l.
Proof.
  induction l as [|z l IH]; simpl.
  - intuition auto.
  - destruct (PatientFeedback.compareFn key y z <=? 0); simpl; [intuition auto|].
    rewrite IH. intuition auto.
Qed.

Lemma In_sortDesc x (l : list A) :
  In x (PatientFeedback.sortDesc key l) <-> In x l.
Proof.
  induction l as [|y l IH]; simpl; [tauto|].
  rewrite In_insertSorted, IH. intuition auto.
Qed.
End SortFacts.

Lemma hasFeedback_false st appointmentId :
  PatientFeedback.hasFeedback st appointmentId = false <->
  forall fb, In fb (PatientFeedback.existingFeedback st) ->
             Feedback.appointmentId fb <> appointmentId.
Proof.
  unfold PatientFeedback.hasFeedback. split.
  - intros H fb Hin Heq.
    assert (Ht : List.existsb
              (fun feedback => String.eqb (Feedback.appointmentId feedback) appointmentId)
              (PatientFeedback.existingFeedback st) = true).
    { apply existsb_exists. exists fb. split; [assumption|]. apply String.eqb_eq, Heq. }
    congruence.
  - intros H. destruct (List.existsb _ _) eqn:E; [|reflexivity].
    apply existsb_exists in E as (fb & Hin & Heq). apply String.eqb_eq in Heq.
    exfalso. eapply H; eauto.
Qed.

Lemma inv_init : inv PatientFeedback.init.
Proof. split; [intros apt []|simpl; lia]. Qed.

Lemma inv_step st st' : inv st -> PatientFeedback.step st st' -> inv st'.
Proof.
  intros [Hc Hr] Hs. destruct Hs; try (split; simpl; [exact Hc|lia || exact Hr]).
  - (* fetchData *)
    unfold PatientFeedback.fetchData.
    destruct userData as [u|]; [|split; assumption].
    destruct apptOk; [|split; assumption].
    assert (Hq : forall apt,
               In apt (PatientFeedback.sortDesc (fun a => PatientFeedback.timeOf (Appointment.createdAt a))
                         (PatientFeedback.completedQuery u db)) ->
               Appointment.status apt = "completed").
    { intros apt Hin. apply In_sortDesc in Hin.
      unfold PatientFeedback.completedQuery in Hin. apply filter_In in Hin as [_ Hin].
      apply andb_true_iff in Hin as [_ Hin]. apply String.eqb_eq, Hin. }
    destruct fbOk; split; simpl; assumption.
  - (* handleSubmitFeedback *)
    unfold PatientFeedback.handleSubmitFeedback.
    destruct (PatientFeedback.selectedAppointment st); [|split; assumption].
    destruct (PatientFeedback.rating st =? 0); [split; assumption|].
    destruct addDocRes; split; simpl; try assumption; lia.
Qed.

Lemma reachable_inv st : PatientFeedback.reachable st -> inv st.
Proof.
  induction 1 as [|st st' _ IH Hs]; [apply inv_init|eapply inv_step; eauto].
Qed.

(** C6. In every state the feedback page can reach, the appointments it
    offers for feedback are exactly the fetched completed appointments for
    which the existing feedback list has no record with their id; each of
    them has status completed. *)
Theorem getAppointmentsWithoutFeedback_sound st :
  PatientFeedback.reachable st ->
  forall apt,
    (In apt (PatientFeedback.getAppointmentsWithoutFeedback st) <->
     In apt (PatientFeedback.completedAppointments st)
     /\ forall fb, In fb (PatientFeedback.existingFeedback st) ->
                   Feedback.appointmentId fb <> Appointment.id apt)
    /\ (In apt (PatientFeedback.getAppointmentsWithoutFeedback st) ->
        Appointment.status apt = "completed").
Proof.
  intros Hr apt. apply reachable_inv in Hr as [Hc _].
  unfold PatientFeedback.getAppointmentsWithoutFeedback.
  rewrite filter_In, negb_true_iff, hasFeedback_false.
  split; [reflexivity|]. intros [Hin _]. auto.
Qed.

Lemma fetched_reachable : PatientFeedback.reachable fetched.
Proof.
  eapply PatientFeedback.reachable_step; [apply PatientFeedback.reachable_init|].
  apply PatientFeedback.step_fetch.
Qed.

Lemma getAppointmentsWithoutFeedback_sound_witness :
  PatientFeedback.getAppointmentsWithoutFeedback fetched = [aptDone2]
  /\ Appointment.status aptDone2 = "completed".
Proof.
  split; [reflexivity|].
  apply (proj2 (getAppointmentsWithoutFeedback_sound fetched fetched_reachable aptDone2)).
  left. reflexivity.
Defined.

Lemma find_snoc_some {A : Type} (f : A -> bool) (l : list A) (x : A) :
  f x = true -> exists y, List.find f (l ++ [x]) = Some y /\ f y = true.
Proof.
  intros Hx. induction l as [|z l IH]; simpl.
  - rewrite Hx. eauto.
  - destruct (f z) eqn:Hz; eauto.
Qed.

Lemma find_snoc_first {A : Type} (f : A -> bool) (l : list A) (x : A) :
  List.existsb f l = false -> f x = true -> List.find f (l ++ [x]) = Some x.
Proof.
  intros Hl Hx. induction l as [|z l IH]; simpl in *.
  - rewrite Hx. reflexivity.
  - apply orb_false_elim in Hl as [Hz Hl]. rewrite Hz. auto.
Qed.

(** The states used below are ones the page reaches: the patient picks
    the offered appointment a5, clicks a star and types a comment. *)
Lemma selected_reachable : PatientFeedback.reachable (rated 0 "").
Proof.
  assert (E : rated 0 "" = PatientFeedback.setSelectedAppointment fetched (Some aptDone2))
    by reflexivity.
  rewrite E. eapply PatientFeedback.reachable_step; [apply fetched_reachable|].
  apply PatientFeedback.step_select.
  change (In aptDone2 [aptDone2]). left. reflexivity.
Qed.

Lemma rated_stars_reachable i comment :
  0 <= i < 5 -> PatientFeedback.reachable (rated (i + 1) comment).
Proof.
  intros Hi. unfold rated.
  eapply PatientFeedback.reachable_step; [|apply PatientFeedback.step_comment].
  eapply PatientFeedback.reachable_step; [|apply PatientFeedback.step_star; exact Hi].
  eapply PatientFeedback.reachable_step; [apply fetched_reachable|].
  apply PatientFeedback.step_select.
  change (In aptDone2 [aptDone2]). left. reflexivity.
Qed.

(** handleSubmitFeedback itself only compares the rating with 0: the range
    of the rating is kept by the star control, which sets 1 to 5.  In a state
    with rating 6, which the page never reaches, the handler would write the
    record. *)
Lemma handleSubmitFeedback_rating_unchecked :
  ~ PatientFeedback.reachable (rated 6 "")
  /\ length (Firestore.feedback
               (PatientFeedback.store
                  (PatientFeedback.handleSubmitFeedback nov1 (Some patient1) (Some "f9")
                     (rated 6 "") clinicDb))) = 2%nat.
Proof.
  split; [|reflexivity].
  intros Hr. apply reachable_inv in Hr as [_ Hr]. simpl in Hr. lia.
Qed.

(** C5. In every state the feedback page can reach, the rating is 0 or a
    number of stars from 1 to 5, and handleSubmitFeedback stops with the
    alert, writes nothing and keeps the state whenever the rating is 0 or
    outside 1 to 5, or no appointment is selected.  With an appointment
    selected and a rating from 1 to 5, when the store takes the write, the
    record is added to the feedback collection, its local copy is in the
    existing feedback list, getFeedbackForAppointment finds a record for the
    appointment (the new one when there was none before), and a later
    fetchData of the same patient reads the stored record back. *)
Theorem submitFeedback_rating env userData addDocRes st db :
  PatientFeedback.reachable st ->
  let res := PatientFeedback.handleSubmitFeedback env userData addDocRes st db in
  (PatientFeedback.rating st = 0
   \/ PatientFeedback.rating st < 1 \/ 5 < PatientFeedback.rating st
   \/ PatientFeedback.selectedAppointment st = None ->
     PatientFeedback.alert res = Some PatientFeedback.msgSelectRating
     /\ PatientFeedback.store res = db
     /\ PatientFeedback.state res = st)
  /\ 0 <= PatientFeedback.rating st <= 5
  /\ (forall apt newId,
        PatientFeedback.selectedAppointment st = Some apt ->
        1 <= PatientFeedback.rating st <= 5 ->
        addDocRes = Some newId ->
        let fb := PatientFeedback.newFeedback env st apt in
        let doc := PatientFeedback.feedbackDoc env userData st apt newId in
        PatientFeedback.alert res = None
        /\ PatientFeedback.store res = PatientFeedback.addFeedback db doc
        /\ Feedback.rating doc = PatientFeedback.rating st
        /\ Feedback.comment doc = JS.trim (PatientFeedback.comment st)
        /\ In fb (PatientFeedback.existingFeedback (PatientFeedback.state res))
        /\ (exists fb',
              PatientFeedback.getFeedbackForAppointment (PatientFeedback.state res)
                (Appointment.id apt) = Some fb'
              /\ Feedback.appointmentId fb' = Appointment.id apt)
        /\ (PatientFeedback.hasFeedback st (Appointment.id apt) = false ->
            PatientFeedback.getFeedbackForAppointment (PatientFeedback.state res)
              (Appointment.id apt) = Some fb)
        /\ (userData <> None ->
            In doc (PatientFeedback.existingFeedback
                      (PatientFeedback.fetchData userData (PatientFeedback.store res)
                         true true (PatientFeedback.state res))))).
Proof.
  intros Hreach res. subst res.
  apply reachable_inv in Hreach as [_ Hrange]. split; [|split].
  - unfold PatientFeedback.handleSubmitFeedback.
    intros H.
    assert (Hz : PatientFeedback.rating st = 0
                 \/ PatientFeedback.selectedAppointment st = None)
      by (destruct H as [H|[H|[H|H]]]; [left; exact H|left; lia|lia|right; exact H]).
    destruct Hz as [Hr|Hs].
    + rewrite Hr. destruct (PatientFeedback.selectedAppointment st); simpl; auto.
    + rewrite Hs. simpl. auto.
  - exact Hrange.
  - intros apt newId Hs Hr -> fb doc.
    unfold PatientFeedback.handleSubmitFeedback. rewrite Hs.
    destruct (Z.eqb_spec (PatientFeedback.rating st) 0) as [H0|_]; [lia|]. simpl.
    split; [reflexivity|]. split; [reflexivity|]. split; [reflexivity|].
    split; [reflexivity|].
    split; [apply in_or_app; right; left; reflexivity|].
    split; [|split].
    + unfold PatientFeedback.getFeedbackForAppointment. simpl.
      destruct (find_snoc_some
                  (fun feedback => String.eqb (Feedback.appointmentId feedback) (Appointment.id apt))
                  (PatientFeedback.existingFeedback st) fb) as (y & Hy & Hf).
      { simpl. apply String.eqb_refl. }
      exists y. split; [exact Hy|]. apply String.eqb_eq, Hf.
    + intros Hno. unfold PatientFeedback.getFeedbackForAppointment. simpl.
      apply find_snoc_first; [exact Hno|]. simpl. apply String.eqb_refl.
    + intros Hu. destruct userData as [u|]; [|congruence]. simpl.
      unfold PatientFeedback.feedbackQuery. apply filter_In. simpl. split.
      * apply in_or_app; right; left; reflexivity.
      * apply String.eqb_refl.
Qed.

Lemma submitFeedback_rating_witness :
  let res := PatientFeedback.handleSubmitFeedback nov1 (Some patient1) (Some "f2")
               (rated 4 " kind and clear ") clinicDb in
  PatientFeedback.store
    (PatientFeedback.handleSubmitFeedback nov1 (Some patient1) (Some "f2")
       (rated 0 "") clinicDb) = clinicDb
  /\ 0 <= PatientFeedback.rating fetched <= 5
  /\ PatientFeedback.alert res = None
  /\ PatientFeedback.getFeedbackForAppointment (PatientFeedback.state res) "a5"
     = Some (PatientFeedback.newFeedback nov1 (rated 4 " kind and clear ") aptDone2).
Proof.
  intros res. split; [|split].
  - apply (proj1 (submitFeedback_rating nov1 (Some patient1) (Some "f2")
                    (rated 0 "") clinicDb selected_reachable)).
    left. reflexivity.
  - apply (proj1 (proj2 (submitFeedback_rating nov1 (Some patient1) (Some "f2")
                           fetched clinicDb fetched_reachable))).
  - destruct (proj2 (proj2 (submitFeedback_rating nov1 (Some patient1) (Some "f2")
                              (rated 4 " kind and clear ") clinicDb
                              (rated_stars_reachable 3 " kind and clear "
                                 ltac:(lia))))
                aptDone2 "f2" eq_refl ltac:(simpl; lia) eq_refl)
      as (Ha & _ & _ & _ & _ & _ & Hget & _).
    split; [exact Ha|]. apply Hget. reflexivity.
Defined.

(** * Further properties *)

(** ** PrescriptionForm: the rows of the form *)

Lemma filterIndex_length_ge {A : Type} (index k : nat) (l : list A) :
  (length l <= S (length (PrescriptionForm.filterIndex (fun i => negb (i =? index)%nat) k l)))%nat.
Proof.
  revert k. induction l as [|x l IH]; intros k; simpl; [lia|].
  destruct (Nat.eqb_spec k index) as [->|Hne]; simpl.
  - clear IH. assert (H : forall k, (index < k)%nat ->
      PrescriptionForm.filterIndex (fun i => negb (i =? index)%nat) k l = l).
    { induction l as [|y l IHl]; intros k Hk; simpl; [reflexivity|].
      destruct (Nat.eqb_spec k index); [lia|]. simpl. rewrite IHl by lia. reflexivity. }
    rewrite H by lia. lia.
  - specialize (IH (S k)). lia.
Qed.

Lemma filterIndex_above {A : Type} (index k : nat) (l : list A) :
  (index < k)%nat ->
  PrescriptionForm.filterIndex (fun i => negb (i =? index)%nat) k l = l.
Proof.
  revert k. induction l as [|y l IH]; intros k Hk; simpl; [reflexivity|].
  destruct (Nat.eqb_spec k index); [lia|]. simpl. rewrite IH by lia. reflexivity.
Qed.

Lemma filterIndex_remove {A : Type} (index k : nat) (l : list A) :
  (k <= index)%nat ->
  PrescriptionForm.filterIndex (fun i => negb (i =? index)%nat) k l =
  (firstn (index - k) l ++ skipn (S (index - k)) l)%list.
Proof.
  revert k. induction l as [|x l IH]; intros k Hk; simpl.
  - rewrite firstn_nil. reflexivity.
  - destruct (Nat.eqb_spec k index) as [->|Hne]; simpl.
    + rewrite Nat.sub_diag. simpl. apply filterIndex_above. lia.
    + rewrite IH by lia. replace (index - k)%nat with (S (index - S k)) by lia.
      reflexivity.
Qed.

Lemma mapIndex_length {A B : Type} (f : A -> nat -> B) (k : nat) (l : list A) :
  length (PrescriptionForm.mapIndex f k l) = length l.
Proof.
  revert k. induction l as [|x l IH]; intros k; simpl; [reflexivity|].
  rewrite IH. reflexivity.
Qed.

Lemma mapIndex_nth {A B : Type} (f : A -> nat -> B) (k j : nat) (l : list A) :
  nth_error (PrescriptionForm.mapIndex f k l) j =
  option_map (fun x => f x (k + j)%nat) (nth_error l j).
Proof.
  revert k j. induction l as [|x l IH]; intros k j; simpl.
  - destruct j; reflexivity.
  - destruct j as [|j]; simpl.
    + rewrite Nat.add_0_r. reflexivity.
    + rewrite IH. replace (S k + j)%nat with (k + S j)%nat by lia. reflexivity.
Qed.

(** X1. Whatever rows are added, removed or edited after the form opens,
    the form always has at least one medication row. *)
Theorem medications_never_empty st :
  PrescriptionForm.edited st -> (1 <= length (PrescriptionForm.medications st))%nat.
Proof.
  induction 1 as [|st st' _ IH He]; [simpl; lia|].
  destruct He; simpl; try assumption.
  - rewrite length_app. simpl. lia.
  - unfold PrescriptionForm.removeMedication.
    destruct (Nat.ltb_spec 1 (length (PrescriptionForm.medications st))); [|assumption].
    simpl. pose proof (filterIndex_length_ge index 0 (PrescriptionForm.medications st)). lia.
  - rewrite mapIndex_length. assumption.
Qed.

Lemma medications_never_empty_witness :
  (1 <= length (PrescriptionForm.medications
                  (PrescriptionForm.removeMedication 0
                     (PrescriptionForm.removeMedication 0 PrescriptionForm.init))))%nat.
Proof.
  apply medications_never_empty.
  eapply PrescriptionForm.edited_step; [|apply PrescriptionForm.edit_remove].
  eapply PrescriptionForm.edited_step; [|apply PrescriptionForm.edit_remove].
  apply PrescriptionForm.edited_init.
Defined.

(** X2. removeMedication does nothing when the form has a single row (or
    none); with more rows it takes out exactly the row at the index, keeping
    the others in order, and an index past the end leaves the rows as they
    are.  Diagnosis and notes are never touched. *)
Theorem removeMedication_spec index st :
  let meds := PrescriptionForm.medications st in
  let st' := PrescriptionForm.removeMedication index st in
  ((length meds <= 1)%nat -> st' = st)
  /\ ((1 < length meds)%nat -> (index < length meds)%nat ->
      PrescriptionForm.medications st' = (firstn index meds ++ skipn (S index) meds)%list
      /\ S (length (PrescriptionForm.medications st')) = length meds)
  /\ ((length meds <= index)%nat -> PrescriptionForm.medications st' = meds)
  /\ PrescriptionForm.diagnosis st' = PrescriptionForm.diagnosis st
  /\ PrescriptionForm.notes st' = PrescriptionForm.notes st.
Proof.
  intros meds st'. subst meds st'. unfold PrescriptionForm.removeMedication.
  destruct (Nat.ltb_spec 1 (length (PrescriptionForm.medications st))) as [Hlt|Hle]; simpl.
  - rewrite filterIndex_remove by lia. rewrite Nat.sub_0_r.
    split; [lia|]. split; [|split; [|auto]].
    + intros _ Hi. split; [reflexivity|].
      rewrite length_app, length_firstn, length_skipn. lia.
    + intros Hge. rewrite firstn_all2 by assumption.
      rewrite skipn_all2 by lia. apply app_nil_r.
  - split; [reflexivity|]. split; [lia|]. auto.
Qed.

Lemma removeMedication_spec_witness :
  PrescriptionForm.medications (PrescriptionForm.removeMedication 1 threeRows)
  = [med "Amoxicillin"; med "Ibuprofen"]
  /\ PrescriptionForm.removeMedication 0 PrescriptionForm.init = PrescriptionForm.init.
Proof.
  split.
  - apply (proj1 (proj2 (removeMedication_spec 1 threeRows))); simpl; lia.
  - apply (proj1 (removeMedication_spec 0 PrescriptionForm.init)). simpl. lia.
Defined.

(** X3. Removing the row that addMedication has just appended gives the
    form back, provided it had a row before. *)
Theorem addMedication_removeMedication st :
  PrescriptionForm.medications st <> [] ->
  PrescriptionForm.removeMedication (length (PrescriptionForm.medications st))
    (PrescriptionForm.addMedication st) = st.
Proof.
  intros Hne. unfold PrescriptionForm.removeMedication, PrescriptionForm.addMedication.
  destruct st as [meds d n l]. cbn [PrescriptionForm.medications PrescriptionForm.setMedications
    PrescriptionForm.diagnosis PrescriptionForm.notes PrescriptionForm.loading] in *.
  assert (Hlen : (1 <= length meds)%nat) by (destruct meds; [congruence|simpl; lia]).
  rewrite length_app. cbn [length].
  replace (1 <? length meds + 1)%nat with true by (symmetry; apply Nat.ltb_lt; lia).
  unfold PrescriptionForm.setMedications. cbn [PrescriptionForm.medications
    PrescriptionForm.diagnosis PrescriptionForm.notes PrescriptionForm.loading].
  rewrite (filterIndex_remove (length meds) 0) by lia.
  rewrite Nat.sub_0_r, firstn_app, skipn_app.
  rewrite firstn_all2 by lia. rewrite skipn_all2 by lia.
  replace (length meds - length meds)%nat with 0%nat by lia.
  replace (S (length meds) - length meds)%nat with 1%nat by lia.
  simpl. rewrite !app_nil_r. reflexivity.
Qed.

Lemma addMedication_removeMedication_witness :
  PrescriptionForm.removeMedication 3 (PrescriptionForm.addMedication threeRows) = threeRows.
Proof.
  apply (addMedication_removeMedication threeRows). discriminate.
Defined.

Lemma setField_same_but field med value :
  same_but_field field (PrescriptionForm.setField med field value) med
  /\ getField (PrescriptionForm.setField med field value) field = value.
Proof.
  unfold same_but_field. destruct field; simpl; repeat split; congruence.
Qed.

(** X4. updateMedication keeps the number and the order of the rows; the
    row at the index gets the value in the named field and keeps its other
    fields; every other row is unchanged, and so are all rows when the index
    is past the end. *)
Theorem updateMedication_frame index field value st :
  let st' := PrescriptionForm.updateMedication index field value st in
  length (PrescriptionForm.medications st') = length (PrescriptionForm.medications st)
  /\ (forall (j : nat) med0,
        nth_error (PrescriptionForm.medications st) j = Some med0 ->
        exists med',
          nth_error (PrescriptionForm.medications st') j = Some med'
          /\ (j <> index -> med' = med0)
          /\ (j = index -> getField med' field = value /\ same_but_field field med' med0))
  /\ ((length (PrescriptionForm.medications st) <= index)%nat ->
      PrescriptionForm.medications st' = PrescriptionForm.medications st).
Proof.
  intros st'. subst st'. unfold PrescriptionForm.updateMedication. simpl.
  split; [apply mapIndex_length|]. split.
  - intros j med0 Hj. rewrite mapIndex_nth, Hj. simpl.
    destruct (Nat.eqb_spec j index) as [->|Hne].
    + eexists. split; [reflexivity|]. split; [congruence|]. intros _.
      destruct (setField_same_but field med0 value). auto.
    + exists med0. split; [reflexivity|]. split; [reflexivity|]. congruence.
  - intros Hge. apply nth_error_ext. intros j. rewrite mapIndex_nth. simpl.
    destruct (nth_error (PrescriptionForm.medications st) j) as [m|] eqn:Hj;
      [|reflexivity].
    simpl. destruct (Nat.eqb_spec j index) as [->|_]; [|reflexivity].
    assert (index < length (PrescriptionForm.medications st))%nat
      by (apply nth_error_Some; congruence).
    lia.
Qed.

Lemma updateMedication_frame_witness :
  exists med',
    nth_error (PrescriptionForm.medications
                 (PrescriptionForm.updateMedication 1 PrescriptionForm.name "Zinc" threeRows)) 1
    = Some med'
    /\ (1%nat <> 1%nat -> med' = med "")
    /\ (1%nat = 1%nat ->
        getField med' PrescriptionForm.name = "Zinc"
        /\ same_but_field PrescriptionForm.name med' (med "")).
Proof.
  apply (proj1 (proj2 (updateMedication_frame 1 PrescriptionForm.name "Zinc" threeRows))
           1%nat (med "")).
  reflexivity.
Defined.

(** ** PrescriptionForm: the write *)

(** X5. handleSubmit does not look for an earlier prescription: a form that
    passes the two checks adds one more prescription for the appointment to
    those the store already holds for it, keeps all stored prescriptions in
    place and leaves the appointments and the feedback alone. *)
Theorem createPrescription_unchecked env p newId st db :
  let res := PrescriptionForm.handleSubmit env p (Some newId) st db in
  accepted res ->
  length (prescriptionsFor (PrescriptionForm.appointmentId p) (PrescriptionForm.store res))
  = S (length (prescriptionsFor (PrescriptionForm.appointmentId p) db))
  /\ firstn (length (Firestore.prescriptions db))
       (Firestore.prescriptions (PrescriptionForm.store res)) = Firestore.prescriptions db
  /\ Firestore.appointments (PrescriptionForm.store res) = Firestore.appointments db
  /\ Firestore.feedback (PrescriptionForm.store res) = Firestore.feedback db.
Proof.
  intros res [Hd Hm]. subst res. revert Hd Hm.
  unfold PrescriptionForm.handleSubmit, prescriptionsFor.
  destruct (JS.truthy (JS.trim (PrescriptionForm.diagnosis st))); simpl; [|congruence].
  destruct (length (PrescriptionForm.validMedications st) =? 0)%nat; simpl; [congruence|].
  intros _ _. rewrite List.filter_app, length_app. simpl.
  rewrite String.eqb_refl. simpl.
  rewrite firstn_app, Nat.sub_diag, firstn_all. simpl. rewrite app_nil_r.
  repeat split. lia.
Qed.

Lemma createPrescription_unchecked_witness :
  length (prescriptionsFor "a1"
            (PrescriptionForm.store
               (PrescriptionForm.handleSubmit nov1 rxProps (Some "rx1") threeRows rxDb)))
  = 2%nat.
Proof.
  apply (createPrescription_unchecked nov1 rxProps "rx1" threeRows rxDb).
  split; discriminate.
Defined.

(** X6. When the store turns the write down, handleSubmit shows the failure
    alert, writes nothing, does not close the form, and keeps everything
    that was typed, so that the submission can be repeated. *)
Theorem createPrescription_store_failure env p st db :
  let res := PrescriptionForm.handleSubmit env p None st db in
  accepted res ->
  PrescriptionForm.alert res = Some PrescriptionForm.msgFailed
  /\ PrescriptionForm.store res = db
  /\ PrescriptionForm.closed res = false
  /\ PrescriptionForm.medications (PrescriptionForm.state res) = PrescriptionForm.medications st
  /\ PrescriptionForm.diagnosis (PrescriptionForm.state res) = PrescriptionForm.diagnosis st
  /\ PrescriptionForm.notes (PrescriptionForm.state res) = PrescriptionForm.notes st
  /\ PrescriptionForm.loading (PrescriptionForm.state res) = false
  /\ accepted (PrescriptionForm.handleSubmit env p None (PrescriptionForm.state res) db).
Proof.
  intros res [Hd Hm]. subst res. revert Hd Hm.
  unfold PrescriptionForm.handleSubmit, accepted.
  unfold PrescriptionForm.validMedications.
  destruct (JS.truthy (JS.trim (PrescriptionForm.diagnosis st))) eqn:Ed; simpl; [|congruence].
  destruct (length _ =? 0)%nat eqn:Em; simpl; [congruence|].
  intros _ _. rewrite Ed. simpl. rewrite Em. simpl.
  repeat split; discriminate.
Qed.

Lemma createPrescription_store_failure_witness :
  PrescriptionForm.alert (PrescriptionForm.handleSubmit nov1 rxProps None threeRows rxDb)
  = Some PrescriptionForm.msgFailed.
Proof.
  apply (createPrescription_store_failure nov1 rxProps threeRows rxDb).
  split; discriminate.
Defined.

(** ** The ordered queries *)

Section OrderByFacts.
Context {A : Type} (createdAt : A -> option Z) (docId : A -> string).

Lemma In_insertDoc x y (l : list A) :
  In x (Firestore.insertDoc createdAt docId y l) <-> x = y \/ In x l.
Proof.
  induction l as [|z l IH]; simpl.
  - intuition auto.
  - destruct (Firestore.before createdAt docId y z); simpl; [intuition auto|].
    rewrite IH. intuition auto.
Qed.

Lemma In_orderBy x (l : list A) :
  In x (Firestore.orderByCreatedAtDesc createdAt docId l) <->
  In x l /\ createdAt x <> None.
Proof.
  unfold Firestore.orderByCreatedAtDesc.
  induction l as [|y l IH]; simpl; [tauto|].
  unfold Firestore.hasCreatedAt at 1.
  destruct (createdAt y) eqn:Ey; simpl.
  - rewrite In_insertDoc, IH. split.
    + intros [->|[H1 H2]]; [split; [auto|congruence]|auto].
    + intros [[<-|H1] H2]; auto.
  - rewrite IH. split.
    + intros [H1 H2]. auto.
    + intros [[<-|H1] H2]; [congruence|auto].
Qed.

Lemma orderBy_length (l : list A) :
  length (Firestore.orderByCreatedAtDesc createdAt docId l)
  = length (List.filter (Firestore.hasCreatedAt createdAt) l).
Proof.
  unfold Firestore.orderByCreatedAtDesc.
  induction (List.filter (Firestore.hasCreatedAt createdAt) l) as [|y l' IH]; simpl;
    [reflexivity|].
  rewrite <- IH. clear IH.
  induction (fold_right (Firestore.insertDoc createdAt docId) [] l') as [|z s IHs]; simpl;
    [reflexivity|].
  destruct (Firestore.before createdAt docId y z); simpl; [reflexivity|].
  rewrite IHs. reflexivity.
Qed.

Lemma before_false x y :
  Firestore.before createdAt docId x y = false ->
  PatientFeedback.timeOf (createdAt x) <= PatientFeedback.timeOf (createdAt y).
Proof.
  unfold Firestore.before.
  destruct (createdAt x), (createdAt y); simpl; try discriminate.
  intros H. apply orb_false_elim in H as [H _]. apply Z.ltb_ge in H. exact H.
Qed.

Lemma before_true x y :
  createdAt x <> None -> createdAt y <> None ->
  Firestore.before createdAt docId x y = true ->
  PatientFeedback.timeOf (createdAt y) <= PatientFeedback.timeOf (createdAt x).
Proof.
  unfold Firestore.before.
  destruct (createdAt x), (createdAt y); simpl; try congruence.
  intros _ _ H. apply orb_true_iff in H as [H|H].
  - apply Z.ltb_lt in H. lia.
  - apply andb_true_iff in H as [H _]. apply Z.eqb_eq in H. lia.
Qed.

Lemma insertDoc_latestFirst x (l : list A) :
  createdAt x <> None ->
  (forall y, In y l -> createdAt y <> None) ->
  latestFirst createdAt l ->
  latestFirst createdAt (Firestore.insertDoc createdAt docId x l).
Proof.
  unfold latestFirst. intros Hx Hl Hs.
  induction Hs as [|y l Hs IH Hy]; simpl.
  - constructor; constructor.
  - destruct (Firestore.before createdAt docId x y) eqn:E.
    + pose proof (before_true x y Hx (Hl y (or_introl eq_refl)) E) as Hxy.
      constructor; [constructor; assumption|].
      constructor; [assumption|].
      rewrite List.Forall_forall in Hy |- *. intros z Hz. specialize (Hy z Hz). lia.
    + apply before_false in E. constructor.
      * apply IH. intros z Hz. apply Hl. right. exact Hz.
      * rewrite List.Forall_forall in Hy |- *. intros z Hz.
        apply In_insertDoc in Hz as [->|Hz]; [exact E|auto].
Qed.

Lemma orderBy_latestFirst (l : list A) :
  latestFirst createdAt (Firestore.orderByCreatedAtDesc createdAt docId l).
Proof.
  unfold Firestore.orderByCreatedAtDesc.
  assert (Hall : forall y, In y (List.filter (Firestore.hasCreatedAt createdAt) l) ->
                           createdAt y <> None).
  { intros y Hy. apply filter_In in Hy as [_ Hy]. unfold Firestore.hasCreatedAt in Hy.
    destruct (createdAt y); [discriminate|discriminate]. }
  induction (List.filter (Firestore.hasCreatedAt createdAt) l) as [|y l' IH]; simpl.
  - constructor.
  - apply insertDoc_latestFirst.
    + apply Hall. left. reflexivity.
    + intros z Hz.
      assert (Hin : forall z l0, In z (fold_right (Firestore.insertDoc createdAt docId) [] l0)
                                 -> In z l0).
      { intros z0 l0. induction l0 as [|w l0 IHl]; simpl; [tauto|].
        rewrite In_insertDoc. intuition auto. }
      apply Hall. right. apply Hin, Hz.
    + apply IH. intros z Hz. apply Hall. right. exact Hz.
Qed.

(** A change of the documents that keeps instants and ids commutes with
    the ordered query. *)
Lemma orderBy_map (f : A -> A) (l : list A) :
  (forall a, createdAt (f a) = createdAt a) ->
  (forall a, docId (f a) = docId a) ->
  Firestore.orderByCreatedAtDesc createdAt docId (List.map f l)
  = List.map f (Firestore.orderByCreatedAtDesc createdAt docId l).
Proof.
  intros Hc Hi. unfold Firestore.orderByCreatedAtDesc.
  assert (Hh : forall a, Firestore.hasCreatedAt createdAt (f a)
                         = Firestore.hasCreatedAt createdAt a)
    by (intros a; unfold Firestore.hasCreatedAt; rewrite Hc; reflexivity).
  induction l as [|x l IH]; simpl; [reflexivity|].
  rewrite Hh. destruct (Firestore.hasCreatedAt createdAt x); simpl; [|exact IH].
  rewrite IH. clear IH.
  induction (fold_right (Firestore.insertDoc createdAt docId) []
               (List.filter (Firestore.hasCreatedAt createdAt) l)) as [|y s IHs];
    simpl; [reflexivity|].
  replace (Firestore.before createdAt docId (f x) (f y))
    with (Firestore.before createdAt docId x y)
    by (unfold Firestore.before; rewrite !Hc, !Hi; reflexivity).
  destruct (Firestore.before createdAt docId x y); simpl; [reflexivity|].
  rewrite IHs. reflexivity.
Qed.
End OrderByFacts.

(** ** ManageAppointments: reading the appointments *)

Lemma doctorQuery_In u db a :
  In a (ManageAppointments.doctorQuery u db) <->
  In a (Firestore.appointments db)
  /\ Appointment.doctorId a = UserData.uid u
  /\ Appointment.createdAt a <> None.
Proof.
  unfold ManageAppointments.doctorQuery. rewrite In_orderBy, filter_In, String.eqb_eq. tauto.
Qed.

(** X7. A fetchAppointments that succeeds lists exactly the appointments of
    the store that name the doctor and carry a creation instant, the latest
    first; one that fails, or that runs without a signed-in user, leaves the
    list as it was. *)
Theorem fetchAppointments_spec userData db queryOk st :
  let st' := ManageAppointments.fetchAppointments userData db queryOk st in
  (forall u, userData = Some u -> queryOk = true ->
     (forall a, In a (ManageAppointments.appointments st') <->
                In a (Firestore.appointments db)
                /\ Appointment.doctorId a = UserData.uid u
                /\ Appointment.createdAt a <> None)
     /\ latestFirst Appointment.createdAt (ManageAppointments.appointments st')
     /\ ManageAppointments.loading st' = false)
  /\ (userData = None -> st' = st)
  /\ (queryOk = false ->
      ManageAppointments.appointments st' = ManageAppointments.appointments st).
Proof.
  intros st'. subst st'. unfold ManageAppointments.fetchAppointments. split; [|split].
  - intros u -> ->. simpl. split; [apply doctorQuery_In|].
    split; [apply orderBy_latestFirst|reflexivity].
  - intros ->. reflexivity.
  - intros ->. destruct userData; reflexivity.
Qed.

Lemma fetchAppointments_spec_witness :
  ManageAppointments.appointments ward = [apt2; apt1]
  /\ latestFirst Appointment.createdAt (ManageAppointments.appointments ward).
Proof.
  split; [reflexivity|].
  apply (proj1 (fetchAppointments_spec (Some doctor1) wardDb true ManageAppointments.init)
           doctor1 eq_refl eq_refl).
Defined.

Lemma patchStatus_filter_doctor u appointmentId newStatus l :
  List.filter (fun a => String.eqb (Appointment.doctorId a) (UserData.uid u))
    (ManageAppointments.patchStatus appointmentId newStatus l)
  = ManageAppointments.patchStatus appointmentId newStatus
      (List.filter (fun a => String.eqb (Appointment.doctorId a) (UserData.uid u)) l).
Proof.
  unfold ManageAppointments.patchStatus.
  induction l as [|a l IH]; simpl; [reflexivity|].
  replace (Appointment.doctorId
             (if String.eqb (Appointment.id a) appointmentId
              then Appointment.with_status a newStatus else a))
    with (Appointment.doctorId a) by (destruct (String.eqb _ _); reflexivity).
  destruct (String.eqb (Appointment.doctorId a) (UserData.uid u)); simpl; rewrite IH;
    reflexivity.
Qed.

(** X8. The local patch of updateAppointmentStatus is what a new
    fetchAppointments would read: if the list showed the doctor's
    appointments of the store before a successful update, it shows those of
    the updated store after it. *)
Theorem updateAppointmentStatus_in_sync u appointmentId newStatus st db :
  ManageAppointments.appointments st = ManageAppointments.doctorQuery u db ->
  let r := ManageAppointments.updateAppointmentStatus appointmentId newStatus true st db in
  ManageAppointments.appointments r.1 = ManageAppointments.doctorQuery u r.2.
Proof.
  intros Hsync r. subst r. simpl. rewrite Hsync.
  unfold ManageAppointments.doctorQuery, ManageAppointments.updateDoc. simpl.
  rewrite patchStatus_filter_doctor.
  unfold ManageAppointments.patchStatus at 2.
  rewrite orderBy_map; [reflexivity| |]; intros a; destruct (String.eqb _ _); reflexivity.
Qed.

Lemma updateAppointmentStatus_in_sync_witness :
  let r := ManageAppointments.updateAppointmentStatus "a1" "confirmed" true ward wardDb in
  ManageAppointments.appointments r.1 = ManageAppointments.doctorQuery doctor1 r.2.
Proof.
  apply (updateAppointmentStatus_in_sync doctor1 "a1" "confirmed" ward wardDb).
  reflexivity.
Defined.

(** ** ManageAppointments: composing updates *)

Lemma with_status_twice a s s' :
  Appointment.with_status (Appointment.with_status a s') s = Appointment.with_status a s.
Proof. reflexivity. Qed.

(** X9. Status updates compose as writes to a keyed store: a second update
    of the same appointment overrides the first, updates of different
    appointments commute, and an update for an id that no appointment of the
    list has changes nothing. *)
Theorem patchStatus_compose (l : list Appointment.t) :
  (forall appointmentId s s',
     ManageAppointments.patchStatus appointmentId s
       (ManageAppointments.patchStatus appointmentId s' l)
     = ManageAppointments.patchStatus appointmentId s l)
  /\ (forall id1 id2 s1 s2, id1 <> id2 ->
        ManageAppointments.patchStatus id1 s1 (ManageAppointments.patchStatus id2 s2 l)
        = ManageAppointments.patchStatus id2 s2 (ManageAppointments.patchStatus id1 s1 l))
  /\ (forall appointmentId s,
        (forall a, In a l -> Appointment.id a <> appointmentId) ->
        ManageAppointments.patchStatus appointmentId s l = l).
Proof.
  unfold ManageAppointments.patchStatus. split; [|split].
  - intros appointmentId s s'. rewrite List.map_map. apply List.map_ext. intros a.
    destruct (String.eqb (Appointment.id a) appointmentId) eqn:E; simpl; rewrite E;
      reflexivity.
  - intros id1 id2 s1 s2 Hne. rewrite !List.map_map. apply List.map_ext. intros a.
    destruct (String.eqb (Appointment.id a) id1) eqn:E1,
             (String.eqb (Appointment.id a) id2) eqn:E2; simpl; rewrite ?E1, ?E2;
      try reflexivity.
    apply String.eqb_eq in E1, E2. congruence.
  - intros appointmentId s Hno. rewrite <- (List.map_id l) at 2.
    apply List.map_ext_in. intros a Ha.
    destruct (String.eqb_spec (Appointment.id a) appointmentId) as [E|_]; [|reflexivity].
    exfalso. exact (Hno a Ha E).
Qed.

Lemma patchStatus_compose_witness :
  ManageAppointments.patchStatus "a1" "confirmed"
    (ManageAppointments.patchStatus "a2" "in_progress" [apt1; apt2])
  = ManageAppointments.patchStatus "a2" "in_progress"
      (ManageAppointments.patchStatus "a1" "confirmed" [apt1; apt2])
  /\ ManageAppointments.patchStatus "a9" "cancelled" [apt1; apt2] = [apt1; apt2].
Proof.
  destruct (patchStatus_compose [apt1; apt2]) as (_ & Hcomm & Hmiss).
  split.
  - apply Hcomm. discriminate.
  - apply Hmiss. intros a [<-|[<-|[]]]; discriminate.
Defined.





(** ** ManageAppointments: the filter and the prescription form *)

Lemma status_partition (l : list Appointment.t) :
  (forall apt, In apt l -> knownStatus (Appointment.status apt)) ->
  (length (List.filter (fun apt => String.eqb (Appointment.status apt) "pending") l)
   + length (List.filter (fun apt => String.eqb (Appointment.status apt) "confirmed") l)
   + length (List.filter (fun apt => String.eqb (Appointment.status apt) "in_progress") l)
   + length (List.filter (fun apt => String.eqb (Appointment.status apt) "completed") l)
   + length (List.filter (fun apt => String.eqb (Appointment.status apt) "cancelled") l)
   = length l)%nat.
Proof.
  induction l as [|a l IH]; intros Hk; [reflexivity|].
  specialize (IH (fun apt H => Hk apt (or_intror H))).
  destruct (Hk a (or_introl eq_refl)) as [s Hs].
  simpl. rewrite Hs. destruct s; simpl; lia.
Qed.

(** X11. Under the filter "all" the page shows every appointment of the
    list; under any other filter exactly those whose status is the filter
    value; and when every status is one of the five of the lifecycle, the
    five status filters split the list: their row counts add up to the
    total. *)
Theorem filteredAppointments_partition st :
  ManageAppointments.filteredAppointments (ManageAppointments.setFilter st "all")
  = ManageAppointments.appointments st
  /\ (forall f apt, f <> "all" ->
        (In apt (ManageAppointments.filteredAppointments (ManageAppointments.setFilter st f))
         <-> In apt (ManageAppointments.appointments st) /\ Appointment.status apt = f))
  /\ ((forall apt, In apt (ManageAppointments.appointments st) ->
                   knownStatus (Appointment.status apt)) ->
      (shown st "pending" + shown st "confirmed" + shown st "in_progress"
       + shown st "completed" + shown st "cancelled"
       = length (ManageAppointments.appointments st))%nat).
Proof.
  unfold shown, ManageAppointments.filteredAppointments. simpl. split; [|split].
  - induction (ManageAppointments.appointments st) as [|a l IH]; simpl; congruence.
  - intros f apt Hf. rewrite filter_In.
    destruct (String.eqb_spec f "all") as [|_]; [contradiction|].
    rewrite String.eqb_eq. tauto.
  - apply status_partition.
Qed.

Lemma filteredAppointments_partition_witness :
  (shown ward "pending" + shown ward "confirmed" + shown ward "in_progress"
   + shown ward "completed" + shown ward "cancelled" = 2)%nat
  /\ (In apt2 (ManageAppointments.filteredAppointments
                 (ManageAppointments.setFilter ward "confirmed"))
      <-> In apt2 (ManageAppointments.appointments ward)
          /\ Appointment.status apt2 = "confirmed").
Proof.
  destruct (filteredAppointments_partition ward) as (_ & Hf & Hsum).
  split.
  - apply Hsum. intros apt [<-|[<-|[]]].
    + exists ManageAppointments.confirmed. reflexivity.
    + exists ManageAppointments.pending. reflexivity.
  - apply Hf. discriminate.
Defined.

(** X12. On every state the appointment page can reach, the appointment
    held for the prescription form was shown with status completed, and the
    form is only up while such an appointment is held: the form is never
    opened for an appointment in another status. *)
Theorem prescription_form_only_completed st :
  ManageAppointments.reachable st ->
  (forall apt, ManageAppointments.selectedAppointment st = Some apt ->
               Appointment.status apt = "completed")
  /\ (ManageAppointments.showPrescriptionForm st = true ->
      ManageAppointments.selectedAppointment st <> None).
Proof.
  induction 1 as [|st st' _ IH Hs].
  - split; [discriminate|discriminate].
  - destruct Hs as [st userData db queryOk|st opt _|st db apt act ok _ _|st apt _ Hc|st].
    + unfold ManageAppointments.fetchAppointments.
      destruct userData; [|exact IH]. destruct queryOk; exact IH.
    + exact IH.
    + unfold ManageAppointments.updateAppointmentStatus. destruct ok; exact IH.
    + simpl. split; [intros a [= <-]; exact Hc|discriminate].
    + simpl. split; discriminate.
Qed.

Lemma clinicPage_reachable : ManageAppointments.reachable clinicPage.
Proof.
  eapply ManageAppointments.reachable_step.
  - eapply ManageAppointments.reachable_step; [apply ManageAppointments.reachable_init|].
    apply ManageAppointments.step_fetch.
  - apply ManageAppointments.step_prescription; [|reflexivity].
    vm_compute. tauto.
Qed.

Lemma prescription_form_only_completed_witness :
  ManageAppointments.selectedAppointment clinicPage = Some aptDone1
  /\ Appointment.status aptDone1 = "completed".
Proof.
  split; [reflexivity|].
  apply (proj1 (prescription_form_only_completed clinicPage clinicPage_reachable)).
  reflexivity.
Defined.

(** ** Dates: writing and reading the ISO date *)

Lemma allFrom_spec (f : Z -> bool) (n : nat) (start : Z) :
  allFrom f n start = true ->
  forall z, start <= z < start + Z.of_nat n -> f z = true.
Proof.
  revert start. induction n as [|n IH]; intros start H z Hz; [lia|].
  simpl in H. apply andb_true_iff in H as [H0 H].
  destruct (Z.eq_dec z start) as [->|Hne]; [exact H0|].
  apply (IH (start + 1) H). lia.
Qed.

Lemma all_doe_ok z : 0 <= z < 146097 -> doe_ok z = true.
Proof.
  intros H. apply (allFrom_spec doe_ok (Z.to_nat 146097) 0); [|lia].
  vm_compute. reflexivity.
Qed.

Lemma all_pad4_ok n : 0 <= n < 10000 -> pad4_ok n = true.
Proof.
  intros H. apply (allFrom_spec pad4_ok (Z.to_nat 10000) 0); [|lia].
  vm_compute. reflexivity.
Qed.

Lemma all_pad2_ok n : 0 <= n < 100 -> pad2_ok n = true.
Proof.
  intros H. apply (allFrom_spec pad2_ok (Z.to_nat 100) 0); [|lia].
  vm_compute. reflexivity.
Qed.


Lemma isLeap_era y k : JS.isLeap (y + k * 400) = JS.isLeap y.
Proof.
  unfold JS.isLeap.
  replace ((y + k * 400) mod 4) with (y mod 4)
    by (replace (y + k * 400) with (y + (k * 100) * 4) by lia;
        rewrite Z.mod_add by lia; reflexivity).
  replace ((y + k * 400) mod 100) with (y mod 100)
    by (replace (y + k * 400) with (y + (k * 4) * 100) by lia;
        rewrite Z.mod_add by lia; reflexivity).
  rewrite Z.mod_add by lia. reflexivity.
Qed.

Lemma civil_from_days_era z :
  let era := (z + 719468) / 146097 in
  let doe := (z + 719468) - era * 146097 in
  JS.civil_from_days z =
  (let '(yoe, m, d) := civil_doe doe in
   (yoe + era * 400 + (if m <=? 2 then 1 else 0), m, d)).
Proof. reflexivity. Qed.

Lemma days_from_civil_era yoe era m d :
  0 <= yoe <= 399 ->
  JS.days_from_civil (yoe + era * 400 + (if m <=? 2 then 1 else 0)) m d
  = era * 146097 + doe_of yoe m d - 719468.
Proof.
  intros Hy. unfold JS.days_from_civil, doe_of.
  replace (if m <=? 2
           then yoe + era * 400 + (if m <=? 2 then 1 else 0) - 1
           else yoe + era * 400 + (if m <=? 2 then 1 else 0))
    with (yoe + era * 400) by (destruct (m <=? 2); lia).
  rewrite Z.div_add by lia. rewrite (Z.div_small yoe 400) by lia.
  replace (yoe + era * 400 - (0 + era) * 400) with yoe by lia. lia.
Qed.

(** The date of a day number is a valid date, and its day number is the
    one it was computed from. *)
Lemma civil_from_days_valid z :
  let '(y, m, d) := JS.civil_from_days z in
  JS.days_from_civil y m d = z
  /\ 1 <= m <= 12 /\ 1 <= d <= JS.daysInMonth y m
  /\ (-719528 <= z <= 2932896 -> 0 <= y <= 9999).
Proof.
  rewrite civil_from_days_era. cbv zeta.
  set (era := (z + 719468) / 146097).
  set (doe := z + 719468 - era * 146097).
  assert (Hdoe : 0 <= doe < 146097).
  { subst doe era. pose proof (Z.mod_pos_bound (z + 719468) 146097 ltac:(lia)).
    rewrite Z.mod_eq in H by lia. lia. }
  pose proof (all_doe_ok doe Hdoe) as Hok. unfold doe_ok in Hok.
  destruct (civil_doe doe) as [[yoe m] d].
  repeat (apply andb_true_iff in Hok as [Hok ?]).
  repeat match goal with
         | H : (_ <=? _) = true |- _ => apply Z.leb_le in H
         | H : (_ =? _) = true |- _ => apply Z.eqb_eq in H
         end.
  split; [|split; [lia|split]].
  - rewrite days_from_civil_era by lia. subst doe. lia.
  - replace (yoe + era * 400 + (if m <=? 2 then 1 else 0))
      with (yoe + (if m <=? 2 then 1 else 0) + era * 400) by lia.
    unfold JS.daysInMonth in *. rewrite isLeap_era. lia.
  - intros Hz.
    assert (Hera : -1 <= era <= 24).
    { subst era. split.
      - apply Z.div_le_lower_bound; lia.
      - apply Z.lt_succ_r, Z.div_lt_upper_bound; lia. }
    destruct (doe <=? 146036) eqn:Hd.
    + apply Z.leb_le in Hd, H.
      assert (era <> -1) by (subst doe; lia). destruct (m <=? 2); lia.
    + apply Z.leb_gt in Hd. apply Z.eqb_eq in H.
      assert (era <> 24) by (subst doe; lia). destruct (m <=? 2); lia.
Qed.

Lemma toISODate_parts t :
  fourDigitYear t ->
  let '(y, m, d) := JS.civil_from_days (t / JS.msPerDay) in
  exists a b c e m1 m2 d1 d2,
    JS.toISODate t =
      String a (String b (String c (String e (String "-"
        (String m1 (String m2 (String "-" (String d1 (String d2 EmptyString)))))))))
    /\ JS.digits4 a b c e = Some y
    /\ JS.digits2 m1 m2 = Some m
    /\ JS.digits2 d1 d2 = Some d.
Proof.
  intros Ht. unfold JS.toISODate.
  pose proof (civil_from_days_valid (t / JS.msPerDay)) as Hv.
  destruct (JS.civil_from_days (t / JS.msPerDay)) as [[y m] d].
  destruct Hv as (_ & Hm & Hd & Hy).
  assert (Hyr : 0 <= y <= 9999).
  { apply Hy. unfold fourDigitYear, JS.msPerDay in *. split.
    - apply Z.div_le_lower_bound; lia.
    - apply Z.lt_succ_r. apply Z.div_lt_upper_bound; lia. }
  assert (Hd31 : 1 <= d <= 31).
  { unfold JS.daysInMonth in Hd.
    destruct (m =? 2); [destruct (JS.isLeap y); lia|].
    destruct ((m =? 4) || (m =? 6) || (m =? 9) || (m =? 11)); lia. }
  replace ((0 <=? y) && (y <=? 9999)) with true
    by (symmetry; apply andb_true_iff; split; apply Z.leb_le; lia).
  pose proof (all_pad4_ok y ltac:(lia)) as H4. unfold pad4_ok in H4.
  pose proof (all_pad2_ok m ltac:(lia)) as Hm2. unfold pad2_ok in Hm2.
  pose proof (all_pad2_ok d ltac:(lia)) as Hd2. unfold pad2_ok in Hd2.
  destruct (JS.pad 4 y) as [|a [|b [|c [|e [|? ?]]]]]; try discriminate.
  destruct (JS.pad 2 m) as [|m1 [|m2 [|? ?]]]; try discriminate.
  destruct (JS.pad 2 d) as [|d1 [|d2 [|? ?]]]; try discriminate.
  exists a, b, c, e, m1, m2, d1, d2.
  destruct (JS.digits4 a b c e) as [v4|]; [|discriminate].
  destruct (JS.digits2 m1 m2) as [vm|]; [|discriminate].
  destruct (JS.digits2 d1 d2) as [vd|]; [|discriminate].
  apply andb_true_iff in H4 as [H4 _].
  apply Z.eqb_eq in H4, Hm2, Hd2. subst. repeat split.
Qed.

Lemma dateDay_toISODate t :
  fourDigitYear t ->
  JS.dateDay (JS.toISODate t) = Some (t / JS.msPerDay).
Proof.
  intros Ht.
  pose proof (toISODate_parts t Ht) as Hp.
  pose proof (civil_from_days_valid (t / JS.msPerDay)) as Hv.
  destruct (JS.civil_from_days (t / JS.msPerDay)) as [[y m] d].
  destruct Hp as (a & b & c & e & m1 & m2 & d1 & d2 & -> & H4 & Hm & Hd).
  destruct Hv as (Hz & Hmr & Hdr & _).
  unfold JS.dateDay. rewrite H4, Hm, Hd.
  replace ((1 <=? m) && (m <=? 12) && (1 <=? d) && (d <=? JS.daysInMonth y m)) with true.
  - rewrite Hz. reflexivity.
  - symmetry. rewrite !andb_true_iff, !Z.leb_le. lia.
Qed.

Lemma Date_parse_toISODate t :
  fourDigitYear t ->
  JS.Date_parse (JS.toISODate t) = Some (t / JS.msPerDay * JS.msPerDay).
Proof.
  intros Ht. unfold JS.Date_parse. rewrite (dateDay_toISODate t Ht). reflexivity.
Qed.

(** X13. The date part that toISOString writes for an instant of the years
    0000 to 9999 reads back, as a date-only string, to the UTC day of the
    instant: getMinDate and the date of checkTodayBookings parse to midnight
    UTC of the current UTC day. *)
Theorem toISODate_dateDay t :
  fourDigitYear t ->
  JS.dateDay (JS.toISODate t) = Some (t / JS.msPerDay)
  /\ JS.Date_parse (JS.toISODate t) = Some (t / JS.msPerDay * JS.msPerDay).
Proof.
  intros Ht. split; [apply dateDay_toISODate|apply Date_parse_toISODate]; exact Ht.
Qed.

Lemma toISODate_dateDay_witness :
  JS.dateDay (JS.toISODate 1793527200000) = Some (1793527200000 / JS.msPerDay).
Proof.
  apply (toISODate_dateDay 1793527200000). unfold fourDigitYear. lia.
Defined.

(** ** BookAppointment: dates after today *)

Lemma checkTodayBookings_error env userData db queryOk st :
  BookAppointment.error (BookAppointment.checkTodayBookings env userData db queryOk st)
  = BookAppointment.error st.
Proof.
  unfold BookAppointment.checkTodayBookings.
  destruct userData; [|reflexivity]. destruct queryOk; reflexivity.
Qed.

Lemma localMidnight_le_now env : JS.localMidnight env <= JS.now env.
Proof.
  unfold JS.localMidnight, JS.localDay, JS.msPerDay.
  pose proof (Z.mod_pos_bound (JS.now env + JS.tzOffset env) 86400000 ltac:(lia)).
  pose proof (Z.div_mod (JS.now env + JS.tzOffset env) 86400000 ltac:(lia)).
  lia.
Qed.

Lemma later_date_not_lt env s d :
  JS.dateDay s = Some d ->
  JS.now env / JS.msPerDay < d ->
  JS.Date_lt (JS.Date_parse s) (JS.localMidnight env) = false.
Proof.
  intros Hd Hlt. unfold JS.Date_parse. rewrite Hd. simpl. apply Z.ltb_ge.
  pose proof (localMidnight_le_now env) as Hm. unfold JS.msPerDay in *.
  pose proof (Z.mod_pos_bound (JS.now env) 86400000 ltac:(lia)).
  pose proof (Z.div_mod (JS.now env) 86400000 ltac:(lia)).
  lia.
Qed.

(** X14. A booking for a date after the current UTC date, the date that
    getMinDate gives as the earliest, is never turned down as a past date,
    whatever the offset of the browser's time zone: midnight of the local
    day is never later than the current instant.  With fewer than two
    bookings counted and the three fields present, such a booking is written
    when the store takes it, and the confirmation is shown. *)
Theorem later_date_not_past env userData addDocRes queryOk st db d :
  JS.dateDay (BookAppointment.date (BookAppointment.formData st)) = Some d ->
  JS.now env / JS.msPerDay < d ->
  let r := BookAppointment.handleSubmit env userData addDocRes queryOk st db in
  BookAppointment.error r.1 <> BookAppointment.errPastDate
  /\ (BookAppointment.todayBookings st < 2 ->
      ~ missing (BookAppointment.formData st) ->
      forall newId, addDocRes = Some newId ->
        r.2 = BookAppointment.addAppointment db
                (BookAppointment.newAppointment env userData st newId)
        /\ BookAppointment.error r.1 = ""
        /\ BookAppointment.success r.1 = true).
Proof.
  intros Hd Hlt r. subst r.
  pose proof (later_date_not_lt env _ d Hd Hlt) as Hnot.
  unfold BookAppointment.handleSubmit.
  destruct (Z.leb_spec 2 (BookAppointment.todayBookings st)) as [Hc|Hc];
    [split; [simpl; discriminate|intros; lia]|].
  destruct (negb _ || _ || _) eqn:E.
  - split; [simpl; discriminate|]. intros _ Hm. apply missing_spec in E. contradiction.
  - rewrite Hnot. destruct addDocRes as [i|]; simpl.
    + rewrite checkTodayBookings_error. simpl. split; [discriminate|].
      intros _ _ newId Hi. injection Hi as ->. split; [reflexivity|].
      split; [reflexivity|].
      unfold BookAppointment.checkTodayBookings.
      destruct userData; [destruct queryOk|]; reflexivity.
    + split; [discriminate|]. intros _ _ newId Hi. discriminate Hi.
Qed.

Lemma later_date_not_past_witness :
  BookAppointment.error
    (BookAppointment.handleSubmit newYork (Some patient1) (Some "a9") true
       (filled "2026-11-02" 0) Firestore.empty).1 = "".
Proof.
  apply (proj2 (later_date_not_past newYork (Some patient1) (Some "a9") true
                  (filled "2026-11-02" 0) Firestore.empty 20759 eq_refl
                  ltac:(vm_compute; reflexivity))
           ltac:(simpl; lia)
           ltac:(intros [H|[H|H]]; discriminate H)
           "a9" eq_refl).
Defined.

(** ** BookAppointment: what a submission does to the page and the store *)

Lemma app_one_neq {A : Type} (l : list A) (x : A) : (l ++ [x])%list <> l.
Proof.
  intros H. apply (f_equal (@length A)) in H. rewrite length_app in H. simpl in H. lia.
Qed.

(** X15. handleSubmit never changes or removes a stored document: the
    prescriptions and the feedback stay, and the appointments are the old
    ones, followed, when the booking goes through, by one new appointment in
    status pending that carries the patient's id and the doctor, date, time
    and note of the form.  When nothing is created the form keeps what was
    typed; when the appointment is created the form is emptied, the error is
    cleared and the confirmation is shown. *)
Theorem handleSubmit_effect env userData addDocRes queryOk st db :
  let r := BookAppointment.handleSubmit env userData addDocRes queryOk st db in
  let f := BookAppointment.formData st in
  Firestore.prescriptions r.2 = Firestore.prescriptions db
  /\ Firestore.feedback r.2 = Firestore.feedback db
  /\ ((r.2 = db
       /\ BookAppointment.formData r.1 = f
       /\ BookAppointment.success r.1 = BookAppointment.success st
       /\ BookAppointment.error r.1 <> "")
      \/ (exists a,
            Firestore.appointments r.2 = (Firestore.appointments db ++ [a])%list
            /\ addDocRes = Some (Appointment.id a)
            /\ Appointment.status a = "pending"
            /\ Appointment.patientId a = option_map UserData.uid userData
            /\ Appointment.doctorId a = BookAppointment.doctorId f
            /\ Appointment.date a = BookAppointment.date f
            /\ Appointment.time a = BookAppointment.time f
            /\ Appointment.note a = BookAppointment.note f
            /\ Appointment.createdAt a = Some (JS.now env)
            /\ BookAppointment.formData r.1 = BookAppointment.emptyForm
            /\ BookAppointment.success r.1 = true
            /\ BookAppointment.error r.1 = ""
            /\ BookAppointment.loading r.1 = false)).
Proof.
  intros r f. subst r f. unfold BookAppointment.handleSubmit.
  destruct (2 <=? _); [simpl; split; [|split; [|left]]; repeat split; discriminate|].
  destruct (negb _ || _ || _); [simpl; split; [|split; [|left]]; repeat split; discriminate|].
  destruct (JS.Date_lt _ _); [simpl; split; [|split; [|left]]; repeat split; discriminate|].
  destruct addDocRes as [newId|]; simpl.
  - split; [reflexivity|]. split; [reflexivity|]. right.
    eexists. split; [reflexivity|]. simpl.
    unfold BookAppointment.checkTodayBookings.
    destruct userData; [destruct queryOk|]; simpl; repeat split.
  - split; [reflexivity|]. split; [reflexivity|]. left. repeat split. discriminate.
Qed.

(** ** BookAppointment: the counter over a day *)

Lemma todayQuery_sameDay env u db :
  BookAppointment.todayQuery env u db = sameDay u (JS.toISODate (JS.now env)) db.
Proof. reflexivity. Qed.

Lemma booking_counted today u s s' :
  BookAppointment.booking today u s s' -> counted today u s ->
  counted today u s'
  /\ (length (sameDay u today s.2) <= length (sameDay u today s'.2)
      <= Nat.max 2 (length (sameDay u today s.2)))%nat.
Proof.
  unfold counted.
  intros Hb Hfresh. destruct Hb as [env st db Hday|name value st db|st db
                                   |env addDocRes st db Hday]; simpl in *.
  - split; [|lia]. rewrite todayQuery_sameDay, Hday. reflexivity.
  - split; [assumption|lia].
  - split; [assumption|lia].
  - unfold BookAppointment.handleSubmit.
    destruct (Z.leb_spec 2 (BookAppointment.todayBookings st)) as [|Hlt];
      [split; [assumption|simpl; lia]|].
    destruct (negb _ || _ || _); [split; [assumption|simpl; lia]|].
    destruct (JS.Date_lt _ _); [split; [assumption|simpl; lia]|].
    destruct addDocRes as [newId|]; [|split; [assumption|simpl; lia]].
    simpl. rewrite todayQuery_sameDay, Hday. split; [reflexivity|].
    unfold sameDay in *. simpl.
    pose proof (filter_snoc_length
                  (fun a => Firestore.eq_opt (Appointment.patientId a) (UserData.uid u)
                            && String.eqb (Appointment.date a) today)
                  (Firestore.appointments db)
                  (BookAppointment.newAppointment env (Some u)
                     (BookAppointment.setError (BookAppointment.setLoading st true) "")
                     newId)) as Hs.
    rewrite List.filter_app, length_app in *. lia.
Qed.

(** X16. Over any sequence of steps of a patient on the booking page within
    one UTC day, each write and each refresh completing before the next
    step, a counter that equals the number of the patient's appointments
    dated that day stays equal to it, no such appointment is lost, and
    their number ends at most at the larger of 2 and the number at the
    start: the page adds one only while fewer than two are counted.  A
    patient who starts the day with more than two, booked on earlier days,
    keeps them. *)
Theorem bookings_counted today u s s' :
  BookAppointment.bookings today u s s' -> counted today u s ->
  counted today u s'
  /\ (length (sameDay u today s.2) <= length (sameDay u today s'.2)
      <= Nat.max 2 (length (sameDay u today s.2)))%nat.
Proof.
  induction 1 as [|s1 s2 Hb _ IH]; intros Hc; [split; [assumption|lia]|].
  destruct (IH Hc) as [Hc1 Hl1].
  destruct (booking_counted today u s1 s2 Hb Hc1) as [Hc2 Hl2].
  split; [exact Hc2|lia].
Qed.

Lemma bookings_counted_witness :
  counted "2026-11-01" patient1
    (BookAppointment.handleSubmit nov1 (Some patient1) (Some "a1") true
       (filled "2026-11-01" 0) Firestore.empty)
  /\ (length (sameDay patient1 "2026-11-01"
                (BookAppointment.handleSubmit nov1 (Some patient1) (Some "a1") true
                   (filled "2026-11-01" 0) Firestore.empty).2) <= 2)%nat.
Proof.
  destruct (bookings_counted "2026-11-01" patient1
              (filled "2026-11-01" 0, Firestore.empty)
              (BookAppointment.handleSubmit nov1 (Some patient1) (Some "a1") true
                 (filled "2026-11-01" 0) Firestore.empty)) as [Hc Hl].
  - eapply Relation_Operators.rtn1_trans; [|apply Relation_Operators.rtn1_refl].
    apply (BookAppointment.booking_submit "2026-11-01" patient1 nov1 (Some "a1")).
    reflexivity.
  - reflexivity.
  - split; [exact Hc|]. exact (proj2 Hl).
Defined.

(** ** PatientFeedback: reading, sorting and offering *)

Section SortDescFacts.
Context {A : Type} (createdAt : A -> option Z).

Let key (a : A) : Z := PatientFeedback.timeOf (createdAt a).

Lemma insertSorted_latestFirst x (l : list A) :
  latestFirst createdAt l ->
  latestFirst createdAt (PatientFeedback.insertSorted key x l).
Proof.
  unfold latestFirst. intros Hs. induction Hs as [|y l Hs IH Hy]; simpl.
  - constructor; constructor.
  - unfold PatientFeedback.compareFn at 1.
    destruct (Z.leb_spec (key y - key x) 0) as [Hle|Hgt].
    + constructor; [constructor; assumption|].
      constructor; [unfold key in Hle; lia|].
      rewrite List.Forall_forall in Hy |- *. intros z Hz. specialize (Hy z Hz).
      unfold key in Hle. lia.
    + constructor; [exact IH|].
      rewrite List.Forall_forall in Hy |- *. intros z Hz.
      apply In_insertSorted in Hz as [->|Hz]; [unfold key in Hgt; lia|auto].
Qed.

Lemma sortDesc_latestFirst (l : list A) :
  latestFirst createdAt (PatientFeedback.sortDesc key l).
Proof.
  unfold PatientFeedback.sortDesc. induction l as [|x l IH]; simpl.
  - constructor.
  - apply insertSorted_latestFirst, IH.
Qed.

Lemma insertSorted_Permutation x (l : list A) :
  Permutation (PatientFeedback.insertSorted key x l) (x :: l).
Proof.
  induction l as [|y l IH]; simpl; [reflexivity|].
  destruct (PatientFeedback.compareFn key x y <=? 0); [reflexivity|].
  rewrite IH. apply perm_swap.
Qed.

Lemma sortDesc_Permutation (l : list A) :
  Permutation (PatientFeedback.sortDesc key l) l.
Proof.
  unfold PatientFeedback.sortDesc. induction l as [|x l IH]; simpl; [reflexivity|].
  rewrite insertSorted_Permutation, IH. reflexivity.
Qed.
End SortDescFacts.

(** X17. A fetchData whose two reads succeed shows the patient's completed
    appointments of the store, each once, the latest first (an appointment
    without creation instant counting as the epoch), and the patient's
    feedback records.  When the first read fails both lists stay; when only
    the second fails the appointments are replaced and the feedback list
    stays; without a signed-in user nothing changes. *)
Theorem fetchData_spec userData db apptOk fbOk st :
  let st' := PatientFeedback.fetchData userData db apptOk fbOk st in
  (forall u, userData = Some u -> apptOk = true ->
     Permutation (PatientFeedback.completedAppointments st')
       (PatientFeedback.completedQuery u db)
     /\ latestFirst Appointment.createdAt (PatientFeedback.completedAppointments st')
     /\ (forall a, In a (PatientFeedback.completedAppointments st') <->
                   In a (Firestore.appointments db)
                   /\ Appointment.patientId a = Some (UserData.uid u)
                   /\ Appointment.status a = "completed")
     /\ PatientFeedback.existingFeedback st' =
        (if fbOk then PatientFeedback.feedbackQuery u db
         else PatientFeedback.existingFeedback st))
  /\ (apptOk = false ->
      PatientFeedback.completedAppointments st' = PatientFeedback.completedAppointments st
      /\ PatientFeedback.existingFeedback st' = PatientFeedback.existingFeedback st)
  /\ (userData = None -> st' = st).
Proof.
  intros st'. subst st'. unfold PatientFeedback.fetchData. split; [|split].
  - intros u -> ->.
    assert (Hin : forall a,
              In a (PatientFeedback.completedQuery u db) <->
              In a (Firestore.appointments db)
              /\ Appointment.patientId a = Some (UserData.uid u)
              /\ Appointment.status a = "completed").
    { intros a. unfold PatientFeedback.completedQuery.
      rewrite filter_In, andb_true_iff, String.eqb_eq. unfold Firestore.eq_opt.
      destruct (Appointment.patientId a) as [x|].
      - rewrite String.eqb_eq. split; [intros (? & -> & ?); auto|].
        intros (? & [= ->] & ?). auto.
      - split; [intros (_ & ? & _); discriminate|intros (_ & ? & _); discriminate]. }
    destruct fbOk; simpl.
    + split; [apply sortDesc_Permutation|]. split; [apply sortDesc_latestFirst|].
      split; [|reflexivity]. intros a. rewrite In_sortDesc. apply Hin.
    + split; [apply sortDesc_Permutation|]. split; [apply sortDesc_latestFirst|].
      split; [|reflexivity]. intros a. rewrite In_sortDesc. apply Hin.
  - intros ->. destruct userData; simpl; auto.
  - intros ->. reflexivity.
Qed.

Lemma fetchData_spec_witness :
  PatientFeedback.completedAppointments fetched = [aptDone1; aptDone2]
  /\ latestFirst Appointment.createdAt (PatientFeedback.completedAppointments fetched).
Proof.
  split; [reflexivity|].
  apply (proj1 (fetchData_spec (Some patient1) clinicDb true true PatientFeedback.init)
           patient1 eq_refl eq_refl).
Defined.

Lemma existsb_In_ext {A : Type} (f : A -> bool) (l1 l2 : list A) :
  (forall x, In x l1 <-> In x l2) -> List.existsb f l1 = List.existsb f l2.
Proof.
  intros H. destruct (List.existsb f l1) eqn:E1, (List.existsb f l2) eqn:E2;
    try reflexivity.
  - apply existsb_exists in E1 as (x & Hx & Hf).
    assert (List.existsb f l2 = true) by (apply existsb_exists; exists x; split; [apply H|]; auto).
    congruence.
  - apply existsb_exists in E2 as (x & Hx & Hf).
    assert (List.existsb f l1 = true) by (apply existsb_exists; exists x; split; [apply H|]; auto).
    congruence.
Qed.

(** X18. The sort that the render applies to the existing feedback list in
    place only reorders it: the list has the same records, the latest first,
    every appointment has feedback after it exactly if it had before, and
    the appointments offered for feedback are the same. *)
Theorem render_keeps_offer st :
  let st' := PatientFeedback.render st in
  Permutation (PatientFeedback.existingFeedback st') (PatientFeedback.existingFeedback st)
  /\ latestFirst Feedback.createdAt (PatientFeedback.existingFeedback st')
  /\ (forall appointmentId,
        PatientFeedback.hasFeedback st' appointmentId
        = PatientFeedback.hasFeedback st appointmentId)
  /\ PatientFeedback.getAppointmentsWithoutFeedback st'
     = PatientFeedback.getAppointmentsWithoutFeedback st.
Proof.
  intros st'. subst st'.
  assert (Hh : forall appointmentId,
             PatientFeedback.hasFeedback (PatientFeedback.render st) appointmentId
             = PatientFeedback.hasFeedback st appointmentId).
  { intros appointmentId. unfold PatientFeedback.hasFeedback, PatientFeedback.render. simpl.
    apply existsb_In_ext. intros x. apply In_sortDesc. }
  split; [apply sortDesc_Permutation|]. split; [apply sortDesc_latestFirst|].
  split; [exact Hh|].
  unfold PatientFeedback.getAppointmentsWithoutFeedback.
  apply List.filter_ext. intros a. rewrite Hh. reflexivity.
Qed.

(** X19. After a feedback that the store has taken, the reviewed
    appointment is no longer offered: the offer is the former one without
    the appointments of that id, the form is reset (no selection, rating 0,
    empty comment) and the confirmation is shown. *)
Theorem submitted_not_offered env userData newId st db apt :
  PatientFeedback.selectedAppointment st = Some apt ->
  PatientFeedback.rating st <> 0 ->
  let st' := PatientFeedback.state
               (PatientFeedback.handleSubmitFeedback env userData (Some newId) st db) in
  PatientFeedback.getAppointmentsWithoutFeedback st'
  = List.filter (fun a => negb (String.eqb (Appointment.id apt) (Appointment.id a)))
      (PatientFeedback.getAppointmentsWithoutFeedback st)
  /\ ~ In apt (PatientFeedback.getAppointmentsWithoutFeedback st')
  /\ PatientFeedback.selectedAppointment st' = None
  /\ PatientFeedback.rating st' = 0
  /\ PatientFeedback.comment st' = ""
  /\ PatientFeedback.showSuccess st' = true.
Proof.
  intros Hs Hr st'. subst st'. unfold PatientFeedback.handleSubmitFeedback. rewrite Hs.
  destruct (Z.eqb_spec (PatientFeedback.rating st) 0) as [|_]; [contradiction|]. simpl.
  assert (Heq : PatientFeedback.getAppointmentsWithoutFeedback
                  (PatientFeedback.setSubmitting
                     (PatientFeedback.setShowSuccess
                        (PatientFeedback.setComment
                           (PatientFeedback.setRating
                              (PatientFeedback.setSelectedAppointment
                                 (PatientFeedback.setExistingFeedback
                                    (PatientFeedback.setSubmitting st true)
                                    (PatientFeedback.existingFeedback st
                                     ++ [PatientFeedback.newFeedback env
                                           (PatientFeedback.setSubmitting st true) apt]))
                                 None) 0) "") true) false)
                = List.filter
                    (fun a => negb (String.eqb (Appointment.id apt) (Appointment.id a)))
                    (PatientFeedback.getAppointmentsWithoutFeedback st)).
  { unfold PatientFeedback.getAppointmentsWithoutFeedback, PatientFeedback.hasFeedback.
    simpl.
    induction (PatientFeedback.completedAppointments st) as [|a l IH]; [reflexivity|].
    simpl. rewrite existsb_app. simpl. rewrite orb_false_r.
    destruct (List.existsb _ (PatientFeedback.existingFeedback st)); simpl; [exact IH|].
    destruct (String.eqb (Appointment.id apt) (Appointment.id a)); simpl;
      [exact IH|rewrite IH; reflexivity]. }
  split; [exact Heq|]. split; [|repeat split].
  rewrite Heq. intros Hin. apply filter_In in Hin as [_ Hin].
  rewrite String.eqb_refl in Hin. discriminate.
Qed.

Lemma submitted_not_offered_witness :
  PatientFeedback.getAppointmentsWithoutFeedback
    (PatientFeedback.state
       (PatientFeedback.handleSubmitFeedback nov1 (Some patient1) (Some "f2")
          (rated 4 "fine") clinicDb)) = [].
Proof.
  rewrite (proj1 (submitted_not_offered nov1 (Some patient1) "f2" (rated 4 "fine") clinicDb
                    aptDone2 eq_refl ltac:(discriminate))).
  reflexivity.
Defined.

(** X20. When the store turns the feedback down, handleSubmitFeedback shows
    the failure alert, writes nothing and keeps the selection, the rating,
    the comment, the feedback list and the offer, so that the submission can
    be repeated as it is. *)
Theorem submitFeedback_store_failure env userData st db apt :
  PatientFeedback.selectedAppointment st = Some apt ->
  PatientFeedback.rating st <> 0 ->
  let res := PatientFeedback.handleSubmitFeedback env userData None st db in
  let st' := PatientFeedback.state res in
  PatientFeedback.alert res = Some PatientFeedback.msgFailed
  /\ PatientFeedback.store res = db
  /\ PatientFeedback.selectedAppointment st' = Some apt
  /\ PatientFeedback.rating st' = PatientFeedback.rating st
  /\ PatientFeedback.comment st' = PatientFeedback.comment st
  /\ PatientFeedback.existingFeedback st' = PatientFeedback.existingFeedback st
  /\ PatientFeedback.getAppointmentsWithoutFeedback st'
     = PatientFeedback.getAppointmentsWithoutFeedback st
  /\ PatientFeedback.submitting st' = false
  /\ forall env' newId,
       PatientFeedback.alert
         (PatientFeedback.handleSubmitFeedback env' userData (Some newId) st' db) = None.
Proof.
  intros Hs Hr res st'. subst st' res. unfold PatientFeedback.handleSubmitFeedback.
  rewrite Hs.
  destruct (Z.eqb_spec (PatientFeedback.rating st) 0) as [|_]; [contradiction|].
  simpl. rewrite Hs.
  destruct (Z.eqb_spec (PatientFeedback.rating st) 0) as [|_]; [contradiction|].
  repeat split; assumption.
Qed.

Lemma submitFeedback_store_failure_witness :
  PatientFeedback.store
    (PatientFeedback.handleSubmitFeedback nov1 (Some patient1) None (rated 4 "fine") clinicDb)
  = clinicDb.
Proof.
  apply (submitFeedback_store_failure nov1 (Some patient1) (rated 4 "fine") clinicDb aptDone2).
  - reflexivity.
  - discriminate.
Defined.






(** ** DoctorFeedback: the histogram *)

Lemma increment_lookup d r k :
  DoctorFeedback.increment d r !! k = if decide (r = k) then bump (d !! k) else d !! k.
Proof.
  unfold DoctorFeedback.increment, bump.
  destruct (decide (r = k)) as [->|Hne].
  - destruct (d !! k) as [[n|]|]; apply lookup_insert_eq.
  - destruct (d !! r) as [[n|]|]; apply lookup_insert_ne; assumption.
Qed.

Lemma fold_increment_lookup (l : list Z) d k :
  List.fold_left DoctorFeedback.increment l d !! k
  = Nat.iter (length (List.filter (fun r => r =? k) l)) bump (d !! k).
Proof.
  revert d. induction l as [|r l IH]; intros d; simpl; [reflexivity|].
  rewrite IH, increment_lookup.
  destruct (Z.eqb_spec r k) as [->|Hne].
  - rewrite decide_True by reflexivity. simpl. symmetry.
    exact (Nat.iter_succ_r (length (List.filter (fun r => r =? k) l)) bump (d !! k)).
  - rewrite decide_False by assumption. reflexivity.
Qed.

Lemma iter_bump_counter (n : nat) (c : Z) :
  Nat.iter n bump (Some (Some c)) = Some (Some (c + Z.of_nat n)).
Proof.
  induction n as [|n IH]; simpl; [f_equal; f_equal; lia|].
  rewrite IH. simpl. f_equal. f_equal. lia.
Qed.

Lemma iter_bump_absent (n : nat) :
  Nat.iter n bump None = if (n =? 0)%nat then None else Some None.
Proof.
  induction n as [|n IH]; simpl; [reflexivity|].
  rewrite IH. destruct (n =? 0)%nat; reflexivity.
Qed.

Lemma emptyDistribution_lookup k :
  DoctorFeedback.emptyDistribution !! k
  = if (1 <=? k) && (k <=? 5) then Some (Some 0) else None.
Proof.
  unfold DoctorFeedback.emptyDistribution.
  destruct (decide (k = 1)) as [->|H1]; [reflexivity|].
  destruct (decide (k = 2)) as [->|H2]; [reflexivity|].
  destruct (decide (k = 3)) as [->|H3]; [reflexivity|].
  destruct (decide (k = 4)) as [->|H4]; [reflexivity|].
  destruct (decide (k = 5)) as [->|H5]; [reflexivity|].
  rewrite !lookup_insert_ne, lookup_empty by congruence.
  destruct (Z.leb_spec 1 k), (Z.leb_spec k 5); simpl; try reflexivity. lia.
Qed.

Lemma filter_ratings_length k (l : list Feedback.t) :
  length (List.filter (fun r => r =? k) (List.map Feedback.rating l))
  = length (List.filter (fun fb => Feedback.rating fb =? k) l).
Proof.
  induction l as [|fb l IH]; simpl; [reflexivity|].
  destruct (Feedback.rating fb =? k); simpl; rewrite IH; reflexivity.
Qed.

Lemma ratingDistribution_key (feedbackList : list Feedback.t) k :
  1 <= k <= 5 ->
  DoctorFeedback.ratingDistribution (DoctorFeedback.calculateStats feedbackList) !! k
  = Some (Some (countRating k feedbackList)).
Proof.
  intros Hk. destruct (calculateStats_ratings feedbackList) as (_ & _ & Hd).
  rewrite Hd, fold_increment_lookup, emptyDistribution_lookup.
  replace ((1 <=? k) && (k <=? 5)) with true
    by (symmetry; apply andb_true_iff; split; apply Z.leb_le; lia).
  rewrite iter_bump_counter, filter_ratings_length. reflexivity.
Qed.

(** X22. The histogram of calculateStats: each of the keys 1 to 5 holds
    the number of records with that rating, whatever other ratings occur; a
    rating outside 1 to 5 that occurs gets an entry of its own that is NaN,
    one that does not occur has no entry; and when all ratings are from 1 to
    5 the five counts add up to totalReviews. *)
Theorem ratingDistribution_counts (feedbackList : list Feedback.t) :
  let s := DoctorFeedback.calculateStats feedbackList in
  (forall k, 1 <= k <= 5 ->
     DoctorFeedback.ratingDistribution s !! k = Some (Some (countRating k feedbackList)))
  /\ (forall k, ~ 1 <= k <= 5 ->
        DoctorFeedback.ratingDistribution s !! k
        = if countRating k feedbackList =? 0 then None else Some None)
  /\ ((forall fb, In fb feedbackList -> 1 <= Feedback.rating fb <= 5) ->
      countRating 1 feedbackList + countRating 2 feedbackList + countRating 3 feedbackList
      + countRating 4 feedbackList + countRating 5 feedbackList
      = DoctorFeedback.totalReviews s).
Proof.
  intros s. subst s. split; [intros k Hk; apply ratingDistribution_key; exact Hk|].
  destruct (calculateStats_ratings feedbackList) as (Ht & _ & Hd).
  rewrite Ht, Hd. clear Ht Hd. split.
  - intros k Hk. rewrite fold_increment_lookup, emptyDistribution_lookup.
    replace ((1 <=? k) && (k <=? 5)) with false
      by (symmetry; apply andb_false_iff;
          destruct (Z.leb_spec 1 k), (Z.leb_spec k 5); auto; lia).
    rewrite iter_bump_absent, filter_ratings_length. unfold countRating.
    destruct (length _) as [|n]; reflexivity.
  - intros Hall. rewrite length_map. unfold countRating.
    induction feedbackList as [|fb l IH]; [reflexivity|].
    specialize (IH (fun x H => Hall x (or_intror H))).
    pose proof (Hall fb (or_introl eq_refl)) as Hr.
    simpl length. simpl List.filter.
    assert (Hcases : Feedback.rating fb = 1 \/ Feedback.rating fb = 2
                     \/ Feedback.rating fb = 3 \/ Feedback.rating fb = 4
                     \/ Feedback.rating fb = 5) by lia.
    destruct Hcases as [E|[E|[E|[E|E]]]]; rewrite E; simpl; lia.
Qed.

Lemma ratingDistribution_counts_witness :
  DoctorFeedback.ratingDistribution (DoctorFeedback.calculateStats fourReviews) !! 5
  = Some (Some (countRating 5 fourReviews))
  /\ DoctorFeedback.ratingDistribution
       (DoctorFeedback.calculateStats (review 5 7 "" :: fourReviews)) !! 7
     = Some None
  /\ countRating 1 fourReviews + countRating 2 fourReviews + countRating 3 fourReviews
     + countRating 4 fourReviews + countRating 5 fourReviews = 4.
Proof.
  split; [|split].
  - apply (proj1 (ratingDistribution_counts fourReviews)). lia.
  - rewrite (proj1 (proj2 (ratingDistribution_counts (review 5 7 "" :: fourReviews))) 7)
      by lia.
    reflexivity.
  - rewrite (proj2 (proj2 (ratingDistribution_counts fourReviews))); [reflexivity|].
    intros fb [<-|[<-|[<-|[<-|[]]]]]; simpl; lia.
Defined.

(** ** DoctorFeedback: the average and the comments *)

Lemma fold_left_add_bounds (l : list Z) (acc : Z) :
  (forall r, In r l -> 1 <= r <= 5) ->
  acc + Z.of_nat (length l) <= List.fold_left Z.add l acc <= acc + 5 * Z.of_nat (length l).
Proof.
  revert acc. induction l as [|r l IH]; intros acc Hall; simpl; [lia|].
  specialize (IH (acc + r) (fun x H => Hall x (or_intror H))).
  pose proof (Hall r (or_introl eq_refl)). lia.
Qed.

Lemma round_tenths_bounds (sum : Z) (p : positive) :
  Z.pos p <= sum <= 5 * Z.pos p ->
  10 <= JS.Math_round (inject_Z sum / inject_Z (Z.pos p) * inject_Z 10) <= 50.
Proof.
  intros Hs. unfold JS.Math_round.
  set (x := (inject_Z sum / inject_Z (Z.pos p) * inject_Z 10)%Q).
  assert (Hlo : (inject_Z 10 <= x + (1 # 2))%Q).
  { subst x. unfold Qle, Qplus, Qmult, Qdiv, Qinv, inject_Z. simpl. nia. }
  assert (Hhi : (x + (1 # 2) <= 101 # 2)%Q).
  { subst x. unfold Qle, Qplus, Qmult, Qdiv, Qinv, inject_Z. simpl. nia. }
  apply Qfloor_resp_le in Hlo, Hhi. rewrite Qfloor_Z in Hlo.
  change (Qfloor (101 # 2)) with 50 in Hhi. lia.
Qed.

(** X23. The average of calculateStats: for no feedback it is 0, without a
    division; for feedback rated from 1 to 5 it is a number of tenths
    between 1.0 and 5.0.  The comment counter is the number of records
    whose comment is not blank, so it never exceeds totalReviews. *)
Theorem averageRating_tenths (feedbackList : list Feedback.t) :
  let s := DoctorFeedback.calculateStats feedbackList in
  (feedbackList = [] ->
     DoctorFeedback.totalReviews s = 0 /\ (DoctorFeedback.averageRating s == 0)%Q)
  /\ (feedbackList <> [] ->
      (forall fb, In fb feedbackList -> 1 <= Feedback.rating fb <= 5) ->
      exists n, 10 <= n <= 50
                /\ (DoctorFeedback.averageRating s == inject_Z n / inject_Z 10)%Q)
  /\ DoctorFeedback.withComments s
     = Z.of_nat (length (List.filter
                           (fun fb => JS.truthy (JS.trim (Feedback.comment fb)))
                           feedbackList))
  /\ 0 <= DoctorFeedback.withComments s <= DoctorFeedback.totalReviews s.
Proof.
  intros s. subst s. split; [|split; [|split]].
  - intros ->. split; reflexivity.
  - intros Hne Hall.
    destruct (calculateStats_ratings feedbackList) as (_ & Ha & _). rewrite Ha. clear Ha.
    rewrite length_map.
    destruct feedbackList as [|fb l]; [congruence|].
    set (ratings := List.map Feedback.rating (fb :: l)).
    assert (Hlen : Z.of_nat (length (fb :: l)) = Z.pos (Pos.of_succ_nat (length l)))
      by (simpl; lia).
    rewrite Hlen. simpl (0 <? _).
    eexists. split; [|reflexivity].
    apply round_tenths_bounds. rewrite <- Hlen.
    pose proof (fold_left_add_bounds ratings 0) as Hb.
    replace (length ratings) with (length (fb :: l)) in Hb
      by (subst ratings; rewrite length_map; reflexivity).
    apply Hb. intros r Hr. subst ratings. apply in_map_iff in Hr as (x & <- & Hx).
    apply Hall, Hx.
  - unfold DoctorFeedback.calculateStats. simpl. f_equal. f_equal.
    apply List.filter_ext. intros fb.
    destruct (JS.truthy (Feedback.comment fb)) eqn:E; [reflexivity|].
    apply truthy_false in E. rewrite E. reflexivity.
  - unfold DoctorFeedback.calculateStats. simpl.
    pose proof (List.filter_length_le
                  (fun fb => JS.truthy (Feedback.comment fb)
                             && JS.truthy (JS.trim (Feedback.comment fb)))
                  feedbackList).
    lia.
Qed.

Lemma averageRating_tenths_witness :
  exists n, 10 <= n <= 50
            /\ (DoctorFeedback.averageRating (DoctorFeedback.calculateStats fourReviews)
                == inject_Z n / inject_Z 10)%Q.
Proof.
  apply (proj1 (proj2 (averageRating_tenths fourReviews))).
  - discriminate.
  - intros fb [<-|[<-|[<-|[<-|[]]]]]; simpl; lia.
Defined.

(** ** DoctorFeedback: the filters *)

Lemma filterThrowing_total {A : Type} (f : A -> option bool) (g : A -> bool) (l : list A) :
  (forall x, In x l -> f x = Some (g x)) ->
  DoctorFeedback.filterThrowing f l = Some (List.filter g l).
Proof.
  induction l as [|x l IH]; intros H; simpl; [reflexivity|].
  rewrite (H x (or_introl eq_refl)), IH by (intros y Hy; apply H; right; exact Hy).
  reflexivity.
Qed.

Lemma filterThrowing_In {A : Type} (f : A -> option bool) (l r : list A) x :
  DoctorFeedback.filterThrowing f l = Some r ->
  (In x r <-> In x l /\ f x = Some true).
Proof.
  revert r. induction l as [|y l IH]; intros r H; simpl in H.
  - injection H as <-. simpl. tauto.
  - destruct (f y) as [b|] eqn:Ey; [|discriminate].
    destruct (DoctorFeedback.filterThrowing f l) as [r'|]; [|discriminate].
    injection H as <-. specialize (IH r' eq_refl).
    destruct b; simpl; rewrite IH; split.
    + intros [->|[H1 H2]]; auto.
    + intros [[->|H1] H2]; auto.
    + intros [H1 H2]; auto.
    + intros [[->|H1] H2]; [congruence|auto].
Qed.

Lemma parseInt_digit k :
  1 <= k <= 5 -> JS.parseInt (JS.toString k) = Some k.
Proof.
  intros Hk. assert (k = 1 \/ k = 2 \/ k = 3 \/ k = 4 \/ k = 5) as H by lia.
  destruct H as [->|[->|[->|[->| ->]]]]; reflexivity.
Qed.

(** X24. With the date filter on "all" the feedback page never fails:
    under the rating filter "all" it shows every record, and under the
    rating filter of k stars, k from 1 to 5, it shows the records rated k,
    as many as the bar of k in the histogram counts. *)
Theorem filteredFeedback_rating env st :
  DoctorFeedback.dateFilter st = "all" ->
  (DoctorFeedback.ratingFilter st = "all" ->
     DoctorFeedback.filteredFeedback env st = Some (DoctorFeedback.feedback st))
  /\ (forall k, 1 <= k <= 5 -> DoctorFeedback.ratingFilter st = JS.toString k ->
        DoctorFeedback.filteredFeedback env st
        = Some (List.filter (fun fb => Feedback.rating fb =? k) (DoctorFeedback.feedback st))
        /\ DoctorFeedback.ratingDistribution
             (DoctorFeedback.calculateStats (DoctorFeedback.feedback st)) !! k
           = Some (Some (Z.of_nat (length
               (List.filter (fun fb => Feedback.rating fb =? k)
                  (DoctorFeedback.feedback st)))))).
Proof.
  intros Hd. unfold DoctorFeedback.filteredFeedback. split.
  - intros Hr.
    rewrite (filterThrowing_total _ (fun _ => true)).
    + f_equal. induction (DoctorFeedback.feedback st) as [|x l IH]; simpl; congruence.
    + intros fb _. unfold DoctorFeedback.keeps. rewrite Hr, Hd. reflexivity.
  - intros k Hk Hr. split.
    + apply filterThrowing_total. intros fb _. unfold DoctorFeedback.keeps.
      rewrite Hr, Hd, (parseInt_digit k Hk). simpl.
      replace (negb (String.eqb (JS.toString k) "all")) with true.
      * simpl. destruct (Feedback.rating fb =? k); reflexivity.
      * assert (k = 1 \/ k = 2 \/ k = 3 \/ k = 4 \/ k = 5) as H by lia.
        destruct H as [->|[->|[->|[->| ->]]]]; reflexivity.
    + apply ratingDistribution_key. exact Hk.
Qed.

Lemma filteredFeedback_rating_witness :
  DoctorFeedback.filteredFeedback nov1 (reviewsPage "5" "all")
  = Some [review 1 5 "great"; review 3 5 "  "].
Proof.
  apply (proj1 (proj2 (filteredFeedback_rating nov1 (reviewsPage "5" "all") eq_refl)
                  5 ltac:(lia) eq_refl)).
Defined.

Lemma keeps_window env st fb (f1 f2 : string) :
  DoctorFeedback.keeps env (DoctorFeedback.setDateFilter st f1) fb = Some true ->
  (f1 = "today" /\ f2 = "week") \/ (f1 = "week" /\ f2 = "month") ->
  DoctorFeedback.keeps env (DoctorFeedback.setDateFilter st f2) fb = Some true.
Proof.
  unfold DoctorFeedback.keeps. simpl.
  destruct (negb (String.eqb (DoctorFeedback.ratingFilter st) "all")
            && DoctorFeedback.ratingDiffers (Feedback.rating fb)
                 (JS.parseInt (DoctorFeedback.ratingFilter st))); [discriminate|].
  intros H [[-> ->]|[-> ->]]; simpl in *.
  - destruct (Feedback.createdAt fb) as [t|]; [|discriminate].
    injection H as H. apply Z.eqb_eq in H. f_equal. apply negb_true_iff, Z.ltb_ge.
    unfold JS.msPerDay in H.
    pose proof (Z.mod_pos_bound (t + JS.tzOffset env) 86400000 ltac:(lia)).
    pose proof (Z.mod_pos_bound (JS.now env + JS.tzOffset env) 86400000 ltac:(lia)).
    pose proof (Z.div_mod (t + JS.tzOffset env) 86400000 ltac:(lia)).
    pose proof (Z.div_mod (JS.now env + JS.tzOffset env) 86400000 ltac:(lia)).
    lia.
  - destruct (Feedback.createdAt fb) as [t|]; [|discriminate].
    injection H as H. apply negb_true_iff, Z.ltb_ge in H.
    f_equal. apply negb_true_iff, Z.ltb_ge. lia.
Qed.

(** X25. The date windows of the feedback page are nested: whatever the
    rating filter, every record shown under "today" is shown under "week",
    and every record shown under "week" is shown under "month".  Under a
    date filter other than "all" the page fails on a record without
    creation instant that passes the rating filter. *)
Theorem filteredFeedback_windows env st :
  (forall f1 f2 l1 l2,
     (f1 = "today" /\ f2 = "week") \/ (f1 = "week" /\ f2 = "month") ->
     DoctorFeedback.filteredFeedback env (DoctorFeedback.setDateFilter st f1) = Some l1 ->
     DoctorFeedback.filteredFeedback env (DoctorFeedback.setDateFilter st f2) = Some l2 ->
     forall fb, In fb l1 -> In fb l2)
  /\ (forall fb,
        In fb (DoctorFeedback.feedback st) ->
        Feedback.createdAt fb = None ->
        DoctorFeedback.ratingFilter st = "all" ->
        DoctorFeedback.dateFilter st <> "all" ->
        DoctorFeedback.filteredFeedback env st = None).
Proof.
  split.
  - intros f1 f2 l1 l2 Hf H1 H2 fb Hin.
    unfold DoctorFeedback.filteredFeedback in *. simpl in *.
    apply (filterThrowing_In _ _ _ fb H1) in Hin as [Hin Hk].
    apply (filterThrowing_In _ _ _ fb H2). split; [exact Hin|].
    eapply keeps_window; eauto.
  - intros fb Hin Hc Hr Hd. unfold DoctorFeedback.filteredFeedback.
    assert (Hk : DoctorFeedback.keeps env st fb = None).
    { unfold DoctorFeedback.keeps. rewrite Hr, Hc. simpl.
      destruct (String.eqb_spec (DoctorFeedback.dateFilter st) "all"); [contradiction|].
      reflexivity. }
    clear Hr Hd Hc. induction (DoctorFeedback.feedback st) as [|x l IH]; [destruct Hin|].
    simpl. destruct Hin as [->|Hin].
    + rewrite Hk. reflexivity.
    + destruct (DoctorFeedback.keeps env st x); [|reflexivity].
      rewrite IH by exact Hin. reflexivity.
Qed.

Lemma filteredFeedback_windows_witness :
  exists l2,
    DoctorFeedback.filteredFeedback nov1 (reviewsPage "all" "week") = Some l2
    /\ In (review 4 3 "late") l2.
Proof.
  exists [review 1 5 "great"; review 2 4 ""; review 3 5 "  "; review 4 3 "late"].
  split; [reflexivity|].
  apply (proj1 (filteredFeedback_windows nov1 (reviewsPage "all" "all")) "today" "week"
           [review 1 5 "great"; review 2 4 ""; review 3 5 "  "; review 4 3 "late"]
           [review 1 5 "great"; review 2 4 ""; review 3 5 "  "; review 4 3 "late"]).
  - left. split; reflexivity.
  - reflexivity.
  - reflexivity.
  - simpl. auto.
Defined.

(** ** Reading prescriptions back *)

Lemma includesId_In ids id :
  DoctorPrescriptions.includesId ids id = true <-> In id ids.
Proof.
  unfold DoctorPrescriptions.includesId. rewrite existsb_exists. split.
  - intros (x & Hx & He). apply String.eqb_eq in He. subst. exact Hx.
  - intros H. exists id. split; [exact H|apply String.eqb_refl].
Qed.

Lemma appointmentIds_In u db id :
  In id (DoctorPrescriptions.appointmentIds u db) <->
  exists a, In a (Firestore.appointments db)
            /\ Appointment.id a = id
            /\ Appointment.doctorId a = UserData.uid u
            /\ Appointment.status a = "completed".
Proof.
  unfold DoctorPrescriptions.appointmentIds. rewrite in_map_iff. split.
  - intros (a & Hid & Ha). apply filter_In in Ha as [Ha Hc].
    apply andb_true_iff in Hc as [Hd Hs]. apply String.eqb_eq in Hd, Hs.
    exists a. auto.
  - intros (a & Ha & Hid & Hd & Hs). exists a. split; [exact Hid|].
    apply filter_In. split; [exact Ha|].
    apply andb_true_iff. split; apply String.eqb_eq; assumption.
Qed.

Lemma StronglySorted_keep {A : Type} (R : A -> A -> Prop) (f : A -> bool) (l : list A) :
  StronglySorted R l -> StronglySorted R (List.filter f l).
Proof.
  induction 1 as [|x l Hs IH Hx]; simpl; [constructor|].
  destruct (f x); [|exact IH]. constructor; [exact IH|].
  rewrite List.Forall_forall in Hx |- *. intros y Hy. apply filter_In in Hy as [Hy _].
  apply Hx, Hy.
Qed.

Lemma doctor_fetch_early u db st :
  DoctorPrescriptions.appointmentIds u db = [] ->
  DoctorPrescriptions.prescriptions
    (DoctorPrescriptions.fetchPrescriptions (Some u) db true true st)
  = DoctorPrescriptions.prescriptions st.
Proof.
  intros Hnil. unfold DoctorPrescriptions.fetchPrescriptions. rewrite Hnil. reflexivity.
Qed.

Lemma doctor_fetch_In u db st rx :
  DoctorPrescriptions.appointmentIds u db <> [] ->
  In rx (DoctorPrescriptions.prescriptions
           (DoctorPrescriptions.fetchPrescriptions (Some u) db true true st))
  <-> In rx (Firestore.prescriptions db)
      /\ Prescription.createdAt rx <> None
      /\ exists a, In a (Firestore.appointments db)
                   /\ Appointment.id a = Prescription.appointmentId rx
                   /\ Appointment.doctorId a = UserData.uid u
                   /\ Appointment.status a = "completed".
Proof.
  intros Hne. unfold DoctorPrescriptions.fetchPrescriptions.
  destruct (Nat.eqb_spec (length (DoctorPrescriptions.appointmentIds u db)) 0) as [Hz|Hnz].
  - apply length_zero_iff_nil in Hz. contradiction.
  - cbn [DoctorPrescriptions.prescriptions DoctorPrescriptions.setLoading
         DoctorPrescriptions.setPrescriptions].
    rewrite filter_In, In_orderBy, includesId_In, appointmentIds_In. tauto.
Qed.

(** X26. The prescription list of a doctor, after a fetch whose two reads
    succeed and that finds a completed appointment of the doctor, holds
    exactly the stored prescriptions, with a creation instant, that were
    written for a completed appointment of this doctor, the latest first.
    When the doctor has no completed appointment the fetch stops early and
    the list stays as it was. *)
Theorem doctor_fetchPrescriptions_spec u db st :
  let st' := DoctorPrescriptions.fetchPrescriptions (Some u) db true true st in
  (DoctorPrescriptions.appointmentIds u db <> [] ->
     (forall rx, In rx (DoctorPrescriptions.prescriptions st') <->
                 In rx (Firestore.prescriptions db)
                 /\ Prescription.createdAt rx <> None
                 /\ exists a, In a (Firestore.appointments db)
                              /\ Appointment.id a = Prescription.appointmentId rx
                              /\ Appointment.doctorId a = UserData.uid u
                              /\ Appointment.status a = "completed")
     /\ latestFirst Prescription.createdAt (DoctorPrescriptions.prescriptions st'))
  /\ (DoctorPrescriptions.appointmentIds u db = [] ->
      DoctorPrescriptions.prescriptions st' = DoctorPrescriptions.prescriptions st)
  /\ DoctorPrescriptions.loading st' = false.
Proof.
  intros st'. subst st'. unfold DoctorPrescriptions.fetchPrescriptions.
  destruct (Nat.eqb_spec (length (DoctorPrescriptions.appointmentIds u db)) 0) as [Hz|Hnz].
  - apply length_zero_iff_nil in Hz. split; [congruence|]. split; reflexivity.
  - split; [|split; [|reflexivity]].
    + intros _. cbn [DoctorPrescriptions.prescriptions DoctorPrescriptions.setLoading
                     DoctorPrescriptions.setPrescriptions]. split.
      * intros rx. rewrite filter_In, In_orderBy, includesId_In, appointmentIds_In. tauto.
      * unfold latestFirst. apply StronglySorted_keep. apply orderBy_latestFirst.
    + intros Hnil. rewrite Hnil in Hnz. simpl in Hnz. congruence.
Qed.

Lemma doctor_fetchPrescriptions_spec_witness :
  DoctorPrescriptions.prescriptions
    (DoctorPrescriptions.fetchPrescriptions (Some doctor1) rxDb true true
       DoctorPrescriptions.init) = [rxOld]
  /\ latestFirst Prescription.createdAt
       (DoctorPrescriptions.prescriptions
          (DoctorPrescriptions.fetchPrescriptions (Some doctor1) rxDb true true
             DoctorPrescriptions.init)).
Proof.
  split; [reflexivity|].
  apply (proj1 (doctor_fetchPrescriptions_spec doctor1 rxDb DoctorPrescriptions.init)).
  discriminate.
Defined.

(** X27. A prescription that the form has written is read back by the
    prescription page of the patient it names and of no other patient, and
    by the prescription page of a doctor exactly when the appointment it
    was written for is a completed appointment of that doctor. *)
Theorem prescription_read_back env p newId st db :
  let res := PrescriptionForm.handleSubmit env p (Some newId) st db in
  let rx := PrescriptionForm.newPrescription env p st newId in
  accepted res ->
  (forall pu,
     In rx (ViewPrescriptions.prescriptions
              (ViewPrescriptions.fetchPrescriptions (Some pu) (PrescriptionForm.store res)
                 true ViewPrescriptions.init))
     <-> UserData.uid pu = PrescriptionForm.patientId p)
  /\ (forall du,
        In rx (DoctorPrescriptions.prescriptions
                 (DoctorPrescriptions.fetchPrescriptions (Some du)
                    (PrescriptionForm.store res) true true DoctorPrescriptions.init))
        <-> exists a, In a (Firestore.appointments db)
                      /\ Appointment.id a = PrescriptionForm.appointmentId p
                      /\ Appointment.doctorId a = UserData.uid du
                      /\ Appointment.status a = "completed").
Proof.
  intros res rx [Hd Hm].
  assert (Hstore : PrescriptionForm.store res = PrescriptionForm.addPrescription db rx).
  { subst res rx. revert Hd Hm. unfold PrescriptionForm.handleSubmit.
    destruct (JS.truthy (JS.trim (PrescriptionForm.diagnosis st))); simpl; [|congruence].
    destruct (length (PrescriptionForm.validMedications st) =? 0)%nat; simpl; [congruence|].
    reflexivity. }
  rewrite Hstore. split.
  - intros pu. simpl. unfold ViewPrescriptions.patientQuery.
    rewrite In_orderBy, filter_In, String.eqb_eq. simpl. rewrite in_app_iff. simpl.
    subst rx. simpl. split; [intros [[_ H] _]; auto|].
    intros H. split; [split; [auto|auto]|discriminate].
  - intros du.
    pose proof (doctor_fetch_In du (PrescriptionForm.addPrescription db rx)
                  DoctorPrescriptions.init) as Hsome.
    pose proof (doctor_fetch_early du (PrescriptionForm.addPrescription db rx)
                  DoctorPrescriptions.init) as Hnone.
    destruct (DoctorPrescriptions.appointmentIds du (PrescriptionForm.addPrescription db rx))
      as [|i ids] eqn:E.
    + rewrite (Hnone eq_refl). simpl. split; [tauto|].
      intros (a & Ha & Hid & Hdoc & Hs).
      assert (Hin : In (Appointment.id a)
                      (DoctorPrescriptions.appointmentIds du
                         (PrescriptionForm.addPrescription db rx))).
      { apply appointmentIds_In. exists a. simpl. auto. }
      rewrite E in Hin. destruct Hin.
    + rewrite (Hsome rx ltac:(discriminate)). simpl.
      rewrite in_app_iff. simpl. subst rx. simpl. split.
      * intros (_ & _ & H). exact H.
      * intros H. split; [auto|]. split; [discriminate|exact H].
Qed.

Lemma prescription_read_back_witness :
  In (PrescriptionForm.newPrescription nov1 rxProps threeRows "rx1")
     (ViewPrescriptions.prescriptions
        (ViewPrescriptions.fetchPrescriptions (Some patient1)
           (PrescriptionForm.store
              (PrescriptionForm.handleSubmit nov1 rxProps (Some "rx1") threeRows rxDb))
           true ViewPrescriptions.init)).
Proof.
  apply (proj1 (prescription_read_back nov1 rxProps "rx1" threeRows rxDb
                  ltac:(split; discriminate))
           patient1).
  reflexivity.
Defined.

(** ** DoctorPrescriptions: the search *)

Lemma prefix_toLowerCase t s :
  String.prefix t s = true -> String.prefix (JS.toLowerCase t) (JS.toLowerCase s) = true.
Proof.
  revert s. induction t as [|c t IH]; intros s H; [destruct s; reflexivity|].
  destruct s as [|d s]; [discriminate|]. simpl in *.
  destruct (ascii_dec c d) as [->|Hne]; [|discriminate].
  destruct (ascii_dec (JS.lowerChar d) (JS.lowerChar d)); [|congruence].
  apply IH, H.
Qed.

Lemma includes_toLowerCase s t :
  JS.includes s t = true -> JS.includes (JS.toLowerCase s) (JS.toLowerCase t) = true.
Proof.
  induction s as [|c s IH]; simpl; intros H.
  - apply orb_true_iff in H as [H|H]; [|discriminate].
    apply orb_true_iff. left. apply (prefix_toLowerCase t ""), H.
  - apply orb_true_iff in H as [H|H]; apply orb_true_iff.
    + left. apply (prefix_toLowerCase t (String c s)), H.
    + right. apply IH, H.
Qed.

Lemma includes_empty s : JS.includes s "" = true.
Proof. destruct s; reflexivity. Qed.

Lemma prefix_refl s : String.prefix s s = true.
Proof.
  induction s as [|c s IH]; simpl; [reflexivity|].
  destruct (ascii_dec c c); [exact IH|congruence].
Qed.

Lemma includes_refl s : JS.includes s s = true.
Proof.
  destruct s as [|c s]; [reflexivity|].
  cbn [JS.includes]. rewrite prefix_refl. reflexivity.
Qed.

(** X28. With the date filter on "all" the search of the doctor's
    prescription page never fails and keeps the order; the empty search
    term shows every prescription; a search for the whole patient name or
    the whole diagnosis of a prescription shows it; and for text of the
    ASCII range a prescription whose patient name or diagnosis contains the
    term as typed is shown, the comparison ignoring the case of the letters
    A to Z. *)
Theorem filteredPrescriptions_search env st :
  DoctorPrescriptions.dateFilter st = "all" ->
  DoctorPrescriptions.filteredPrescriptions env st
  = Some (List.filter (DoctorPrescriptions.matchesSearch st)
            (DoctorPrescriptions.prescriptions st))
  /\ (DoctorPrescriptions.searchTerm st = "" ->
      DoctorPrescriptions.filteredPrescriptions env st
      = Some (DoctorPrescriptions.prescriptions st))
  /\ (forall rx, In rx (DoctorPrescriptions.prescriptions st) ->
        DoctorPrescriptions.searchTerm st = Prescription.patientName rx
        \/ DoctorPrescriptions.searchTerm st = Prescription.diagnosis rx ->
        DoctorPrescriptions.matchesSearch st rx = true)
  /\ (forall rx, In rx (DoctorPrescriptions.prescriptions st) ->
        isASCII (DoctorPrescriptions.searchTerm st) = true ->
        isASCII (Prescription.patientName rx) = true ->
        isASCII (Prescription.diagnosis rx) = true ->
        JS.includes (Prescription.patientName rx) (DoctorPrescriptions.searchTerm st) = true
        \/ JS.includes (Prescription.diagnosis rx) (DoctorPrescriptions.searchTerm st) = true ->
        DoctorPrescriptions.matchesSearch st rx = true).
Proof.
  intros Hd.
  assert (H : DoctorPrescriptions.filteredPrescriptions env st
              = Some (List.filter (DoctorPrescriptions.matchesSearch st)
                        (DoctorPrescriptions.prescriptions st))).
  { unfold DoctorPrescriptions.filteredPrescriptions. apply filterThrowing_total.
    intros rx _. unfold DoctorPrescriptions.keeps. rewrite Hd.
    destruct (DoctorPrescriptions.matchesSearch st rx); reflexivity. }
  split; [exact H|]. split; [|split].
  - intros Hs. rewrite H. f_equal. clear H.
    induction (DoctorPrescriptions.prescriptions st) as [|rx l IH]; [reflexivity|].
    simpl. unfold DoctorPrescriptions.matchesSearch at 1. rewrite Hs. simpl.
    rewrite includes_empty. simpl. rewrite IH. reflexivity.
  - intros rx _ He. unfold DoctorPrescriptions.matchesSearch. apply orb_true_iff.
    destruct He as [-> | ->]; [left|right]; apply includes_refl.
  - intros rx _ _ _ _ Hi. unfold DoctorPrescriptions.matchesSearch. apply orb_true_iff.
    destruct Hi as [Hi|Hi]; [left|right]; apply includes_toLowerCase, Hi.
Qed.

Lemma filteredPrescriptions_search_witness :
  DoctorPrescriptions.filteredPrescriptions nov1 (rxPage "PAT") = Some [rxOld]
  /\ DoctorPrescriptions.filteredPrescriptions nov1 (rxPage "") = Some [rxOld]
  /\ DoctorPrescriptions.matchesSearch (rxPage "Pa") rxOld = true.
Proof.
  split; [|split].
  - rewrite (proj1 (filteredPrescriptions_search nov1 (rxPage "PAT") eq_refl)). reflexivity.
  - apply (proj1 (proj2 (filteredPrescriptions_search nov1 (rxPage "") eq_refl))).
    reflexivity.
  - apply (proj2 (proj2 (proj2 (filteredPrescriptions_search nov1 (rxPage "Pa") eq_refl)))
             rxOld).
    + left. reflexivity.
    + reflexivity.
    + reflexivity.
    + reflexivity.
    + left. reflexivity.
Defined.

(** ** The route guard *)

(** X29. No route of the application renders a page reserved for a role
    unless there is a current user whose role is that role; the login and
    the registration page are the only ones rendered without one. *)
Theorem protected_pages_guarded (r : App.Route) (a : App.Auth) (page : App.Page) :
  App.element r a = App.Render page ->
  match App.pageRole page with
  | Some required => App.currentUser a = true /\ App.role a = Some required
  | None => page = App.LoginPage \/ page = App.RegisterPage
  end.
Proof.
  assert (Hg : forall required children,
             App.ProtectedRoute a (Some required) children = App.Render page ->
             required <> "" ->
             App.currentUser a = true /\ App.role a = Some required /\ children = page).
  { intros required children H Hne. unfold App.ProtectedRoute in H.
    destruct (App.currentUser a); simpl in H; [|discriminate].
    replace (JS.truthy required) with true in H by (symmetry; apply truthy_true, Hne).
    simpl in H. unfold Firestore.eq_opt in H.
    destruct (App.role a) as [x|]; simpl in H; [|discriminate].
    destruct (String.eqb_spec x required) as [E|]; simpl in H; [|discriminate].
    injection H as H. subst. auto. }
  destruct r; simpl; intros H;
    try (injection H as <-; simpl; auto; fail);
    try discriminate;
    (apply Hg in H as (Hc & Hr & <-); [simpl; auto|discriminate]).
Qed.

Lemma protected_pages_guarded_witness :
  App.currentUser asDoctor = true /\ App.role asDoctor = Some "doctor".
Proof.
  apply (protected_pages_guarded App.doctorAppointments asDoctor App.ManageAppointmentsPage).
  reflexivity.
Defined.

(** X30. A signed-in patient or doctor who opens a route of the other role
    is sent to the path of the own dashboard route, and that route renders
    for them: the redirect does not bounce.  Without a current user every
    guarded route sends to the login path. *)
Theorem role_mismatch_redirect (r : App.Route) (a : App.Auth) (to : string) :
  App.element r a = App.Navigate to ->
  (App.currentUser a = false -> to = "/login")
  /\ (App.currentUser a = true ->
      forall mine own,
        App.role a = Some mine -> dashboardOf mine = Some own ->
        to = "/login"
        \/ (to = App.routePath own /\ exists page, App.element own a = App.Render page)).
Proof.
  intros H. split.
  - intros Hc. destruct r; simpl in H; unfold App.ProtectedRoute in H; rewrite ?Hc in H;
      simpl in H; congruence.
  - intros Hc mine own Hr Ho. unfold dashboardOf in Ho.
    destruct (String.eqb_spec mine "patient") as [->|Hnp].
    + injection Ho as <-.
      destruct r; simpl in H; unfold App.ProtectedRoute, App.roleText in H;
        rewrite ?Hc, ?Hr in H; simpl in H; try discriminate;
        injection H as <-; auto; right; (split; [reflexivity|]);
        simpl; unfold App.ProtectedRoute; rewrite Hc, Hr; simpl; eauto.
    + destruct (String.eqb_spec mine "doctor") as [->|Hnd]; [|discriminate].
      injection Ho as <-.
      destruct r; simpl in H; unfold App.ProtectedRoute, App.roleText in H;
        rewrite ?Hc, ?Hr in H; simpl in H; try discriminate;
        injection H as <-; auto; right; (split; [reflexivity|]);
        simpl; unfold App.ProtectedRoute; rewrite Hc, Hr; simpl; eauto.
Qed.

Lemma role_mismatch_redirect_witness :
  "/patient/dashboard" = "/login"
  \/ ("/patient/dashboard" = App.routePath App.patientDashboard
      /\ exists page, App.element App.patientDashboard asPatient = App.Render page).
Proof.
  apply (proj2 (role_mismatch_redirect App.doctorFeedback asPatient "/patient/dashboard"
                  eq_refl) eq_refl "patient" App.patientDashboard eq_refl eq_refl).
Defined.
